(** * Repository analyser and question-answering agent: a shallow embedding

    The development follows [utils/parser_utils.py] (class [CodeParser]),
    [utils/qa_agent.py] (class [QAAgent]) and [utils/summarizer.py]
    (method [get_important_files]).

    Conventions.
    - A Python [str] is a [string]; its characters are the code points
      0..255 (the Latin-1 block), which is where [str.lower] and
      [str.strip] are modelled.
    - A Python [dict] is an association list in insertion order
      (assignment to an existing key keeps the key's position).
    - [len], line numbers and counters are [nat]; byte sizes are [N];
      the importance score is a [Z].
    - A function that can raise returns an [outcome]; a function that
      returns [None] on failure returns an [option]. *)

From Stdlib Require Import String Ascii List Bool Arith NArith ZArith Lia.
From Stdlib Require Import DecimalString Sorted Permutation.
Import ListNotations.

Local Open Scope list_scope.
Local Open Scope string_scope.
Local Open Scope nat_scope.

Set Implicit Arguments.

(** [+++] appends lists; [++] is kept for strings. *)
Local Infix "+++" := app (right associativity, at level 60) : list_scope.

(* ================================================================== *)
(** * Python strings *)
(* ================================================================== *)

Module PyStr.

Definition newline : ascii := "010"%char.
Definition slash : ascii := "/"%char.
Definition dquote : ascii := ascii_of_nat 34.

Definition str1 (c : ascii) : string := String c EmptyString.

(** [s.lower()] on the code points 0..255: A-Z, and the Latin-1 capitals
    0xC0-0xDE except the multiplication sign 0xD7, move up by 32. *)
Definition lower_char (c : ascii) : ascii :=
  let n := nat_of_ascii c in
  if ((65 <=? n) && (n <=? 90))
     || ((192 <=? n) && (n <=? 222) && negb (n =? 215))
  then ascii_of_nat (n + 32) else c.

Fixpoint lower (s : string) : string :=
  match s with
  | EmptyString => EmptyString
  | String c s' => String (lower_char c) (lower s')
  end.

(** [s.startswith(p)] *)
Definition startswith (s p : string) : bool := String.prefix p s.

(** [sub in s] *)
Fixpoint contains (sub s : string) : bool :=
  String.prefix sub s ||
  match s with
  | EmptyString => false
  | String _ s' => contains sub s'
  end.

(** [s[:n]] for [n >= 0] *)
Fixpoint take (n : nat) (s : string) : string :=
  match n, s with
  | S k, String c s' => String c (take k s')
  | _, _ => EmptyString
  end.

(** [s[n:]] for [n >= 0] *)
Fixpoint drop (n : nat) (s : string) : string :=
  match n, s with
  | S k, String _ s' => drop k s'
  | _, _ => s
  end.

(** [s.endswith(p)] *)
Definition endswith (s p : string) : bool :=
  (String.length p <=? String.length s)
  && String.eqb (drop (String.length s - String.length p) s) p.

(** [s.count(c)] for a one-character [c] *)
Fixpoint count (c : ascii) (s : string) : nat :=
  match s with
  | EmptyString => 0
  | String a s' => (if Ascii.eqb a c then 1 else 0) + count c s'
  end.

(** [s.split(c)] for a one-character separator [c]: never empty, and
    [''.split(c) == ['']]. *)
Fixpoint split (sep : ascii) (s : string) : list string :=
  match s with
  | EmptyString => [EmptyString]
  | String a s' =>
      if Ascii.eqb a sep then EmptyString :: split sep s'
      else match split sep s' with
           | h :: t => String a h :: t
           | [] => [str1 a]
           end
  end.

(** [sep.join(parts)] *)
Definition join (sep : string) (parts : list string) : string :=
  String.concat sep parts.

(** [s.rfind(c)] for a one-character [c]; [None] stands for -1. *)
Fixpoint rfind (c : ascii) (s : string) : option nat :=
  match s with
  | EmptyString => None
  | String a s' =>
      match rfind c s' with
      | Some i => Some (S i)
      | None => if Ascii.eqb a c then Some 0 else None
      end
  end.

(** Whitespace of [str.strip()] among the code points 0..255. *)
Definition is_space (c : ascii) : bool :=
  let n := nat_of_ascii c in
  ((9 <=? n) && (n <=? 13)) || ((28 <=? n) && (n <=? 32))
  || (n =? 133) || (n =? 160).

Fixpoint lstrip_by (p : ascii -> bool) (s : string) : string :=
  match s with
  | EmptyString => EmptyString
  | String a s' => if p a then lstrip_by p s' else s
  end.

Fixpoint rstrip_by (p : ascii -> bool) (s : string) : string :=
  match s with
  | EmptyString => EmptyString
  | String a s' =>
      match rstrip_by p s' with
      | EmptyString => if p a then EmptyString else str1 a
      | r => String a r
      end
  end.

Definition strip_by (p : ascii -> bool) (s : string) : string :=
  rstrip_by p (lstrip_by p s).

(** [s.strip()] *)
Definition strip (s : string) : string := strip_by is_space s.

(** The truth value of a string: empty is false. *)
Definition truthy (s : string) : bool := negb (String.eqb s EmptyString).

(** [str(n)] and the f-string rendering of an integer. *)
Definition of_nat (n : nat) : string := NilEmpty.string_of_uint (Nat.to_uint n).
Definition of_N (n : N) : string := NilEmpty.string_of_uint (N.to_uint n).

(** The f-string rendering of an optional string ([None] prints as
    [None]). *)
Definition of_opt (o : option string) : string :=
  match o with Some s => s | None => "None" end.

(** [x in [a, b, ...]] for strings *)
Definition mem (x : string) (l : list string) : bool :=
  existsb (String.eqb x) l.

(** [any(k in s for k in keywords)] *)
Definition any_in (keywords : list string) (s : string) : bool :=
  existsb (fun k => contains k s) keywords.

(** [c * n] *)
Fixpoint replicate (n : nat) (c : ascii) : string :=
  match n with
  | 0 => EmptyString
  | S k => String c (replicate k c)
  end.

End PyStr.

(* ================================================================== *)
(** * Python lists and dicts *)
(* ================================================================== *)

Module PyList.

(** [l[-n:]] for [n > 0] *)
Definition last_n {A} (n : nat) (l : list A) : list A :=
  skipn (length l - n) l.

(** The truth value of a list: empty is false. *)
Definition truthy {A} (l : list A) : bool :=
  match l with [] => false | _ => true end.

End PyList.

Module PyDict.

Definition dict (V : Type) : Type := list (string * V).

Fixpoint get {V} (k : string) (d : dict V) : option V :=
  match d with
  | [] => None
  | (k', v) :: d' => if String.eqb k k' then Some v else get k d'
  end.

(** [d[k] = v] *)
Fixpoint set {V} (k : string) (v : V) (d : dict V) : dict V :=
  match d with
  | [] => [(k, v)]
  | (k', v') :: d' =>
      if String.eqb k k' then (k, v) :: d' else (k', v') :: set k v d'
  end.

Definition keys {V} (d : dict V) : list string := map fst d.
Definition values {V} (d : dict V) : list V := map snd d.

(** [k in d] *)
Definition has {V} (k : string) (d : dict V) : bool :=
  match get k d with Some _ => true | None => false end.

End PyDict.

(** What a call that may raise produces. *)
Inductive outcome (A : Type) : Type :=
| Returned (a : A)
| Raised (message : string).
Arguments Returned {A} a.
Arguments Raised {A} message.

(* ================================================================== *)
(** * [pathlib.Path] and [os.path] on POSIX paths *)
(* ================================================================== *)

Module PyPath.
Import PyStr.

Fixpoint leading_slashes (s : string) : nat :=
  match s with
  | String a s' => if Ascii.eqb a slash then S (leading_slashes s') else 0
  | EmptyString => 0
  end.

(** The root of a path: none, [/], or [//] for exactly two slashes. *)
Definition anchor (p : string) : list string :=
  match leading_slashes p with
  | 0 => []
  | 2 => ["//"]
  | _ => ["/"]
  end.

(** The components after the root: empty and [.] components are
    dropped. *)
Definition tail (p : string) : list string :=
  filter (fun s => negb (String.eqb s "") && negb (String.eqb s "."))
         (split slash p).

(** [Path(p).parts] *)
Definition parts (p : string) : list string := anchor p ++ tail p.

(** [Path(p).name] *)
Definition name (p : string) : string := last (tail p) "".

(** [Path(p).suffix]: from the last dot of the name, unless that dot is
    the first or the last character. *)
Definition suffix (p : string) : string :=
  let n := name p in
  match rfind "."%char n with
  | Some i => if (0 <? i) && (i <? String.length n - 1) then drop i n else ""
  | None => ""
  end.

(** [os.path.join(a, b)] *)
Definition os_path_join (a b : string) : string :=
  if startswith b "/" then b
  else if String.eqb a "" || endswith a "/" then a ++ b
  else a ++ "/" ++ b.

End PyPath.

(* ================================================================== *)
(** * [CodeParser]: the static tables and the path classifier *)
(* ================================================================== *)

Module CodeParser.
Import PyStr PyPath PyDict.

Definition supported_extensions : dict string :=
  [ (".py", "python"); (".js", "javascript"); (".ts", "typescript");
    (".jsx", "javascript"); (".tsx", "typescript"); (".java", "java");
    (".cpp", "cpp"); (".c", "c"); (".h", "c"); (".hpp", "cpp");
    (".cs", "csharp"); (".php", "php"); (".rb", "ruby"); (".go", "go");
    (".rs", "rust"); (".swift", "swift"); (".kt", "kotlin");
    (".scala", "scala"); (".r", "r"); (".sql", "sql"); (".sh", "bash");
    (".yaml", "yaml"); (".yml", "yaml"); (".json", "json");
    (".xml", "xml"); (".html", "html"); (".css", "css");
    (".md", "markdown"); (".txt", "text"); (".rst", "restructuredtext") ].

Definition ignore_dirs : list string :=
  [ "__pycache__"; ".git"; ".svn"; ".hg"; "node_modules";
    "venv"; "env"; ".env"; "build"; "dist"; ".tox";
    "coverage"; ".coverage"; ".pytest_cache"; ".mypy_cache";
    "target"; "bin"; "obj"; ".gradle"; ".idea"; ".vscode";
    "vendor"; "deps"; "_build"; ".next"; ".nuxt" ].

Definition ignore_files : list string :=
  [ ".gitignore"; ".dockerignore"; ".env"; ".env.local";
    "package-lock.json"; "yarn.lock"; "poetry.lock";
    "Pipfile.lock"; "composer.lock" ].

Definition binary_extensions : list string :=
  [ ".exe"; ".dll"; ".so"; ".dylib"; ".bin"; ".dat";
    ".pdf"; ".doc"; ".docx"; ".xls"; ".xlsx"; ".ppt"; ".pptx";
    ".jpg"; ".jpeg"; ".png"; ".gif"; ".bmp"; ".svg"; ".ico";
    ".mp3"; ".mp4"; ".avi"; ".mov"; ".wmv"; ".flv";
    ".zip"; ".rar"; ".tar"; ".gz"; ".7z";
    ".jar"; ".war"; ".ear"; ".pyc"; ".pyo"; ".pyd" ].

Definition should_ignore_path (path : string) : bool :=
  if existsb (fun part => mem part ignore_dirs) (parts path) then true
  else if mem (name path) ignore_files then true
  else if mem (lower (suffix path)) binary_extensions then true
  else false.

Definition get_file_language (file_path : string) : option string :=
  get (lower (suffix file_path)) supported_extensions.

(* ---------------------------------------------------------------- *)
(** ** The records of the data model *)

Record FunctionRecord := {
  fn_name : string;
  fn_line : nat;
  fn_args : list string;
  fn_docstring : option string;
  fn_decorators : list string;
  fn_type : option string
}.

Record ClassRecord := {
  cls_name : string;
  cls_line : nat;
  cls_bases : list string;
  cls_docstring : option string;
  cls_methods : list string
}.

Record VariableRecord := {
  var_name : string;
  var_line : nat;
  var_type : string
}.

(** The dictionary [file_info]. The keys [content] and [code_blocks]
    are optional; [language] is [None] for an unmapped extension. *)
Record FileRecord := {
  path : string;
  full_path : string;
  language : option string;
  size : N;
  lines : nat;
  content_preview : string;
  functions : list FunctionRecord;
  classes : list ClassRecord;
  imports : list string;
  variables : list VariableRecord;
  comments : list string;
  content : option string;
  code_blocks : option nat
}.

Definition with_content (c : string) (fi : FileRecord) : FileRecord :=
  {| path := path fi; full_path := full_path fi; language := language fi;
     size := size fi; lines := lines fi;
     content_preview := content_preview fi;
     functions := functions fi; classes := classes fi;
     imports := imports fi; variables := variables fi;
     comments := comments fi; content := Some c;
     code_blocks := code_blocks fi |}.

Definition with_code_blocks (n : nat) (fi : FileRecord) : FileRecord :=
  {| path := path fi; full_path := full_path fi; language := language fi;
     size := size fi; lines := lines fi;
     content_preview := content_preview fi;
     functions := functions fi; classes := classes fi;
     imports := imports fi; variables := variables fi;
     comments := comments fi; content := content fi;
     code_blocks := Some n |}.

(** What one strategy appends to the lists of [file_info]. *)
Record extraction := {
  ex_functions : list FunctionRecord;
  ex_classes : list ClassRecord;
  ex_imports : list string;
  ex_variables : list VariableRecord;
  ex_comments : list string
}.

Definition extend (fi : FileRecord) (ex : extraction) : FileRecord :=
  {| path := path fi; full_path := full_path fi; language := language fi;
     size := size fi; lines := lines fi;
     content_preview := content_preview fi;
     functions := (functions fi +++ ex_functions ex);
     classes := (classes fi +++ ex_classes ex);
     imports := (imports fi +++ ex_imports ex);
     variables := (variables fi +++ ex_variables ex);
     comments := (comments fi +++ ex_comments ex);
     content := content fi;
     code_blocks := code_blocks fi |}.

(** The library engines behind the strategies: the [ast] walk of
    [analyze_python_file] (what it appended, and whether it raised) and
    the [re] scans of the other strategies. *)
Record engines := {
  python_ast : string -> extraction * bool;
  js_patterns : string -> extraction;
  java_patterns : string -> extraction;
  generic_patterns : string -> extraction;
  code_block_matches : string -> nat
}.

(* ---------------------------------------------------------------- *)
(** ** The file system seen by the parser *)

(** What [open(...).read()] gives: the text decoded as UTF-8 or, failing
    that, as Latin-1; or an error ([os.stat] failing is the same case). *)
Inductive read_outcome :=
| Decoded (text : string)
| ReadError.

Record fs_file := {
  fs_name : string;
  st_size : N;
  fs_read : read_outcome
}.

#[warnings="-register-all"]
Inductive fs_entry :=
| FsFile (f : fs_file)
| FsDir (dirname : string) (children : list fs_entry).

Definition files_of (children : list fs_entry) : list fs_file :=
  flat_map (fun e => match e with FsFile f => [f] | FsDir _ _ => [] end)
           children.

(** One triple yielded by [os.walk], with the directory's path relative
    to the repository root kept as its list of names. *)
Record walk_step := {
  ws_root : string;
  ws_rel : list string;
  ws_files : list fs_file
}.

(** [os.walk] below one entry, with the pruning
    [dirs[:] = [d for d in dirs if not should_ignore_path(join(root, d))]]. *)
Fixpoint walk_entry (top : string) (rel : list string) (e : fs_entry)
  : list walk_step :=
  match e with
  | FsFile _ => []
  | FsDir d children =>
      let here := os_path_join top d in
      if should_ignore_path here then []
      else {| ws_root := here; ws_rel := (rel +++ [d]);
              ws_files := files_of children |}
           :: flat_map (walk_entry here (rel +++ [d])) children
  end.

Definition walk (repo_path : string) (tree : list fs_entry) : list walk_step :=
  {| ws_root := repo_path; ws_rel := []; ws_files := files_of tree |}
  :: flat_map (walk_entry repo_path []) tree.

(** A file that survived the path filter: its path, its path relative
    to the repository root, and the file. *)
Record walked_file := {
  wf_path : string;
  wf_rel : string;
  wf_file : fs_file
}.

Definition kept_files (st : walk_step) : list fs_file :=
  filter (fun f => negb (should_ignore_path (os_path_join (ws_root st) (fs_name f))))
         (ws_files st).

Definition step_files (st : walk_step) : list walked_file :=
  map (fun f => {| wf_path := os_path_join (ws_root st) (fs_name f);
                   wf_rel := join "/" (ws_rel st +++ [fs_name f]);
                   wf_file := f |})
      (kept_files st).

Definition all_files (repo_path : string) (tree : list fs_entry)
  : list walked_file :=
  flat_map step_files (walk repo_path tree).

(* ---------------------------------------------------------------- *)
(** ** [analyze_file] and its strategies *)

Definition prose_languages : list string :=
  ["markdown"; "text"; "restructuredtext"].

Definition language_in (l : option string) (ls : list string) : bool :=
  match l with Some s => mem s ls | None => false end.

Definition is_hash (c : ascii) : bool := Ascii.eqb c "#"%char.

(** The loop of [analyze_text_file] over [enumerate(lines)], from index
    [i]. *)
Fixpoint markdown_headers (i : nat) (ls : list string) : list FunctionRecord :=
  match ls with
  | [] => []
  | line :: rest =>
      if startswith (strip line) "#" then
        let level := String.length line - String.length (lstrip_by is_hash line) in
        let title := strip (strip_by is_hash line) in
        {| fn_name := title; fn_line := i + 1; fn_args := [];
           fn_docstring := None; fn_decorators := [];
           fn_type := Some ("header_h" ++ of_nat level) |}
        :: markdown_headers (S i) rest
      else markdown_headers (S i) rest
  end.

Definition no_extraction : extraction :=
  {| ex_functions := []; ex_classes := []; ex_imports := [];
     ex_variables := []; ex_comments := [] |}.

Section Strategies.
Variable E : engines.

Definition analyze_generic_file (text : string) (fi : FileRecord) : FileRecord :=
  extend fi (generic_patterns E text).

(** On any exception of the [ast] walk the generic strategy runs on
    top of what was appended so far. *)
Definition analyze_python_file (text : string) (fi : FileRecord) : FileRecord :=
  let (ex, raised) := python_ast E text in
  let fi := extend fi ex in
  if raised then analyze_generic_file text fi else fi.

Definition analyze_js_file (text : string) (fi : FileRecord) : FileRecord :=
  extend fi (js_patterns E text).

Definition analyze_java_file (text : string) (fi : FileRecord) : FileRecord :=
  extend fi (java_patterns E text).

Definition analyze_text_file (text : string) (fi : FileRecord) : FileRecord :=
  let ls := split newline text in
  let fi :=
    if language_in (language fi) ["markdown"] then
      extend fi {| ex_functions := markdown_headers 0 ls; ex_classes := [];
                   ex_imports := []; ex_variables := []; ex_comments := [] |}
    else fi in
  with_code_blocks (code_block_matches E text) fi.

(** [analyze_file(file_path, repo_root)]: [rel_path] is
    [os.path.relpath(file_path, repo_root)] and [f] is the file found at
    [file_path]. [None] is the skip signal. *)
Definition analyze_file (file_path rel_path : string) (f : fs_file)
  : option FileRecord :=
  let file_size := st_size f in
  if (1024 * 1024 <? file_size)%N then None
  else
    let language := get_file_language file_path in
    match fs_read f with
    | ReadError => None
    | Decoded text =>
        let lines := split newline text in
        let file_info :=
          {| path := rel_path; full_path := file_path;
             language := language; size := file_size;
             lines := List.length lines;
             content_preview :=
               take 500 text ++ (if 500 <? String.length text then "..." else "");
             functions := []; classes := []; imports := [];
             variables := []; comments := [];
             content := None; code_blocks := None |} in
        let file_name_lower := lower (name file_path) in
        let file_info :=
          if contains "readme" file_name_lower
             || startswith file_name_lower "license"
             || startswith file_name_lower "changelog"
             || startswith file_name_lower "contributing"
             || language_in language prose_languages
             || (String.length text <? 5000)
          then with_content text file_info else file_info in
        Some
          (if language_in language ["python"] then
             analyze_python_file text file_info
           else if language_in language ["javascript"; "typescript"] then
             analyze_js_file text file_info
           else if language_in language ["java"] then
             analyze_java_file text file_info
           else if language_in language prose_languages then
             analyze_text_file text file_info
           else analyze_generic_file text file_info)
    end.

(* ---------------------------------------------------------------- *)
(** ** [analyze_repository] *)

Record lang_stats := {
  ls_files : nat;
  ls_lines : nat
}.

Record summary_totals := {
  total_lines : nat;
  total_functions : nat;
  total_classes : nat;
  total_imports : nat
}.

(** The nested dictionary built by [generate_directory_structure]: a
    key holds a nested dictionary, and the key [_files] a list of names. *)
#[warnings="-register-all"]
Inductive structure_node :=
| Sub (entries : list (string * structure_node))
| Files (names : list string).

Record RepositoryAnalysis := {
  repository_path : string;
  total_files : nat;
  analyzed_files : nat;
  languages : dict lang_stats;
  files : list FileRecord;
  structure : dict structure_node;
  summary : summary_totals
}.

(** The language statistics after one more file of language [lang]. *)
Definition count_language (lang : string) (n : nat) (langs : dict lang_stats)
  : dict lang_stats :=
  let st := match get lang langs with
            | Some st => st
            | None => {| ls_files := 0; ls_lines := 0 |}
            end in
  set lang {| ls_files := ls_files st + 1; ls_lines := ls_lines st + n |} langs.

(** [if lang:] *)
Definition lang_truthy (l : option string) : bool :=
  match l with Some s => truthy s | None => false end.

(** The body of the loop for a file whose analysis succeeded. *)
Definition record_file (a : RepositoryAnalysis) (fi : FileRecord)
  : RepositoryAnalysis :=
  {| repository_path := repository_path a;
     total_files := total_files a;
     analyzed_files := analyzed_files a + 1;
     languages :=
       match language fi with
       | Some lang =>
           if truthy lang then count_language lang (lines fi) (languages a)
           else languages a
       | None => languages a
       end;
     files := (files a +++ [fi]);
     structure := structure a;
     summary :=
       {| total_lines := total_lines (summary a) + lines fi;
          total_functions :=
            total_functions (summary a) + List.length (functions fi);
          total_classes := total_classes (summary a) + List.length (classes fi);
          total_imports := total_imports (summary a) + List.length (imports fi) |}
  |}.

(** [current_dict['_files'].extend(filtered_files)], creating the list
    first; nothing is done for no names. [None]: the statement raises. *)
Definition add_files (names : list string) (d : dict structure_node)
  : option (dict structure_node) :=
  match names with
  | [] => Some d
  | _ =>
      match get "_files" d with
      | None => Some (set "_files" (Files names) d)
      | Some (Files l) => Some (set "_files" (Files (l +++ names)) d)
      | Some (Sub _) => None
      end
  end.

(** The descent along [path_parts] from [d], then [add_files]. Once the
    descent has stepped onto a list of names, any further indexing or
    assignment raises. *)
Fixpoint enter (path_parts : list string) (names : list string)
  (d : dict structure_node) : option (dict structure_node) :=
  match path_parts with
  | [] => add_files names d
  | part :: rest =>
      match get part d with
      | None =>
          match enter rest names [] with
          | Some sub => Some (set part (Sub sub) d)
          | None => None
          end
      | Some (Sub sub) =>
          match enter rest names sub with
          | Some sub' => Some (set part (Sub sub') d)
          | None => None
          end
      | Some (Files _) =>
          match rest, names with
          | [], [] => Some d
          | _, _ => None
          end
      end
  end.

(** [generate_directory_structure]; [None]: it raises. *)
Definition generate_directory_structure (repo_path : string)
  (tree : list fs_entry) : option (dict structure_node) :=
  fold_left
    (fun acc st =>
       match acc with
       | Some d => enter (ws_rel st) (map fs_name (kept_files st)) d
       | None => None
       end)
    (walk repo_path tree) (Some []).

Definition analyze_step (a : RepositoryAnalysis) (w : walked_file)
  : RepositoryAnalysis :=
  match analyze_file (wf_path w) (wf_rel w) (wf_file w) with
  | Some fi => record_file a fi
  | None => a
  end.

(** The analysis before the directory structure is attached. *)
Definition analyze_files (repo_path : string) (tree : list fs_entry)
  : RepositoryAnalysis :=
  let ws := all_files repo_path tree in
  fold_left analyze_step ws
    {| repository_path := repo_path;
       total_files := List.length ws;
       analyzed_files := 0;
       languages := [];
       files := [];
       structure := [];
       summary := {| total_lines := 0; total_functions := 0;
                     total_classes := 0; total_imports := 0 |} |}.

(** [analyze_repository(repo_path)] on the tree found at [repo_path];
    [None] is the empty dictionary returned when the run raised. The
    progress callback is left out. *)
Definition analyze_repository (repo_path : string) (tree : list fs_entry)
  : option RepositoryAnalysis :=
  let a := analyze_files repo_path tree in
  match generate_directory_structure repo_path tree with
  | Some d =>
      Some {| repository_path := repository_path a;
              total_files := total_files a;
              analyzed_files := analyzed_files a;
              languages := languages a;
              files := files a;
              structure := d;
              summary := summary a |}
  | None => None
  end.

End Strategies.

End CodeParser.

(* ================================================================== *)
(** * [RepositorySummarizer.get_important_files] *)
(* ================================================================== *)

Module RepositorySummarizer.
Import PyStr PyDict CodeParser.

Local Open Scope Z_scope.

(** [calculate_importance_score(file_info)] *)
Definition calculate_importance_score (file_info : FileRecord) : Z :=
  let score := 0 in
  let path := lower (path file_info) in
  let language := language file_info in
  let lines := Z.of_nat (lines file_info) in
  let functions_count := Z.of_nat (List.length (functions file_info)) in
  let classes_count := Z.of_nat (List.length (classes file_info)) in
  let score :=
    if any_in ["main"; "index"; "app"; "server"; "api"; "__init__"] path
    then score + 50 else score in
  let score :=
    if any_in ["readme"; "documentation"; "doc"] path
    then score + 40 else score in
  let score :=
    if any_in ["config"; "settings"; "setup"] path
    then score + 30 else score in
  let score :=
    if existsb (endswith path)
         ["requirements.txt"; "package.json"; "pom.xml"; "cargo.toml"]
    then score + 35 else score in
  let score :=
    if language_in language ["python"; "javascript"; "typescript"; "java"; "cpp"]
    then score + 20
    else if language_in language ["markdown"; "yaml"; "json"]
    then score + 10 else score in
  let score :=
    if lines >? 100 then score + Z.min (lines / 50) 20 else score in
  let score :=
    if functions_count >? 0 then score + Z.min (functions_count * 3) 30
    else score in
  let score :=
    if classes_count >? 0 then score + Z.min (classes_count * 5) 25
    else score in
  let score := if lines >? 2000 then score - 20 else score in
  let score :=
    if (Z.of_nat (count slash path) <=? 1) || contains "/src/" path
    then score + 15 else score in
  score.

(** [list.sort(key=..., reverse=True)] is stable: an element is placed
    before the first element whose key is not greater than its own. *)
Fixpoint insert_desc {A} (key : A -> Z) (x : A) (l : list A) : list A :=
  match l with
  | [] => [x]
  | y :: l' =>
      if key y >? key x then y :: insert_desc key x l' else x :: y :: l'
  end.

Definition sort_desc {A} (key : A -> Z) (l : list A) : list A :=
  fold_right (insert_desc key) [] l.

Definition get_important_files (files : list FileRecord) : list FileRecord :=
  let scored_files :=
    map (fun file_info => (file_info, calculate_importance_score file_info))
        files in
  map fst (sort_desc snd scored_files).

End RepositorySummarizer.

(* ================================================================== *)
(** * [QAAgent] *)
(* ================================================================== *)

Module QAAgent.
Import PyStr PyList PyDict CodeParser.

(* ---------------------------------------------------------------- *)
(** ** The summary handed over by the summarizer *)

Record FileSummary := {
  sum_file : string;
  sum_language : option string;
  sum_lines : nat;
  sum_summary : string;
  sum_functions_count : nat;
  sum_classes_count : nat
}.

Record Component := {
  comp_name : string;
  files_count : nat;
  comp_total_lines : nat;
  functions_count : nat;
  classes_count : nat;
  comp_languages : list string;
  key_files : list string
}.

Record Metadata := {
  generated_at : string;
  md_total_files : nat;
  md_analyzed_files : nat;
  md_repository_path : string;
  repo_info : dict string
}.

Record Summary := {
  overview : string;
  file_summaries : list FileSummary;
  language_breakdown : dict lang_stats;
  structure_analysis : string;
  key_components : list Component;
  recommendations : string;
  metadata : option Metadata
}.

(* ---------------------------------------------------------------- *)
(** ** The state of the agent *)

(** [context_cache]; [cc_analysis = None] is the empty dictionary. *)
Record ContextCache := {
  cc_analysis : option RepositoryAnalysis;
  cc_summary : option Summary;
  cc_repository_overview : string;
  cc_file_summaries : list FileSummary;
  cc_structure_analysis : string;
  cc_key_components : list Component;
  cc_language_breakdown : dict lang_stats;
  cc_metadata : option Metadata
}.

Record FunctionEntry := {
  fe_file : string;
  fe_function : FunctionRecord;
  fe_file_info : FileRecord
}.

Record ClassEntry := {
  ce_file : string;
  ce_class : ClassRecord;
  ce_file_info : FileRecord
}.

Record SearchIndex := {
  idx_files : dict FileRecord;
  idx_functions : dict (list FunctionEntry);
  idx_classes : dict (list ClassEntry);
  idx_components : dict Component
}.

Record QuestionContext := {
  ctx_type : string;
  ctx_files : list FileRecord;
  ctx_functions : list FunctionEntry;
  ctx_classes : list ClassEntry;
  ctx_components : list Component;
  ctx_metadata : option Metadata
}.

Record Exchange := {
  question : string;
  answer : string;
  context_used : QuestionContext
}.

Record Agent := {
  context_cache : ContextCache;
  conversation_history : list Exchange;
  search_index : SearchIndex
}.

Definition empty_cache : ContextCache :=
  {| cc_analysis := None; cc_summary := None; cc_repository_overview := "";
     cc_file_summaries := []; cc_structure_analysis := "";
     cc_key_components := []; cc_language_breakdown := [];
     cc_metadata := None |}.

Definition empty_index : SearchIndex :=
  {| idx_files := []; idx_functions := []; idx_classes := [];
     idx_components := [] |}.

(** [QAAgent()] *)
Definition init : Agent :=
  {| context_cache := empty_cache; conversation_history := [];
     search_index := empty_index |}.

(* ---------------------------------------------------------------- *)
(** ** [_build_search_index] *)

(** [if k not in d: d[k] = []] followed by [d[k].append(e)] *)
Definition append_under {V} (k : string) (e : V) (d : dict (list V))
  : dict (list V) :=
  match get k d with
  | Some l => set k (l +++ [e]) d
  | None => set k [e] d
  end.

Definition index_function (fi : FileRecord)
  (d : dict (list FunctionEntry)) (func : FunctionRecord)
  : dict (list FunctionEntry) :=
  let func_name := lower (fn_name func) in
  if PyStr.truthy func_name then
    append_under func_name
      {| fe_file := path fi; fe_function := func; fe_file_info := fi |} d
  else d.

Definition index_class (fi : FileRecord)
  (d : dict (list ClassEntry)) (cls : ClassRecord) : dict (list ClassEntry) :=
  let cls_name := lower (cls_name cls) in
  if PyStr.truthy cls_name then
    append_under cls_name
      {| ce_file := path fi; ce_class := cls; ce_file_info := fi |} d
  else d.

Definition index_file (idx : SearchIndex) (fi : FileRecord) : SearchIndex :=
  {| idx_files := set (lower (path fi)) fi (idx_files idx);
     idx_functions := fold_left (index_function fi) (functions fi) (idx_functions idx);
     idx_classes := fold_left (index_class fi) (classes fi) (idx_classes idx);
     idx_components := idx_components idx |}.

Definition index_component (idx : SearchIndex) (c : Component) : SearchIndex :=
  {| idx_files := idx_files idx;
     idx_functions := idx_functions idx;
     idx_classes := idx_classes idx;
     idx_components := set (lower (comp_name c)) c (idx_components idx) |}.

Definition cache_files (cache : ContextCache) : list FileRecord :=
  match cc_analysis cache with
  | Some a => files a
  | None => []
  end.

Definition _build_search_index (cache : ContextCache) : SearchIndex :=
  let idx := fold_left index_file (cache_files cache) empty_index in
  fold_left index_component (cc_key_components cache) idx.

(** [load_repository_context(analysis, summary)] *)
Definition load_repository_context (ag : Agent)
  (analysis : option RepositoryAnalysis) (summary : Summary) : Agent :=
  let cache :=
    {| cc_analysis := analysis;
       cc_summary := Some summary;
       cc_repository_overview := overview summary;
       cc_file_summaries := file_summaries summary;
       cc_structure_analysis := structure_analysis summary;
       cc_key_components := key_components summary;
       cc_language_breakdown := language_breakdown summary;
       cc_metadata := metadata summary |} in
  {| context_cache := cache;
     conversation_history := conversation_history ag;
     search_index := _build_search_index cache |}.

Definition get_conversation_history (ag : Agent) : list Exchange :=
  conversation_history ag.

Definition clear_conversation_history (ag : Agent) : Agent :=
  {| context_cache := context_cache ag;
     conversation_history := [];
     search_index := search_index ag |}.

(* ---------------------------------------------------------------- *)
(** ** [_extract_relevant_context] *)

Definition mentioned {V} (question_lower : string) (kv : string * V) : bool :=
  contains (fst kv) question_lower && (3 <? String.length (fst kv)).

Definition _extract_relevant_context (ag : Agent) (question : string)
  : QuestionContext :=
  let idx := search_index ag in
  let question_lower := lower question in
  (* Determine question type *)
  let type :=
    if any_in ["function"; "method"; "def "; "function named"] question_lower
    then "function"
    else if any_in ["class"; "object"; "inheritance"] question_lower
    then "class"
    else if any_in ["file"; "module"; "script"] question_lower
    then "file"
    else if any_in ["structure"; "architecture"; "organization"; "folder";
                    "directory"] question_lower
    then "structure"
    else if any_in ["language"; "technology"; "framework"] question_lower
    then "technology"
    else "general" in
  (* Look for file names *)
  let files :=
    map snd
      (filter
         (fun kv =>
            existsb (fun part => contains part question_lower)
              (filter (fun part => 3 <? String.length part)
                      (split slash (fst kv))))
         (idx_files idx)) in
  (* Special handling for README questions *)
  let '(type, files) :=
    if contains "readme" question_lower then
      ("readme",
       (files +++ map snd (filter (fun kv => contains "readme" (lower (fst kv)))
                                 (idx_files idx))))
    else (type, files) in
  (* Special handling for documentation questions *)
  let '(type, files) :=
    if any_in ["documentation"; "docs"; "doc"] question_lower then
      ("documentation",
       (files +++ map snd
                   (filter (fun kv => any_in ["readme"; "doc"; "guide"; "manual"]
                                             (lower (fst kv)))
                           (idx_files idx))))
    else (type, files) in
  let functions :=
    flat_map snd (filter (mentioned question_lower) (idx_functions idx)) in
  let classes :=
    flat_map snd (filter (mentioned question_lower) (idx_classes idx)) in
  let components :=
    map snd (filter (mentioned question_lower) (idx_components idx)) in
  let context :=
    {| ctx_type := type; ctx_files := files; ctx_functions := functions;
       ctx_classes := classes; ctx_components := components;
       ctx_metadata := cc_metadata (context_cache ag) |} in
  (* If no specific context found, provide general context *)
  if negb (PyList.truthy files || PyList.truthy functions
           || PyList.truthy classes || PyList.truthy components) then
    if String.eqb type "function" then
      {| ctx_type := type; ctx_files := files;
         ctx_functions :=
           firstn 20 (concat (firstn 10 (values (idx_functions idx))));
         ctx_classes := classes; ctx_components := components;
         ctx_metadata := cc_metadata (context_cache ag) |}
    else if String.eqb type "file" then
      {| ctx_type := type;
         ctx_files := firstn 15 (values (idx_files idx));
         ctx_functions := functions;
         ctx_classes := classes; ctx_components := components;
         ctx_metadata := cc_metadata (context_cache ag) |}
    else if String.eqb type "class" then
      {| ctx_type := type; ctx_files := files; ctx_functions := functions;
         ctx_classes :=
           firstn 15 (concat (firstn 10 (values (idx_classes idx))));
         ctx_components := components;
         ctx_metadata := cc_metadata (context_cache ag) |}
    else context
  else context.

(* ---------------------------------------------------------------- *)
(** ** [_prepare_context_for_llm] *)

Definition nl : string := str1 newline.

Definition fence : string := "```".

Definition docstring_truthy (d : option string) : bool :=
  match d with Some s => PyStr.truthy s | None => false end.

Definition description_part (d : option string) : list string :=
  match d with
  | Some s =>
      if PyStr.truthy s then ["  Description: " ++ take 200 s ++ "..."] else []
  | None => []
  end.

Definition overview_part (cache : ContextCache) : list string :=
  let overview := cc_repository_overview cache in
  if PyStr.truthy overview
  then ["Repository Overview:" ++ nl ++ overview ++ nl] else [].

(** One line of the section "Complete File Structure". *)
Definition file_structure_line (file_info : FileRecord) : string :=
  "- " ++ path file_info ++ " (" ++ of_opt (language file_info) ++ ", "
  ++ of_N (size file_info) ++ " bytes, " ++ of_nat (lines file_info)
  ++ " lines)".

Definition file_structure_part (cache : ContextCache) (context : QuestionContext)
  : list string :=
  if mem (ctx_type context) ["structure"; "file"] then
    match cc_analysis cache with
    | Some analysis =>
        let all_files := files analysis in
        if PyList.truthy all_files then
          (["Complete File Structure:"]
           +++ map file_structure_line all_files
           +++ [nl ++ "Total files: " ++ of_nat (total_files analysis)
               ++ ", Analyzed files: " ++ of_nat (analyzed_files analysis);
               ""])
        else []
    | None => []
    end
  else [].

Definition file_content_part (question : string) (file_info : FileRecord)
  : list string :=
  let file_path := path file_info in
  let text :=
    match content file_info with
    | Some c => c
    | None => content_preview file_info
    end in
  if PyStr.truthy text
     && (contains "readme" (lower file_path)
         || contains "license" (lower file_path)
         || contains "changelog" (lower file_path)
         || contains "contributing" (lower file_path)
         || language_in (language file_info) prose_languages
         || (lines file_info <? 100)
         || existsb (fun part => contains (lower part) (lower question))
                    (split slash file_path))
  then
    let full_content := text in
    if 3000 <? String.length full_content then
      ["  Content (first 3000 chars):" ++ nl ++ fence ++ nl
       ++ take 3000 full_content ++ "..." ++ nl ++ fence]
    else
      ["  Full Content:" ++ nl ++ fence ++ nl ++ full_content ++ nl ++ fence]
  else [].

Definition relevant_file_part (question : string) (file_info : FileRecord)
  : list string :=
  ("- " ++ path file_info ++ " (" ++ of_opt (language file_info) ++ ", "
   ++ of_nat (lines file_info) ++ " lines, "
   ++ of_nat (List.length (functions file_info)) ++ " functions, "
   ++ of_nat (List.length (classes file_info)) ++ " classes)")
  :: file_content_part question file_info.

Definition files_part (context : QuestionContext) (question : string)
  : list string :=
  if PyList.truthy (ctx_files context) then
    (["Relevant Files:"]
     +++ flat_map (relevant_file_part question) (firstn 10 (ctx_files context))
     +++ [""])
  else [].

Definition function_part (func_info : FunctionEntry) : list string :=
  let func := fe_function func_info in
  ("- " ++ fn_name func ++ "(" ++ join ", " (fn_args func) ++ ") in "
   ++ fe_file func_info ++ ":" ++ of_nat (fn_line func))
  :: description_part (fn_docstring func).

Definition functions_part (context : QuestionContext) : list string :=
  if PyList.truthy (ctx_functions context) then
    (["Relevant Functions:"]
     +++ flat_map function_part (firstn 10 (ctx_functions context))
     +++ [""])
  else [].

Definition class_part (cls_info : ClassEntry) : list string :=
  let cls := ce_class cls_info in
  (("- " ++ cls_name cls ++ " in " ++ ce_file cls_info ++ ":"
    ++ of_nat (cls_line cls))
   :: (if PyList.truthy (cls_methods cls)
       then ["  Methods: " ++ join ", " (firstn 5 (cls_methods cls))]
       else [])
   +++ description_part (cls_docstring cls)).

Definition classes_part (context : QuestionContext) : list string :=
  if PyList.truthy (ctx_classes context) then
    (["Relevant Classes:"]
     +++ flat_map class_part (firstn 10 (ctx_classes context))
     +++ [""])
  else [].

Definition component_line (component : Component) : string :=
  "- " ++ comp_name component ++ ": " ++ of_nat (files_count component)
  ++ " files, " ++ of_nat (comp_total_lines component) ++ " lines, "
  ++ of_nat (functions_count component) ++ " functions, "
  ++ of_nat (classes_count component) ++ " classes".

Definition components_part (context : QuestionContext) : list string :=
  if PyList.truthy (ctx_components context) then
    (["Relevant Components:"]
     +++ map component_line (firstn 5 (ctx_components context))
     +++ [""])
  else [].

Definition file_summaries_part (cache : ContextCache)
  (context : QuestionContext) : list string :=
  if mem (ctx_type context) ["general"; "file"]
     && negb (PyList.truthy (ctx_files context)) then
    let file_summaries := firstn 5 (cc_file_summaries cache) in
    if PyList.truthy file_summaries then
      (["Key File Summaries:"]
       +++ map (fun file_summary =>
                 "- " ++ sum_file file_summary ++ ": "
                 ++ take 300 (sum_summary file_summary) ++ "...")
              file_summaries
       +++ [""])
    else []
  else [].

Definition history_part (history : list Exchange) : list string :=
  if PyList.truthy history then
    (["Recent Conversation:"]
     +++ flat_map (fun conv =>
                    ["Q: " ++ take 100 (question conv) ++ "...";
                     "A: " ++ take 200 (answer conv) ++ "..."])
                 (last_n 3 history)
     +++ [""])
  else [].

Section Rendering.

(** [json.dumps(languages, indent=2)] *)
Variable json_dumps : dict lang_stats -> string.

Definition structure_analysis_part (cache : ContextCache)
  (context : QuestionContext) : list string :=
  if mem (ctx_type context) ["structure"; "general"] then
    let structure := cc_structure_analysis cache in
    if PyStr.truthy structure
    then ["Project Structure Analysis:" ++ nl ++ structure ++ nl] else []
  else [].

Definition language_breakdown_part (cache : ContextCache)
  (context : QuestionContext) : list string :=
  if mem (ctx_type context) ["technology"; "general"] then
    let languages := cc_language_breakdown cache in
    if PyList.truthy languages
    then ["Language Breakdown:" ++ nl ++ json_dumps languages ++ nl] else []
  else [].

Definition context_parts (ag : Agent) (context : QuestionContext)
  (question : string) : list string :=
  let cache := context_cache ag in
  (overview_part cache
   +++ file_structure_part cache context
   +++ structure_analysis_part cache context
   +++ language_breakdown_part cache context
   +++ files_part context question
   +++ functions_part context
   +++ classes_part context
   +++ components_part context
   +++ file_summaries_part cache context
   +++ history_part (conversation_history ag)).

Definition _prepare_context_for_llm (ag : Agent) (context : QuestionContext)
  (question : string) : string :=
  join nl (context_parts ag context question).

(* ---------------------------------------------------------------- *)
(** ** [_generate_answer] and [answer_question] *)

Record Message := {
  role : string;
  message_content : string
}.

(** [self.llm.call_llm(messages, max_tokens=1000, temperature=0.4)]: the
    text generator is external; a call returns a text, returns [None], or
    raises. *)
Definition llm_client : Type := list Message -> outcome (option string).

Definition q : string := str1 dquote.

Definition system_prompt : string :=
  "You are an expert software engineer and code analyst. Your task is to answer questions about a repository based on the provided analysis and context."
  ++ nl ++ nl ++
  "Guidelines for answering:" ++ nl ++
  "1. ONLY answer based on the provided context - do not hallucinate or make assumptions" ++ nl ++
  "2. If file content is provided in the context, reference it directly and quote relevant sections" ++ nl ++
  "3. Be specific and accurate - reference exact file names, line numbers, and content when available" ++ nl ++
  "4. If you cannot answer based on the provided context, clearly state what information is missing" ++ nl ++
  "5. For README questions, quote the actual content from the README file if provided" ++ nl ++
  "6. For file structure questions, list ONLY the files shown in the " ++ q ++ "Complete File Structure" ++ q ++ " section" ++ nl ++
  "7. Use markdown formatting for clarity and code blocks for file content" ++ nl ++
  "8. When discussing code, provide relevant details like file locations, function signatures, etc." ++ nl ++
  "9. If the question asks about file content that isn't provided, explain that the content analysis is limited" ++ nl ++
  "10. Never mention files that are not explicitly listed in the provided context"
  ++ nl ++ nl ++
  "Remember: Your credibility depends on accuracy. Only state what you can verify from the provided repository analysis. Do not invent or assume the existence of files not shown in the context.".

Definition fallback_answer : string :=
  "I'm unable to answer your question based on the available repository analysis. Could you please rephrase your question or be more specific?".

Definition _generate_answer (llm : llm_client) (question context_text : string)
  : outcome string :=
  let messages :=
    [ {| role := "system"; message_content := system_prompt |};
      {| role := "user";
         message_content :=
           "Repository Context:" ++ nl ++ context_text ++ nl ++ nl
           ++ "Question: " ++ question ++ nl ++ nl
           ++ "Please provide an accurate answer based strictly on the repository analysis above. If file content is shown in the context, reference it directly. For file structure questions, only list the files explicitly shown in the 'Complete File Structure' section." |} ] in
  match llm messages with
  | Returned (Some response) =>
      Returned (if PyStr.truthy response then response else fallback_answer)
  | Returned None => Returned fallback_answer
  | Raised e => Raised e
  end.

Definition apology (e : string) : string :=
  "I'm sorry, I encountered an error while processing your question: " ++ e.

(** [answer_question(question)]: the pair returned and the agent
    afterwards. The second component of the pair is [None] for the empty
    dictionary of the error branch. On typed records extraction and
    rendering are total, so the call of the text generator is the step
    that can raise; like them it comes before the history is touched. *)
Definition answer_question (llm : llm_client) (ag : Agent) (question : string)
  : (string * option QuestionContext) * Agent :=
  let relevant_context := _extract_relevant_context ag question in
  let context_text := _prepare_context_for_llm ag relevant_context question in
  match _generate_answer llm question context_text with
  | Returned answer =>
      let history :=
        (conversation_history ag
         +++ [ {| question := question; answer := answer;
                 context_used := relevant_context |} ]) in
      let history :=
        if 10 <? List.length history then last_n 10 history else history in
      ((answer, Some relevant_context),
       {| context_cache := context_cache ag;
          conversation_history := history;
          search_index := search_index ag |})
  | Raised e => ((apology e, None), ag)
  end.

(** The agents that the public methods produce from a fresh one. *)
Inductive reachable : Agent -> Prop :=
| reach_init : reachable init
| reach_load (ag : Agent) (analysis : option RepositoryAnalysis)
    (summary : Summary) :
    reachable ag -> reachable (load_repository_context ag analysis summary)
| reach_answer (llm : llm_client) (ag : Agent) (question : string) :
    reachable ag -> reachable (snd (answer_question llm ag question))
| reach_clear (ag : Agent) :
    reachable ag -> reachable (clear_conversation_history ag).

End Rendering.

(* ---------------------------------------------------------------- *)
(** ** [suggest_questions] *)

(** [not self.context_cache]: the dictionary is empty until
    [load_repository_context] fills its keys, [summary] among them. *)
Definition cache_is_empty (cache : ContextCache) : bool :=
  match cc_summary cache with
  | Some _ => false
  | None => true
  end.

Definition default_questions : list string :=
  ["What is the main purpose of this repository?";
   "What programming languages are used?";
   "How is the code organized?"].

Definition general_questions : list string :=
  ["What is the main purpose of this repository?";
   "What programming languages are used in this project?";
   "How is the code organized and structured?"].

Definition technology_questions : list string :=
  ["What frameworks and libraries are being used?";
   "How are different technologies integrated in this project?"].

Definition architecture_questions : list string :=
  ["What are the main components of this application?";
   "How do different modules interact with each other?"].

Definition function_question (func_name : string) : string :=
  "What does the " ++ func_name ++ " function do?".

Definition class_question (cls_name : string) : string :=
  "What is the " ++ cls_name ++ " class used for?".

Definition file_question (file_path : string) : string :=
  "What does the " ++ file_path ++ " file contain?".

(** [suggest_questions()]. On typed records nothing in the body raises,
    so the fallback list of the [except] branch is never returned. *)
Definition suggest_questions (ag : Agent) : list string :=
  if cache_is_empty (context_cache ag) then default_questions
  else
    let suggestions := general_questions in
    let functions := idx_functions (search_index ag) in
    let suggestions :=
      if PyList.truthy functions
      then suggestions +++ map function_question (firstn 3 (keys functions))
      else suggestions in
    let classes := idx_classes (search_index ag) in
    let suggestions :=
      if PyList.truthy classes
      then suggestions +++ map class_question (firstn 2 (keys classes))
      else suggestions in
    let files := firstn 3 (keys (idx_files (search_index ag))) in
    let suggestions :=
      suggestions
      +++ map file_question
            (filter (fun file_path =>
                       any_in ["main"; "app"; "index"; "api"] (lower file_path))
                    files) in
    let languages := cc_language_breakdown (context_cache ag) in
    let suggestions :=
      if 1 <? List.length languages
      then suggestions +++ technology_questions else suggestions in
    let components := cc_key_components (context_cache ag) in
    let suggestions :=
      if 2 <? List.length components
      then suggestions +++ architecture_questions else suggestions in
    firstn 10 suggestions.

End QAAgent.

(* ================================================================== *)
(** * [RepositorySummarizer]: components and the summary *)
(* ================================================================== *)

Module SummaryGeneration.
Import PyStr PyPath PyList PyDict CodeParser RepositorySummarizer QAAgent.

Definition is_slash (c : ascii) : bool := Ascii.eqb c slash.

(** [os.path.dirname(p)] *)
Definition os_path_dirname (p : string) : string :=
  let i := match rfind slash p with Some i => i + 1 | None => 0 end in
  let head := take i p in
  if PyStr.truthy head
     && negb (String.eqb head (replicate (String.length head) slash))
  then rstrip_by is_slash head
  else head.

(** [os.path.dirname(path) if '/' in path else 'root'] *)
Definition directory_of (file_info : FileRecord) : string :=
  let path := path file_info in
  if contains "/" path then os_path_dirname path else "root".

(** The first loop of [identify_key_components]: files grouped by
    directory. *)
Definition group_by_directory (files : list FileRecord)
  : dict (list FileRecord) :=
  fold_left (fun directories file_info =>
               append_under (directory_of file_info) file_info directories)
            files [].

(** The key of the final sort of the components. *)
Definition component_weight (c : Component) : Z :=
  (Z.of_nat (comp_total_lines c) + Z.of_nat (functions_count c) * 10
   + Z.of_nat (classes_count c) * 20)%Z.

Section Components.

(** [list(set(xs))]: the distinct members of [xs], in the order of the
    interpreter's hash table. *)
Variable list_of_set : list string -> list string.

Definition make_component (dir_path : string) (dir_files : list FileRecord)
  : Component :=
  {| comp_name := dir_path;
     files_count := List.length dir_files;
     comp_total_lines := list_sum (map lines dir_files);
     functions_count :=
       list_sum (map (fun f => List.length (functions f)) dir_files);
     classes_count :=
       list_sum (map (fun f => List.length (classes f)) dir_files);
     comp_languages :=
       list_of_set
         (flat_map (fun f => match language f with
                             | Some l => if PyStr.truthy l then [l] else []
                             | None => []
                             end)
                   dir_files);
     key_files :=
       map path
           (firstn 3 (sort_desc (fun f => Z.of_nat (lines f)) dir_files)) |}.

(** [identify_key_components(analysis)], on the files of the analysis. *)
Definition identify_key_components (files : list FileRecord)
  : list Component :=
  let directories := group_by_directory files in
  let components :=
    map (fun kv => make_component (fst kv) (snd kv))
        (filter (fun kv => negb (List.length (snd kv) <? 2)) directories) in
  firstn 10 (sort_desc component_weight components).

(** The text generator as the summarizer uses it: the overview of
    [summarize_repository], the summary of [summarize_file], which the
    summarizer expects to raise at times, and the answers of [call_llm] to
    the prompts that [analyze_project_structure] and
    [generate_recommendations] build from the analysis. *)
Record summary_llm := {
  summarize_repository : RepositoryAnalysis -> string;
  summarize_file : FileRecord -> outcome string;
  structure_response : RepositoryAnalysis -> option string;
  recommendations_response : RepositoryAnalysis -> option string
}.

(** [response or default] *)
Definition response_or (response : option string) (default : string) : string :=
  match response with
  | Some r => if PyStr.truthy r then r else default
  | None => default
  end.

Definition analyze_project_structure (llm : summary_llm)
  (analysis : RepositoryAnalysis) : string :=
  response_or (structure_response llm analysis)
              "Unable to analyze project structure.".

Definition generate_recommendations (llm : summary_llm)
  (analysis : RepositoryAnalysis) : string :=
  response_or (recommendations_response llm analysis)
              "Unable to generate recommendations.".

(** The body of the loop over [important_files[:50]]. *)
Definition summarize_one (llm : summary_llm) (file_info : FileRecord)
  : list FileSummary :=
  match summarize_file llm file_info with
  | Returned file_summary =>
      [ {| sum_file := path file_info;
           sum_language := language file_info;
           sum_lines := lines file_info;
           sum_summary := file_summary;
           sum_functions_count := List.length (functions file_info);
           sum_classes_count := List.length (classes file_info) |} ]
  | Raised _ => []
  end.

(** [generate_comprehensive_summary(analysis, repo_info)]; [now] is
    [datetime.now().isoformat()]. The progress callback is left out. *)
Definition generate_comprehensive_summary (llm : summary_llm) (now : string)
  (analysis : RepositoryAnalysis) (repo_info : option (dict string))
  : Summary :=
  let important_files := get_important_files (files analysis) in
  {| overview := summarize_repository llm analysis;
     file_summaries := flat_map (summarize_one llm) (firstn 50 important_files);
     language_breakdown := languages analysis;
     structure_analysis := analyze_project_structure llm analysis;
     key_components := identify_key_components (files analysis);
     recommendations := generate_recommendations llm analysis;
     metadata :=
       Some {| generated_at := now;
               md_total_files := total_files analysis;
               md_analyzed_files := analyzed_files analysis;
               md_repository_path := repository_path analysis;
               repo_info := match repo_info with Some r => r | None => [] end |}
  |}.

End Components.

End SummaryGeneration.

(* ================================================================== *)
(** * Example repositories *)
(* ================================================================== *)

Module Examples.
Import PyStr PyDict CodeParser QAAgent.

(** The engines on texts in which there is nothing to find: no
    definition, import, assignment, comment or fenced block. All example
    files below are of that kind. *)
Definition plain_engines : engines :=
  {| python_ast := fun _ => (no_extraction, false);
     js_patterns := fun _ => no_extraction;
     java_patterns := fun _ => no_extraction;
     generic_patterns := fun _ => no_extraction;
     code_block_matches := fun _ => 0 |}.

Definition text_file (name text : string) : fs_file :=
  {| fs_name := name; st_size := N.of_nat (String.length text);
     fs_read := Decoded text |}.

Definition readme_md : fs_file := text_file "README.md" ("# Demo" ++ nl ++ "hello").
Definition main_py : fs_file := text_file "main.py" "pass".
Definition makefile : fs_file := text_file "Makefile" "all".

(** A file of 2 MiB. *)
Definition data_csv : fs_file :=
  {| fs_name := "data.csv"; st_size := 2097152;
     fs_read := Decoded (replicate (N.to_nat 2097152) "0"%char) |}.

(** A licence text of 5000 characters in a file called [UNLICENSE]. *)
Definition unlicense : fs_file := text_file "UNLICENSE" (replicate 5000 "x"%char).

(** A markdown file whose first line is a bare [#]. *)
Definition notes_md : fs_file := text_file "NOTES.md" ("#" ++ nl ++ "todo").

(** The records [analyze_file] builds for [README.md] and for
    [UNLICENSE] at the root of a repository checked out at [repo]. *)
Definition readme_record : FileRecord :=
  {| path := "README.md"; full_path := "repo/README.md";
     language := Some "markdown"; size := 12; lines := 2;
     content_preview := "# Demo" ++ nl ++ "hello";
     functions := [ {| fn_name := "Demo"; fn_line := 1; fn_args := [];
                       fn_docstring := None; fn_decorators := [];
                       fn_type := Some "header_h1" |} ];
     classes := []; imports := []; variables := []; comments := [];
     content := Some ("# Demo" ++ nl ++ "hello");
     code_blocks := Some 0 |}.

Definition unlicense_record : FileRecord :=
  {| path := "UNLICENSE"; full_path := "repo/UNLICENSE";
     language := None; size := 5000; lines := 1;
     content_preview := replicate 500 "x"%char ++ "...";
     functions := []; classes := []; imports := []; variables := [];
     comments := []; content := None; code_blocks := None |}.

(** A 30-line [main.py] with two functions and a 500-line
    [utils_helpers.py] with none. *)
Definition plain_function (name : string) (line : nat) : FunctionRecord :=
  {| fn_name := name; fn_line := line; fn_args := []; fn_docstring := None;
     fn_decorators := []; fn_type := None |}.

Definition main_record : FileRecord :=
  {| path := "main.py"; full_path := "repo/main.py";
     language := Some "python"; size := 600; lines := 30;
     content_preview := "";
     functions := [plain_function "run" 3; plain_function "main" 20];
     classes := []; imports := []; variables := []; comments := [];
     content := None; code_blocks := None |}.

Definition helpers_record : FileRecord :=
  {| path := "utils_helpers.py"; full_path := "repo/utils_helpers.py";
     language := Some "python"; size := 12000; lines := 500;
     content_preview := "";
     functions := []; classes := []; imports := []; variables := [];
     comments := []; content := None; code_blocks := None |}.

Definition small_repo : list fs_entry :=
  [FsFile readme_md; FsFile makefile; FsDir "src" [FsFile main_py]].

Definition repo_with_large_file : list fs_entry :=
  [FsFile main_py; FsFile data_csv].

Definition repo_with_notes : list fs_entry := [FsFile notes_md].

Definition repo_with_readme : list fs_entry := [FsFile readme_md].

Definition plain_summary : Summary :=
  {| overview := "A demo"; file_summaries := []; language_breakdown := [];
     structure_analysis := ""; key_components := []; recommendations := "";
     metadata := None |}.

(** [json.dumps] is not looked at by the examples. *)
Definition no_json (_ : dict lang_stats) : string := "{}".

(** A text generator that answers, one that returns nothing, and one
    that raises. *)
Definition llm_says (text : string) : llm_client :=
  fun _ => Returned (Some text).
Definition llm_silent : llm_client := fun _ => Returned None.
Definition llm_broken : llm_client := fun _ => Raised "connection reset".

(** The analyses of three one- or two-file repositories checked out at
    [repo]: the README alone, [main.py] next to the 2 MiB file, and the
    notes alone. *)
Definition readme_analysis : RepositoryAnalysis :=
  {| repository_path := "repo"; total_files := 1; analyzed_files := 1;
     languages := [("markdown", {| ls_files := 1; ls_lines := 2 |})];
     files := [readme_record];
     structure := [("_files", Files ["README.md"])];
     summary := {| total_lines := 2; total_functions := 1;
                   total_classes := 0; total_imports := 0 |} |}.

Definition main_py_record : FileRecord :=
  {| path := "main.py"; full_path := "repo/main.py";
     language := Some "python"; size := 4; lines := 1;
     content_preview := "pass";
     functions := []; classes := []; imports := []; variables := [];
     comments := []; content := Some "pass"; code_blocks := None |}.

Definition large_file_analysis : RepositoryAnalysis :=
  {| repository_path := "repo"; total_files := 2; analyzed_files := 1;
     languages := [("python", {| ls_files := 1; ls_lines := 1 |})];
     files := [main_py_record];
     structure := [("_files", Files ["main.py"; "data.csv"])];
     summary := {| total_lines := 1; total_functions := 0;
                   total_classes := 0; total_imports := 0 |} |}.

Definition bare_header : FunctionRecord :=
  {| fn_name := ""; fn_line := 1; fn_args := []; fn_docstring := None;
     fn_decorators := []; fn_type := Some "header_h1" |}.

Definition notes_record : FileRecord :=
  {| path := "NOTES.md"; full_path := "repo/NOTES.md";
     language := Some "markdown"; size := 6; lines := 2;
     content_preview := "#" ++ nl ++ "todo";
     functions := [bare_header];
     classes := []; imports := []; variables := []; comments := [];
     content := Some ("#" ++ nl ++ "todo"); code_blocks := Some 0 |}.

Definition notes_analysis : RepositoryAnalysis :=
  {| repository_path := "repo"; total_files := 1; analyzed_files := 1;
     languages := [("markdown", {| ls_files := 1; ls_lines := 2 |})];
     files := [notes_record];
     structure := [("_files", Files ["NOTES.md"])];
     summary := {| total_lines := 2; total_functions := 1;
                   total_classes := 0; total_imports := 0 |} |}.

(** The agent after loading the small repository. *)
Definition loaded : Agent :=
  load_repository_context init
    (analyze_repository plain_engines "repo" small_repo) plain_summary.

(** The agent after [n] answered questions, numbered from 0. *)
Fixpoint asked (n : nat) (ag : Agent) : Agent :=
  match n with
  | 0 => ag
  | S k =>
      snd (answer_question no_json (llm_says ("answer " ++ of_nat k))
             (asked k ag) ("question " ++ of_nat k))
  end.

End Examples.

(* ================================================================== *)
(** * The retention rule as the specification words it *)
(* ================================================================== *)

Module Claimed.
Import PyStr CodeParser.

(** The specification's wording of the content-retention rule: the four
    names are all tested as case-insensitive substrings of the file name.
    It is compared with [analyze_file] below. *)
Definition retains_full_content (file_name : string)
  (language : option string) (text : string) : bool :=
  contains "readme" (lower file_name)
  || contains "license" (lower file_name)
  || contains "changelog" (lower file_name)
  || contains "contributing" (lower file_name)
  || language_in language prose_languages
  || (String.length text <? 5000).

End Claimed.

(* ================================================================== *)
(** * Notions used in the statements *)
(* ================================================================== *)

Module Notions.
Import PyStr PyList PyDict CodeParser QAAgent.

(** The fields of [file_info] that no strategy touches. *)
Definition same_header (a b : FileRecord) : Prop :=
  path b = path a /\ full_path b = full_path a /\ language b = language a
  /\ size b = size a /\ lines b = lines a
  /\ content_preview b = content_preview a /\ content b = content a.

(** [x] occurs before [y] in [l]. *)
Definition precedes {A} (x y : A) (l : list A) : Prop :=
  exists l1 l2 l3, l = l1 +++ x :: l2 +++ y :: l3.

(** The records of the files whose analysis succeeded, in walk order. *)
Definition analysed (E : engines) (ws : list walked_file) : list FileRecord :=
  flat_map
    (fun w => match analyze_file E (wf_path w) (wf_rel w) (wf_file w) with
              | Some fi => [fi]
              | None => []
              end)
    ws.

(** The language statistics after the files [recs]. *)
Definition tally (langs : dict lang_stats) (recs : list FileRecord)
  : dict lang_stats :=
  fold_left
    (fun l fi => if lang_truthy (language fi)
                 then count_language (of_opt (language fi)) (lines fi) l
                 else l)
    recs langs.

Definition lang_lines_total (langs : dict lang_stats) : nat :=
  list_sum (map (fun kv => ls_lines (snd kv)) langs).

Definition lang_files_total (langs : dict lang_stats) : nat :=
  list_sum (map (fun kv => ls_files (snd kv)) langs).

(** The file is of language [lang]. *)
Definition speaks (lang : string) (fi : FileRecord) : bool :=
  match language fi with
  | Some l => String.eqb l lang
  | None => false
  end.

(** The file has no language. *)
Definition unmapped (fi : FileRecord) : bool :=
  match language fi with
  | Some _ => false
  | None => true
  end.

Definition lines_of (recs : list FileRecord) : nat :=
  list_sum (map lines recs).

Definition stats_or_zero (o : option lang_stats) : lang_stats :=
  match o with
  | Some st => st
  | None => {| ls_files := 0; ls_lines := 0 |}
  end.

(** The bucket of a language after the files [sel] of that language. *)
Definition bucket_after (o : option lang_stats) (sel : list FileRecord)
  : option lang_stats :=
  match sel with
  | [] => o
  | _ => Some {| ls_files := ls_files (stats_or_zero o) + List.length sel;
                 ls_lines := ls_lines (stats_or_zero o) + lines_of sel |}
  end.

(** The records in which a language, when present, is non-empty. *)
Definition mapped_or_none (fi : FileRecord) : Prop :=
  lang_truthy (language fi) = negb (unmapped fi).

(** The entry [e] is stored under the key [k]. *)
Definition stored {V} (k : string) (e : V) (d : dict (list V)) : Prop :=
  exists es, get k d = Some es /\ In e es.

(** Every stored entry satisfies [P], and no key is empty. *)
Definition all_stored {V} (P : string -> V -> Prop) (d : dict (list V)) : Prop :=
  forall k es, get k d = Some es -> k <> "" /\ forall e, In e es -> P k e.

(** The order of a descending sort by [key]. *)
Definition ge_key {A} (key : A -> Z) (a b : A) : Prop := (key a >= key b)%Z.

(** What the index promises about an entry stored under [k], for the
    file records [all]. *)
Definition sound_entry (all : list FileRecord) (k : string)
  (e : FunctionEntry) : Prop :=
  fe_file e = path (fe_file_info e)
  /\ In (fe_file_info e) all
  /\ In (fe_function e) (functions (fe_file_info e))
  /\ lower (fn_name (fe_function e)) = k.

End Notions.

(* ================================================================== *)
(** * Further notions *)
(* ================================================================== *)

Module MoreNotions.
Import PyStr PyPath PyList PyDict CodeParser RepositorySummarizer QAAgent.
Import SummaryGeneration.

(** The line is a heading for [analyze_text_file]. *)
Definition is_header (line : string) : bool := startswith (strip line) "#".

(** The languages of the extension table. *)
Definition known_languages : list string := values supported_extensions.

(** A name as a directory listing gives it: not empty, without a slash. *)
Definition plain_name (n : string) : bool :=
  PyStr.truthy n && negb (contains "/" n).

(** Every file and directory of the tree has a plain name. *)
Fixpoint well_named (e : fs_entry) : bool :=
  match e with
  | FsFile f => plain_name (fs_name f)
  | FsDir d children => plain_name d && forallb well_named children
  end.

(** No directory of the tree is called [_files]. *)
Fixpoint no_files_dir (e : fs_entry) : bool :=
  match e with
  | FsFile _ => true
  | FsDir d children =>
      negb (String.eqb d "_files") && forallb no_files_dir children
  end.

(** The directory names of the tree. *)
Fixpoint dir_names (e : fs_entry) : list string :=
  match e with
  | FsFile _ => []
  | FsDir d children => d :: flat_map dir_names children
  end.

(** In a structure built by [generate_directory_structure] the key
    [_files] holds a list of names and every other key a nested
    structure of the same kind. *)
Fixpoint tidy_node (n : structure_node) : bool :=
  match n with
  | Files _ => true
  | Sub entries =>
      forallb
        (fun kv =>
           match kv with
           | (k, v) =>
               if String.eqb k "_files"
               then match v with Files _ => true | Sub _ => false end
               else match v with Files _ => false | Sub _ => tidy_node v end
           end)
        entries
  end.

Definition tidy (d : dict structure_node) : bool := tidy_node (Sub d).

Definition entry_ok (kv : string * structure_node) : bool :=
  match kv with
  | (k, v) =>
      if String.eqb k "_files"
      then match v with Files _ => true | Sub _ => false end
      else match v with Files _ => false | Sub _ => tidy_node v end
  end.

(** A path to which [os.path.join] appends with a slash. *)
Definition joinable (top : string) : Prop :=
  top <> "" /\ endswith top "/" = false.

(** The path of the directory reached from [repo_path] along [rel]. *)
Definition root_of (repo_path : string) (rel : list string) : string :=
  fold_left (fun acc d => acc ++ "/" ++ d) rel repo_path.

(** [enumerate(lines)] *)
Definition enumerate (ls : list string) : list (nat * string) :=
  combine (seq 0 (List.length ls)) ls.

(** The heading lines of a text with their indices, in the order of the
    text. *)
Definition heading_lines (text : string) : list (nat * string) :=
  filter (fun kl => is_header (snd kl)) (enumerate (split newline text)).


(** What the heading found on [line], at index [k] of the lines, looks
    like as a function record. *)
Definition heading_of (k : nat) (line : string) : FunctionRecord :=
  {| fn_name := strip (strip_by is_hash line);
     fn_line := k + 1;
     fn_args := [];
     fn_docstring := None;
     fn_decorators := [];
     fn_type :=
       Some ("header_h"
             ++ of_nat (String.length line
                        - String.length (lstrip_by is_hash line))) |}.

(** The record of [fs] that ends up under the key [k]: the last one whose
    lowercased path is [k]. *)
Definition last_with_key (k : string) (fs : list FileRecord)
  : option FileRecord :=
  find (fun fi => String.eqb (lower (path fi)) k) (rev fs).

Definition sound_class (all : list FileRecord) (k : string)
  (e : ClassEntry) : Prop :=
  ce_file e = path (ce_file_info e)
  /\ In (ce_file_info e) all
  /\ In (ce_class e) (classes (ce_file_info e))
  /\ lower (cls_name (ce_class e)) = k.

Definition intents : list string :=
  ["general"; "function"; "class"; "file"; "structure"; "technology";
   "readme"; "documentation"].

(** Every entry of the lists of [d] satisfies [P]. *)
Definition every_entry {V} (P : V -> Prop) (d : dict (list V)) : Prop :=
  forall k es e, In (k, es) d -> In e es -> P e.

Definition function_of_all (all : list FileRecord) (e : FunctionEntry)
  : Prop :=
  fe_file e = path (fe_file_info e)
  /\ In (fe_file_info e) all
  /\ In (fe_function e) (functions (fe_file_info e)).

Definition class_of_all (all : list FileRecord) (e : ClassEntry) : Prop :=
  ce_file e = path (ce_file_info e)
  /\ In (ce_file_info e) all
  /\ In (ce_class e) (classes (ce_file_info e)).

Definition scored (fi : FileRecord) : FileRecord * Z :=
  (fi, calculate_importance_score fi).

(** The files of the directory [k]. *)
Definition members (k : string) (files : list FileRecord) : list FileRecord :=
  filter (fun f => String.eqb (directory_of f) k) files.

(** The analyser skips the file: it is larger than 1 MiB or cannot be
    read. *)
Definition skipped (w : walked_file) : bool :=
  (1024 * 1024 <? st_size (wf_file w))%N
  || match fs_read (wf_file w) with ReadError => true | Decoded _ => false end.

End MoreNotions.

(* ================================================================== *)
(** * Further examples *)
(* ================================================================== *)

Module MoreExamples.
Import PyStr PyDict CodeParser QAAgent Examples.

(** A file [app.py] with one function and one class, and an analysis
    holding it. *)
Definition app_class : ClassRecord :=
  {| cls_name := "App"; cls_line := 4; cls_bases := [];
     cls_docstring := None; cls_methods := ["start"] |}.

Definition app_record : FileRecord :=
  {| path := "app.py"; full_path := "repo/app.py";
     language := Some "python"; size := 120; lines := 8;
     content_preview := "";
     functions := [plain_function "run" 1; plain_function "start" 5];
     classes := [app_class]; imports := []; variables := []; comments := [];
     content := None; code_blocks := None |}.

Definition app_analysis : RepositoryAnalysis :=
  {| repository_path := "repo"; total_files := 1; analyzed_files := 1;
     languages := [("python", {| ls_files := 1; ls_lines := 8 |})];
     files := [app_record];
     structure := [("_files", Files ["app.py"])];
     summary := {| total_lines := 8; total_functions := 2;
                   total_classes := 1; total_imports := 0 |} |}.


End MoreExamples.

(* ================================================================== *)
(** * Facts about strings, lists and dictionaries *)
(* ================================================================== *)

Module PyFacts.
Import PyStr PyList PyDict.

Lemma split_length (sep : ascii) (s : string) :
  List.length (split sep s) = 1 + count sep s.
Proof.
  induction s as [| a s IH]; simpl; [reflexivity |].
  destruct (Ascii.eqb a sep); simpl.
  - now rewrite IH.
  - destruct (split sep s) as [| h t] eqn:Hs; simpl in *; lia.
Qed.

Lemma split_nonempty (sep : ascii) (s : string) : split sep s <> [].
Proof.
  intros H. pose proof (split_length sep s) as L. rewrite H in L. discriminate.
Qed.

Lemma mem_In (x : string) (l : list string) : mem x l = true <-> In x l.
Proof.
  unfold mem. rewrite existsb_exists. split.
  - intros [y [Hy E]]. apply String.eqb_eq in E. now subst.
  - intros H. exists x. split; [assumption | apply String.eqb_refl].
Qed.

Lemma lower_empty (s : string) : lower s = "" <-> s = "".
Proof. destruct s; simpl; split; intros H; try reflexivity; discriminate. Qed.

Lemma truthy_true (s : string) : PyStr.truthy s = true <-> s <> "".
Proof.
  unfold PyStr.truthy. rewrite negb_true_iff. split.
  - intros H ->. discriminate.
  - intros H. apply String.eqb_neq. assumption.
Qed.

Lemma list_truthy_false {A} (l : list A) : PyList.truthy l = false <-> l = [].
Proof. destruct l; simpl; split; intros H; try reflexivity; discriminate. Qed.

Lemma last_n_length {A} (n : nat) (l : list A) :
  List.length (last_n n l) = Nat.min n (List.length l).
Proof. unfold last_n. rewrite length_skipn. lia. Qed.

Lemma last_n_all {A} (n : nat) (l : list A) :
  List.length l <= n -> last_n n l = l.
Proof.
  intros H. unfold last_n. replace (List.length l - n) with 0 by lia.
  reflexivity.
Qed.

(** Appending to a full window drops its oldest element. *)
Lemma last_n_shift {A} (n : nat) (x : A) (l : list A) (e : A) :
  List.length (x :: l) = n ->
  last_n n ((x :: l) +++ [e]) = l +++ [e].
Proof.
  intros H. unfold last_n. subst n. simpl List.length.
  rewrite length_app. simpl List.length.
  replace (S (List.length l + 1) - S (List.length l)) with 1 by lia.
  reflexivity.
Qed.

Lemma get_set_eq {V} (k : string) (v : V) (d : dict V) :
  get k (set k v d) = Some v.
Proof.
  induction d as [| [k' v'] d IH]; simpl.
  - now rewrite String.eqb_refl.
  - destruct (String.eqb k k') eqn:E; simpl.
    + now rewrite String.eqb_refl.
    + now rewrite E.
Qed.

Lemma get_set_ne {V} (k k' : string) (v : V) (d : dict V) :
  k <> k' -> get k' (set k v d) = get k' d.
Proof.
  intros Hne. induction d as [| [k0 v0] d IH]; simpl.
  - destruct (String.eqb k' k) eqn:E; [| reflexivity].
    apply String.eqb_eq in E. congruence.
  - destruct (String.eqb k k0) eqn:E; simpl.
    + apply String.eqb_eq in E. subst k0.
      destruct (String.eqb k' k) eqn:E'; [| reflexivity].
      apply String.eqb_eq in E'. congruence.
    + now rewrite IH.
Qed.

Lemma get_In {V} (k : string) (v : V) (d : dict V) :
  get k d = Some v -> In (k, v) d.
Proof.
  induction d as [| [k' v'] d IH]; simpl; [discriminate |].
  destruct (String.eqb k k') eqn:E.
  - apply String.eqb_eq in E. intros [= ->]. left. now subst.
  - intros H. right. now apply IH.
Qed.

End PyFacts.

(* ================================================================== *)
(** * The parser *)
(* ================================================================== *)

Module ParserFacts.
Import PyStr PyPath PyDict CodeParser Notions PyFacts.

Lemma same_header_refl (a : FileRecord) : same_header a a.
Proof. unfold same_header. repeat split. Qed.

Lemma same_header_trans (a b c : FileRecord) :
  same_header a b -> same_header b c -> same_header a c.
Proof. unfold same_header. intuition congruence. Qed.

Lemma extend_header (fi : FileRecord) (ex : extraction) :
  same_header fi (extend fi ex).
Proof. unfold same_header. repeat split. Qed.

Lemma with_code_blocks_header (n : nat) (fi : FileRecord) :
  same_header fi (with_code_blocks n fi).
Proof. unfold same_header. repeat split. Qed.

Section Strategies.
Variable E : engines.

Lemma generic_header text fi : same_header fi (analyze_generic_file E text fi).
Proof. apply extend_header. Qed.

Lemma python_header text fi : same_header fi (analyze_python_file E text fi).
Proof.
  unfold analyze_python_file. destruct (python_ast E text) as [ex raised].
  destruct raised.
  - eapply same_header_trans; [apply extend_header | apply generic_header].
  - apply extend_header.
Qed.

Lemma js_header text fi : same_header fi (analyze_js_file E text fi).
Proof. apply extend_header. Qed.

Lemma java_header text fi : same_header fi (analyze_java_file E text fi).
Proof. apply extend_header. Qed.

Lemma text_header text fi : same_header fi (analyze_text_file E text fi).
Proof.
  unfold analyze_text_file.
  destruct (language_in (language fi) ["markdown"]).
  - eapply same_header_trans; [apply extend_header | apply with_code_blocks_header].
  - apply with_code_blocks_header.
Qed.

(** What [analyze_file] returns when it returns a record. *)
Lemma analyze_file_inv (file_path rel_path : string) (f : fs_file)
  (fi : FileRecord) :
  analyze_file E file_path rel_path f = Some fi ->
  exists text,
    fs_read f = Decoded text
    /\ (st_size f <= 1024 * 1024)%N
    /\ path fi = rel_path
    /\ full_path fi = file_path
    /\ language fi = get_file_language file_path
    /\ size fi = st_size f
    /\ lines fi = List.length (split newline text)
    /\ content_preview fi
       = take 500 text ++ (if 500 <? String.length text then "..." else "")
    /\ content fi
       = if contains "readme" (lower (name file_path))
            || startswith (lower (name file_path)) "license"
            || startswith (lower (name file_path)) "changelog"
            || startswith (lower (name file_path)) "contributing"
            || language_in (get_file_language file_path) prose_languages
            || (String.length text <? 5000)
         then Some text else None.
Proof.
  unfold analyze_file.
  destruct (1024 * 1024 <? st_size f)%N eqn:Hsize; [discriminate |].
  destruct (fs_read f) as [text |] eqn:Hread; [| discriminate].
  intros [= <-]. exists text.
  apply N.ltb_ge in Hsize.
  match goal with
  | |- context [if ?c then with_content text ?r else ?r] =>
      set (keep := c); set (fi0 := r)
  end.
  set (fi1 := if keep then with_content text fi0 else fi0).
  assert (H1 : same_header fi1
                 (if language_in (get_file_language file_path) ["python"]
                  then analyze_python_file E text fi1
                  else if language_in (get_file_language file_path)
                            ["javascript"; "typescript"]
                  then analyze_js_file E text fi1
                  else if language_in (get_file_language file_path) ["java"]
                  then analyze_java_file E text fi1
                  else if language_in (get_file_language file_path)
                            prose_languages
                  then analyze_text_file E text fi1
                  else analyze_generic_file E text fi1)).
  { repeat match goal with
           | |- same_header _ (if ?c then _ else _) => destruct c
           end;
      auto using python_header, js_header, java_header, text_header,
                 generic_header. }
  destruct H1 as (Hp & Hf & Hl & Hs & Hn & Hv & Hc).
  rewrite Hp, Hf, Hl, Hs, Hn, Hv, Hc.
  unfold fi1. destruct keep; simpl; repeat split; assumption.
Qed.

(** C3: a successfully analysed file with decoded text [text] has
    [lines] equal to one plus the number of newline characters of [text],
    which is the number of segments of [text.split(newline)]; an empty
    file has one line. *)
Theorem analyze_file_lines (file_path rel_path : string) (f : fs_file)
  (fi : FileRecord) :
  analyze_file E file_path rel_path f = Some fi ->
  exists text,
    fs_read f = Decoded text
    /\ lines fi = 1 + count newline text
    /\ lines fi = List.length (split newline text)
    /\ (text = "" -> lines fi = 1).
Proof.
  intros H. destruct (analyze_file_inv _ _ _ H) as (text & Hr & _ & _ & _ & _ & _ & Hl & _).
  exists text. rewrite Hl, split_length. repeat split; try assumption.
  intros ->. reflexivity.
Qed.

(** C2 (amended): a successfully analysed file keeps its full text
    exactly when its lowercased name contains [readme], or starts with
    [license], [changelog] or [contributing], or its language is markdown,
    text or restructuredtext, or the text is shorter than 5000 characters.
    The preview is always the first 500 characters, followed by the marker
    [...] when the text is longer; when the full text is not kept the
    preview is all that is stored, and it ends with the marker. *)
Theorem content_retention (file_path rel_path : string) (f : fs_file)
  (fi : FileRecord) :
  analyze_file E file_path rel_path f = Some fi ->
  exists text,
    fs_read f = Decoded text
    /\ (content fi = Some text
        <-> contains "readme" (lower (name file_path))
            || startswith (lower (name file_path)) "license"
            || startswith (lower (name file_path)) "changelog"
            || startswith (lower (name file_path)) "contributing"
            || language_in (language fi) prose_languages
            || (String.length text <? 5000) = true)
    /\ (content fi = Some text \/
        (content fi = None /\ content_preview fi = take 500 text ++ "..."))
    /\ content_preview fi
       = take 500 text ++ (if 500 <? String.length text then "..." else "").
Proof.
  intros H.
  destruct (analyze_file_inv _ _ _ H)
    as (text & Hr & _ & _ & _ & Hlang & _ & _ & Hprev & Hc).
  exists text. rewrite Hlang, Hprev, Hc. split; [assumption |].
  match goal with |- context [if ?c then Some text else None] => destruct c eqn:Hk end.
  - repeat split; auto.
  - split; [split; [discriminate | discriminate] |].
    split; [| reflexivity]. right. split; [reflexivity |].
    repeat (apply orb_false_elim in Hk; destruct Hk as [Hk ?]).
    match goal with Hlen : (String.length text <? 5000) = false |- _ =>
      apply Nat.ltb_ge in Hlen;
      replace (500 <? String.length text) with true
        by (symmetry; apply Nat.ltb_lt; lia)
    end.
    reflexivity.
Qed.

End Strategies.

(** C4: a path one of whose segments between slashes is a member of
    [ignore_dirs] is ignored, whatever its name and extension. *)
Theorem ignored_directory_segment (p seg : string) :
  In seg (split slash p) -> In seg ignore_dirs -> should_ignore_path p = true.
Proof.
  intros Hseg Hdir. unfold should_ignore_path.
  replace (existsb (fun part => mem part ignore_dirs) (parts p)) with true;
    [reflexivity |].
  symmetry. apply existsb_exists. exists seg. split.
  - unfold parts. apply in_or_app. right. unfold tail.
    apply filter_In. split; [assumption |].
    unfold ignore_dirs in Hdir. simpl in Hdir.
    repeat (destruct Hdir as [<- | Hdir]; [reflexivity |]). contradiction.
  - now apply mem_In.
Qed.

End ParserFacts.

Module ParserExamples.
Import PyStr PyPath PyDict CodeParser Examples ParserFacts.

Lemma analyze_readme :
  analyze_file plain_engines "repo/README.md" "README.md" readme_md
  = Some readme_record.
Proof. vm_compute. reflexivity. Qed.

Lemma analyze_file_lines_witness :
  exists text,
    fs_read readme_md = Decoded text
    /\ lines readme_record = 1 + count newline text
    /\ lines readme_record = List.length (split newline text)
    /\ (text = "" -> lines readme_record = 1).
Proof.
  apply (@analyze_file_lines plain_engines "repo/README.md" "README.md"
           readme_md readme_record).
  vm_compute. reflexivity.
Defined.

Lemma content_retention_witness :
  exists text,
    fs_read readme_md = Decoded text
    /\ (content readme_record = Some text
        <-> contains "readme" (lower (name "repo/README.md"))
            || startswith (lower (name "repo/README.md")) "license"
            || startswith (lower (name "repo/README.md")) "changelog"
            || startswith (lower (name "repo/README.md")) "contributing"
            || language_in (language readme_record) prose_languages
            || (String.length text <? 5000) = true)
    /\ (content readme_record = Some text \/
        (content readme_record = None
         /\ content_preview readme_record = take 500 text ++ "..."))
    /\ content_preview readme_record
       = take 500 text ++ (if 500 <? String.length text then "..." else "").
Proof.
  apply (@content_retention plain_engines "repo/README.md" "README.md"
           readme_md readme_record).
  vm_compute. reflexivity.
Defined.

(** C2 as worded fails on a file called [UNLICENSE] holding 5000
    characters: its name contains [license], so the wording demands the
    full text, but [analyze_file] keeps the preview only. *)
Lemma retention_by_name_counterexample :
  analyze_file plain_engines "repo/UNLICENSE" "UNLICENSE" unlicense
  = Some unlicense_record
  /\ fs_read unlicense = Decoded (replicate 5000 "x"%char)
  /\ Claimed.retains_full_content (name "repo/UNLICENSE")
       (language unlicense_record) (replicate 5000 "x"%char) = true
  /\ content unlicense_record = None.
Proof. vm_compute. repeat split. Qed.

Lemma ignored_directory_segment_witness :
  In "node_modules" (split slash "repo/node_modules/left-pad/index.js")
  /\ In "node_modules" ignore_dirs
  /\ should_ignore_path "repo/node_modules/left-pad/index.js" = true.
Proof.
  assert (Hseg : In "node_modules"
                   (split slash "repo/node_modules/left-pad/index.js")).
  { simpl. right. left. reflexivity. }
  assert (Hdir : In "node_modules" ignore_dirs).
  { simpl. do 4 right. left. reflexivity. }
  split; [exact Hseg |]. split; [exact Hdir |].
  exact (@ignored_directory_segment _ _ Hseg Hdir).
Defined.

End ParserExamples.

(* ================================================================== *)
(** * The importance ranker *)
(* ================================================================== *)

Module RankerFacts.
Import PyStr PyDict CodeParser RepositorySummarizer Notions.

Local Open Scope Z_scope.

Section Sorting.
Context {A : Type} (key : A -> Z).

Lemma insert_desc_In (x z : A) (l : list A) :
  In z (insert_desc key x l) <-> z = x \/ In z l.
Proof.
  induction l as [| y l IH]; simpl.
  - intuition.
  - destruct (key y >? key x); simpl; rewrite ?IH; intuition.
Qed.

Lemma insert_desc_sorted (x : A) (l : list A) :
  StronglySorted (ge_key key) l -> StronglySorted (ge_key key) (insert_desc key x l).
Proof.
  induction 1 as [| y l Hs IH Hall]; simpl.
  - constructor; [constructor | constructor].
  - destruct (key y >? key x) eqn:Hc.
    + constructor; [assumption |].
      apply Forall_forall. intros z Hz. apply insert_desc_In in Hz.
      destruct Hz as [-> | Hz].
      * unfold ge_key. apply Z.gtb_lt in Hc. lia.
      * rewrite Forall_forall in Hall. now apply Hall.
    + assert (Hxy : key x >= key y).
      { destruct (Z.gtb_spec (key y) (key x)); [discriminate | lia]. }
      constructor; [constructor; assumption |].
      constructor; [exact Hxy |].
      apply Forall_forall. intros z Hz. rewrite Forall_forall in Hall.
      specialize (Hall z Hz). unfold ge_key in *. lia.
Qed.

Lemma sort_desc_In (z : A) (l : list A) : In z (sort_desc key l) <-> In z l.
Proof.
  induction l as [| x l IH]; simpl; [reflexivity |].
  rewrite insert_desc_In, IH. intuition.
Qed.

Lemma sort_desc_sorted (l : list A) : StronglySorted (ge_key key) (sort_desc key l).
Proof.
  induction l as [| x l IH]; simpl; [constructor |].
  now apply insert_desc_sorted.
Qed.

Lemma sorted_precedes (x y : A) (l : list A) :
  StronglySorted (ge_key key) l -> In x l -> In y l -> key y < key x ->
  precedes x y l.
Proof.
  intros Hs. induction Hs as [| a l Hs IH Hall]; intros Hx Hy Hlt.
  - contradiction.
  - rewrite Forall_forall in Hall. unfold ge_key in Hall.
    destruct Hx as [-> | Hx].
    + destruct Hy as [-> | Hy]; [lia |].
      apply in_split in Hy. destruct Hy as (l2 & l3 & ->).
      exists [], l2, l3. reflexivity.
    + destruct Hy as [-> | Hy].
      * specialize (Hall x Hx). lia.
      * destruct (IH Hx Hy Hlt) as (l1 & l2 & l3 & ->).
        exists (a :: l1), l2, l3. reflexivity.
Qed.

End Sorting.

Lemma precedes_map {A B} (f : A -> B) (x y : A) (l : list A) :
  precedes x y l -> precedes (f x) (f y) (map f l).
Proof.
  intros (l1 & l2 & l3 & ->).
  exists (map f l1), (map f l2), (map f l3).
  rewrite map_app. simpl. rewrite map_app. reflexivity.
Qed.

(** A file with a strictly higher score is ranked before one with a
    lower score. *)
Lemma higher_score_first (m u : FileRecord) (files : list FileRecord) :
  In m files -> In u files ->
  calculate_importance_score u < calculate_importance_score m ->
  precedes m u (get_important_files files).
Proof.
  intros Hm Hu Hlt. unfold get_important_files.
  set (scored := fun fi : FileRecord => (fi, calculate_importance_score fi)).
  apply (@precedes_map _ _ fst (scored m) (scored u)).
  apply (@sorted_precedes _ snd).
  - apply sort_desc_sorted.
  - apply sort_desc_In. now apply in_map.
  - apply sort_desc_In. now apply in_map.
  - exact Hlt.
Qed.

(** C8: the score is a function of the record; a 30-line python
    [main.py] with two functions and no class scores 91, a 500-line python
    [utils_helpers.py] with no function and no class scores 45, so the
    ranking lists [main.py] before [utils_helpers.py], whatever the order
    of enumeration and whatever other files are ranked with them. *)
Theorem main_outranks_helpers (m u : FileRecord) :
  path m = "main.py" -> language m = Some "python" -> lines m = 30%nat ->
  List.length (functions m) = 2%nat -> List.length (classes m) = 0%nat ->
  path u = "utils_helpers.py" -> language u = Some "python" ->
  lines u = 500%nat ->
  List.length (functions u) = 0%nat -> List.length (classes u) = 0%nat ->
  calculate_importance_score m = 91
  /\ calculate_importance_score u = 45
  /\ calculate_importance_score u < calculate_importance_score m
  /\ get_important_files [m; u] = [m; u]
  /\ get_important_files [u; m] = [m; u]
  /\ forall files, In m files -> In u files ->
       precedes m u (get_important_files files).
Proof.
  intros Hmp Hml Hmn Hmf Hmc Hup Hul Hun Huf Huc.
  assert (Sm : calculate_importance_score m = 91).
  { unfold calculate_importance_score.
    rewrite Hmp, Hml, Hmn, Hmf, Hmc. reflexivity. }
  assert (Su : calculate_importance_score u = 45).
  { unfold calculate_importance_score.
    rewrite Hup, Hul, Hun, Huf, Huc. reflexivity. }
  split; [exact Sm |]. split; [exact Su |].
  split; [rewrite Sm, Su; reflexivity |].
  split; [| split].
  - unfold get_important_files, sort_desc. simpl. rewrite Sm, Su. reflexivity.
  - unfold get_important_files, sort_desc. simpl. rewrite Sm, Su. reflexivity.
  - intros files Hm Hu. apply higher_score_first; try assumption.
    rewrite Sm, Su. reflexivity.
Qed.

End RankerFacts.

Module RankerExamples.
Import PyStr CodeParser RepositorySummarizer Examples Notions RankerFacts.

Local Open Scope Z_scope.

Lemma main_outranks_helpers_witness :
  calculate_importance_score main_record = 91
  /\ calculate_importance_score helpers_record = 45
  /\ calculate_importance_score helpers_record
     < calculate_importance_score main_record
  /\ get_important_files [main_record; helpers_record]
     = [main_record; helpers_record]
  /\ get_important_files [helpers_record; main_record]
     = [main_record; helpers_record]
  /\ forall files, In main_record files -> In helpers_record files ->
       precedes main_record helpers_record (get_important_files files).
Proof.
  apply (@main_outranks_helpers main_record helpers_record); reflexivity.
Defined.

End RankerExamples.

(* ================================================================== *)
(** * The repository analysis *)
(* ================================================================== *)

Module RepositoryFacts.
Import PyStr PyPath PyDict CodeParser Notions PyFacts ParserFacts.

Lemma record_file_languages (a : RepositoryAnalysis) (fi : FileRecord) :
  languages (record_file a fi)
  = if lang_truthy (language fi)
    then count_language (of_opt (language fi)) (lines fi) (languages a)
    else languages a.
Proof.
  unfold record_file, lang_truthy. simpl.
  destruct (language fi) as [lang |]; [| reflexivity].
  destruct (truthy lang); reflexivity.
Qed.

Lemma record_files_fields (recs : list FileRecord) (a0 : RepositoryAnalysis) :
  let a := fold_left record_file recs a0 in
  files a = files a0 +++ recs
  /\ analyzed_files a = analyzed_files a0 + List.length recs
  /\ total_files a = total_files a0
  /\ repository_path a = repository_path a0
  /\ total_lines (summary a) = total_lines (summary a0) + lines_of recs
  /\ languages a = tally (languages a0) recs.
Proof.
  revert a0. induction recs as [| fi recs IH]; intros a0; simpl.
  - rewrite app_nil_r. unfold lines_of. simpl. repeat split; lia.
  - destruct (IH (record_file a0 fi)) as (Hf & Hn & Ht & Hp & Hl & Hg).
    rewrite Hf, Hn, Ht, Hp, Hl, Hg. rewrite record_file_languages.
    unfold lines_of. simpl. rewrite <- app_assoc. simpl.
    repeat split; lia.
Qed.

(** *** The language dictionary *)

Lemma set_total (f : lang_stats -> nat) (k : string) (v : lang_stats)
  (d : dict lang_stats) :
  list_sum (map (fun kv => f (snd kv)) (set k v d)) + f (stats_or_zero (get k d))
  = list_sum (map (fun kv => f (snd kv)) d) + f v
    + match get k d with Some _ => 0 | None => f (stats_or_zero None) end.
Proof.
  induction d as [| [k' v'] d IH]; simpl in *.
  - lia.
  - destruct (String.eqb k k'); simpl in *; lia.
Qed.

Lemma count_language_totals (lang : string) (n : nat) (l : dict lang_stats) :
  lang_files_total (count_language lang n l) = lang_files_total l + 1
  /\ lang_lines_total (count_language lang n l) = lang_lines_total l + n.
Proof.
  unfold count_language, lang_files_total, lang_lines_total.
  pose proof (set_total ls_files lang
                {| ls_files := ls_files (stats_or_zero (get lang l)) + 1;
                   ls_lines := ls_lines (stats_or_zero (get lang l)) + n |} l) as Hf.
  pose proof (set_total ls_lines lang
                {| ls_files := ls_files (stats_or_zero (get lang l)) + 1;
                   ls_lines := ls_lines (stats_or_zero (get lang l)) + n |} l) as Hl.
  unfold stats_or_zero in *. destruct (get lang l); simpl in *; lia.
Qed.

Lemma count_language_same (lang : string) (n : nat) (l : dict lang_stats) :
  get lang (count_language lang n l)
  = Some {| ls_files := ls_files (stats_or_zero (get lang l)) + 1;
            ls_lines := ls_lines (stats_or_zero (get lang l)) + n |}.
Proof.
  unfold count_language. rewrite get_set_eq.
  destruct (get lang l); reflexivity.
Qed.

Lemma count_language_other (lang k : string) (n : nat) (l : dict lang_stats) :
  lang <> k -> get k (count_language lang n l) = get k l.
Proof. intros H. unfold count_language. now apply get_set_ne. Qed.

(** Every language of the extension table is a non-empty string. *)
Lemma get_file_language_truthy (p : string) :
  lang_truthy (get_file_language p) = true \/ get_file_language p = None.
Proof.
  unfold get_file_language.
  destruct (get (lower (suffix p)) supported_extensions) as [lang |] eqn:H;
    [left | right; reflexivity].
  apply get_In in H. unfold supported_extensions in H. simpl in H.
  repeat (destruct H as [[= _ <-] | H]; [reflexivity |]). contradiction.
Qed.

Lemma tally_totals (recs : list FileRecord) (l : dict lang_stats) :
  Forall mapped_or_none recs ->
  lang_files_total (tally l recs) + List.length (filter unmapped recs)
  = lang_files_total l + List.length recs
  /\ lang_lines_total (tally l recs) + lines_of (filter unmapped recs)
     = lang_lines_total l + lines_of recs.
Proof.
  intros Hall. revert l.
  induction Hall as [| fi recs Hfi Hall IH]; intros l; simpl.
  - unfold lines_of. simpl. lia.
  - unfold tally in *. simpl. red in Hfi. rewrite Hfi.
    destruct (unmapped fi); simpl.
    + specialize (IH l). unfold lines_of in *. simpl. lia.
    + match goal with
      | |- context [count_language ?a ?b l] =>
          destruct (count_language_totals a b l) as [Hf Hl];
          specialize (IH (count_language a b l))
      end.
      unfold lines_of in *. simpl. lia.
Qed.

Lemma tally_bucket (lang : string) (recs : list FileRecord)
  (l : dict lang_stats) :
  Forall mapped_or_none recs ->
  get lang (tally l recs) = bucket_after (get lang l) (filter (speaks lang) recs).
Proof.
  intros Hall. revert l.
  induction Hall as [| fi recs Hfi Hall IH]; intros l; [reflexivity |].
  unfold tally in *. simpl. rewrite IH. clear IH.
  red in Hfi. rewrite Hfi. unfold speaks, unmapped.
  destruct (language fi) as [lf |] eqn:Hlang; simpl; [| reflexivity].
  destruct (String.eqb lf lang) eqn:Heq.
  - apply String.eqb_eq in Heq. subst lf. rewrite count_language_same.
    unfold bucket_after, lines_of. simpl.
    destruct (filter _ recs); simpl; f_equal; f_equal; lia.
  - apply String.eqb_neq in Heq. now rewrite count_language_other.
Qed.

Section Run.
Variable E : engines.

Lemma analyze_steps (ws : list walked_file) (a0 : RepositoryAnalysis) :
  fold_left (analyze_step E) ws a0 = fold_left record_file (analysed E ws) a0.
Proof.
  revert a0. induction ws as [| w ws IH]; intros a0; simpl; [reflexivity |].
  rewrite fold_left_app. unfold analyze_step at 2.
  destruct (analyze_file E (wf_path w) (wf_rel w) (wf_file w)); simpl; apply IH.
Qed.

Lemma analysed_length (ws : list walked_file) :
  List.length (analysed E ws) <= List.length ws.
Proof.
  induction ws as [| w ws IH]; simpl; [lia |].
  rewrite length_app.
  destruct (analyze_file E (wf_path w) (wf_rel w) (wf_file w)); simpl; lia.
Qed.

Lemma analysed_In (ws : list walked_file) (fi : FileRecord) :
  In fi (analysed E ws) <->
  exists w, In w ws /\ analyze_file E (wf_path w) (wf_rel w) (wf_file w) = Some fi.
Proof.
  unfold analysed. rewrite in_flat_map. split.
  - intros (w & Hw & Hin). exists w. split; [assumption |].
    destruct (analyze_file E (wf_path w) (wf_rel w) (wf_file w)); simpl in Hin.
    + destruct Hin as [-> | []]. reflexivity.
    + contradiction.
  - intros (w & Hw & Heq). exists w. split; [assumption |].
    rewrite Heq. left. reflexivity.
Qed.

(** The fields of a returned analysis. *)
Lemma analyze_repository_fields (repo_path : string) (tree : list fs_entry)
  (a : RepositoryAnalysis) :
  analyze_repository E repo_path tree = Some a ->
  let ws := all_files repo_path tree in
  repository_path a = repo_path
  /\ total_files a = List.length ws
  /\ files a = analysed E ws
  /\ analyzed_files a = List.length (analysed E ws)
  /\ total_lines (summary a) = lines_of (analysed E ws)
  /\ languages a = tally [] (analysed E ws)
  /\ generate_directory_structure repo_path tree = Some (structure a).
Proof.
  unfold analyze_repository.
  destruct (generate_directory_structure repo_path tree) as [d |];
    [| discriminate].
  intros [= <-]. simpl. unfold analyze_files. rewrite analyze_steps.
  match goal with
  | |- context [fold_left record_file ?r ?a0] =>
      destruct (record_files_fields r a0) as (Hf & Hn & Ht & Hp & Hl & Hg)
  end.
  rewrite Hf, Hn, Ht, Hp, Hl, Hg. simpl. repeat split.
Qed.

Lemma analysed_mapped_or_none (ws : list walked_file) :
  Forall mapped_or_none (analysed E ws).
Proof.
  apply Forall_forall. intros fi Hfi. apply analysed_In in Hfi.
  destruct Hfi as (w & _ & Hw).
  destruct (analyze_file_inv _ _ _ _ Hw) as (_ & _ & _ & _ & _ & Hl & _).
  unfold mapped_or_none, unmapped. rewrite Hl.
  destruct (get_file_language_truthy (wf_path w)) as [H | H]; rewrite H.
  - destruct (get_file_language (wf_path w)); [reflexivity | discriminate].
  - reflexivity.
Qed.

(** [analyze_file] skips a file exactly when it is larger than 1 MiB or
    cannot be read. *)
Lemma analyze_file_skips (file_path rel_path : string) (f : fs_file) :
  analyze_file E file_path rel_path f = None
  <-> (1024 * 1024 < st_size f)%N \/ fs_read f = ReadError.
Proof.
  unfold analyze_file.
  destruct (1024 * 1024 <? st_size f)%N eqn:Hs.
  - apply N.ltb_lt in Hs. tauto.
  - apply N.ltb_ge in Hs. destruct (fs_read f).
    + split; [discriminate |]. intros [H | H]; [lia | discriminate].
    + tauto.
Qed.

(** C10: in a returned analysis the line counts of the language entries
    sum to at most [total_lines], and their file counts to at most
    [analyzed_files]; the differences are exactly the lines and the number
    of the analysed files without a language. Such a file has the language
    [None] that [get_file_language] gives for an unmapped extension; it is
    counted in [analyzed_files] and in [total_lines], and in no language
    entry, since the entry of a language counts the files of that language
    and nothing else. The records are those of the files of the tree: the
    analysis holds, in walk order, one record for each surviving file that
    is readable and at most 1 MiB large, whatever its language, and no
    other record. *)
Theorem language_totals (repo_path : string) (tree : list fs_entry)
  (a : RepositoryAnalysis) :
  analyze_repository E repo_path tree = Some a ->
  lang_lines_total (languages a) <= total_lines (summary a)
  /\ lang_files_total (languages a) <= analyzed_files a
  /\ analyzed_files a
     = lang_files_total (languages a) + List.length (filter unmapped (files a))
  /\ total_lines (summary a)
     = lang_lines_total (languages a) + lines_of (filter unmapped (files a))
  /\ analyzed_files a = List.length (files a)
  /\ total_lines (summary a) = lines_of (files a)
  /\ (forall fi, In fi (files a) ->
        language fi = get_file_language (full_path fi))
  /\ (forall lang st, get lang (languages a) = Some st ->
        ls_files st = List.length (filter (speaks lang) (files a))
        /\ ls_lines st = lines_of (filter (speaks lang) (files a))
        /\ 0 < ls_files st)
  /\ files a = analysed E (all_files repo_path tree)
  /\ (forall w, In w (all_files repo_path tree) ->
        (st_size (wf_file w) <= 1024 * 1024)%N ->
        fs_read (wf_file w) <> ReadError ->
        exists fi,
          In fi (files a)
          /\ analyze_file E (wf_path w) (wf_rel w) (wf_file w) = Some fi
          /\ path fi = wf_rel w
          /\ language fi = get_file_language (wf_path w))
  /\ (forall fi, In fi (files a) ->
        exists w,
          In w (all_files repo_path tree)
          /\ analyze_file E (wf_path w) (wf_rel w) (wf_file w) = Some fi).
Proof.
  intros H.
  destruct (analyze_repository_fields _ _ H)
    as (_ & _ & Hf & Hn & Hl & Hg & _).
  pose proof (analysed_mapped_or_none (all_files repo_path tree)) as Hall.
  destruct (tally_totals [] Hall) as [Tf Tl].
  rewrite Hf, Hn, Hl, Hg.
  unfold lang_files_total at 2 in Tf. unfold lang_lines_total at 2 in Tl.
  simpl in Tf, Tl.
  split; [lia |]. split; [lia |]. split; [lia |]. split; [lia |].
  split; [reflexivity |]. split; [reflexivity |].
  split; [| split; [| split; [| split]]].
  - intros fi Hfi. apply analysed_In in Hfi. destruct Hfi as (w & _ & Hw).
    destruct (analyze_file_inv _ _ _ _ Hw) as (_ & _ & _ & _ & Hp & Hlang & _).
    now rewrite Hp, Hlang.
  - intros lang st Hst.
    rewrite (tally_bucket lang [] Hall) in Hst. simpl in Hst.
    destruct (filter (speaks lang) (analysed E (all_files repo_path tree)))
      as [| fi sel]; [discriminate |].
    injection Hst as <-. simpl. repeat split. lia.
  - reflexivity.
  - intros w Hw Hsize Hread.
    destruct (analyze_file E (wf_path w) (wf_rel w) (wf_file w))
      as [fi |] eqn:Hfi.
    + exists fi. split; [apply analysed_In; now exists w |].
      split; [reflexivity |].
      destruct (analyze_file_inv _ _ _ _ Hfi) as (_ & _ & _ & Hp & _ & Hlang & _).
      now split.
    + apply analyze_file_skips in Hfi. destruct Hfi as [Hbig | Herr];
        [lia | contradiction].
  - intros fi Hfi. now apply analysed_In in Hfi.
Qed.

End Run.

End RepositoryFacts.

Module RepositoryExamples.
Import PyStr PyPath PyDict CodeParser Examples Notions RepositoryFacts.

Lemma language_totals_witness :
  exists a,
    analyze_repository plain_engines "repo" small_repo = Some a
    /\ lang_lines_total (languages a) <= total_lines (summary a)
    /\ lang_files_total (languages a) <= analyzed_files a
    /\ analyzed_files a
       = lang_files_total (languages a)
         + List.length (filter unmapped (files a))
    /\ total_lines (summary a)
       = lang_lines_total (languages a) + lines_of (filter unmapped (files a))
    /\ analyzed_files a = List.length (files a)
    /\ total_lines (summary a) = lines_of (files a)
    /\ (forall fi, In fi (files a) ->
          language fi = get_file_language (full_path fi))
    /\ (forall lang st, get lang (languages a) = Some st ->
          ls_files st = List.length (filter (speaks lang) (files a))
          /\ ls_lines st = lines_of (filter (speaks lang) (files a))
          /\ 0 < ls_files st)
    /\ files a = analysed plain_engines (all_files "repo" small_repo)
    /\ (forall w, In w (all_files "repo" small_repo) ->
          (st_size (wf_file w) <= 1024 * 1024)%N ->
          fs_read (wf_file w) <> ReadError ->
          exists fi,
            In fi (files a)
            /\ analyze_file plain_engines (wf_path w) (wf_rel w) (wf_file w)
               = Some fi
            /\ path fi = wf_rel w
            /\ language fi = get_file_language (wf_path w))
    /\ (forall fi, In fi (files a) ->
          exists w,
            In w (all_files "repo" small_repo)
            /\ analyze_file plain_engines (wf_path w) (wf_rel w) (wf_file w)
               = Some fi).
Proof.
  eexists. split; [vm_compute; reflexivity |].
  apply (@language_totals plain_engines "repo" small_repo).
  vm_compute. reflexivity.
Defined.

(** In the small repository the [Makefile] has no language: three files
    are analysed and the language entries count two of them. *)
Lemma small_repo_counts :
  exists a,
    analyze_repository plain_engines "repo" small_repo = Some a
    /\ analyzed_files a = 3
    /\ lang_files_total (languages a) = 2
    /\ total_lines (summary a) = 4
    /\ lang_lines_total (languages a) = 3
    /\ map path (filter unmapped (files a)) = ["Makefile"].
Proof. eexists. split; [vm_compute; reflexivity |]. vm_compute. repeat split. Qed.

End RepositoryExamples.

(* ================================================================== *)
(** * The agent: conversation history *)
(* ================================================================== *)

Module HistoryFacts.
Import PyStr PyList PyDict CodeParser QAAgent PyFacts.

Section History.
Variable json_dumps : dict lang_stats -> string.

(** The two ways [answer_question] ends. *)
Lemma answer_question_cases (llm : llm_client) (ag : Agent) (q : string) :
  let ctx := _extract_relevant_context ag q in
  let text := _prepare_context_for_llm json_dumps ag ctx q in
  (exists a,
      _generate_answer llm q text = Returned a
      /\ answer_question json_dumps llm ag q
         = ((a, Some ctx),
            {| context_cache := context_cache ag;
               conversation_history :=
                 last_n 10 (conversation_history ag
                            +++ [ {| question := q; answer := a;
                                     context_used := ctx |} ]);
               search_index := search_index ag |}))
  \/ (exists e,
         _generate_answer llm q text = Raised e
         /\ answer_question json_dumps llm ag q = ((apology e, None), ag)).
Proof.
  intros ctx text. unfold answer_question. fold ctx. fold text.
  destruct (_generate_answer llm q text) as [a | e].
  - left. exists a. split; [reflexivity |]. f_equal. f_equal.
    match goal with |- (if ?c then _ else _) = _ => destruct c eqn:Hc end.
    + reflexivity.
    + apply Nat.ltb_ge in Hc. symmetry. now apply last_n_all.
  - right. exists e. split; reflexivity.
Qed.

Lemma answer_question_history_bound (llm : llm_client) (ag : Agent)
  (q : string) :
  List.length (conversation_history ag) <= 10 ->
  List.length (conversation_history (snd (answer_question json_dumps llm ag q)))
  <= 10.
Proof.
  intros H.
  destruct (answer_question_cases llm ag q) as [(a & _ & ->) | (e & _ & ->)];
    simpl; [| assumption].
  rewrite last_n_length. lia.
Qed.

(** C6: an agent reached through the public methods holds at most 10
    exchanges. A completed call of [answer_question] leaves the last 10 of
    the old history followed by the new exchange: below 10 entries the
    exchange is appended, and at 10 entries the oldest is dropped, the
    other nine keep their order and the new exchange comes last. *)
Theorem history_bounded_fifo (ag : Agent) :
  reachable json_dumps ag ->
  List.length (conversation_history ag) <= 10
  /\ forall (llm : llm_client) (q a : string) (ctx : QuestionContext)
       (ag' : Agent),
       answer_question json_dumps llm ag q = ((a, Some ctx), ag') ->
       let exchange := {| question := q; answer := a; context_used := ctx |} in
       List.length (conversation_history ag') <= 10
       /\ conversation_history ag'
          = last_n 10 (conversation_history ag +++ [exchange])
       /\ (List.length (conversation_history ag) < 10 ->
           conversation_history ag' = conversation_history ag +++ [exchange])
       /\ (List.length (conversation_history ag) = 10 ->
           conversation_history ag' = tl (conversation_history ag) +++ [exchange]).
Proof.
  intros Hr.
  assert (Hlen : List.length (conversation_history ag) <= 10).
  { induction Hr; simpl; try lia.
    now apply answer_question_history_bound. }
  split; [exact Hlen |].
  intros llm q a ctx ag' Heq exchange.
  destruct (answer_question_cases llm ag q) as [(a0 & _ & H) | (e & _ & H)];
    rewrite H in Heq; [| discriminate].
  injection Heq as <- <- <-. fold exchange. simpl.
  repeat split.
  - rewrite last_n_length. lia.
  - intros Hlt. apply last_n_all. rewrite length_app. simpl. lia.
  - intros H10. destruct (conversation_history ag) as [| x l] eqn:Hh;
      [discriminate |].
    simpl. now apply last_n_shift.
Qed.

(** C9: when [answer_question] takes its error branch, answering with
    the apology and the empty context, the agent, and with it the
    conversation history, is what it was before the call; the branch is
    taken exactly when generating the answer raised, and an exchange is
    appended only by a call that returns its context. *)
Theorem failed_answer_keeps_history (llm : llm_client) (ag : Agent)
  (q message : string) :
  fst (answer_question json_dumps llm ag q) = (message, None) ->
  snd (answer_question json_dumps llm ag q) = ag
  /\ conversation_history (snd (answer_question json_dumps llm ag q))
     = conversation_history ag
  /\ exists e,
       message = apology e
       /\ _generate_answer llm q
            (_prepare_context_for_llm json_dumps ag
               (_extract_relevant_context ag q) q)
          = Raised e.
Proof.
  intros H.
  destruct (answer_question_cases llm ag q) as [(a & _ & Heq) | (e & He & Heq)];
    rewrite Heq in *; simpl in *.
  - discriminate.
  - injection H as <-. repeat split. exists e. split; [reflexivity | exact He].
Qed.

End History.

End HistoryFacts.

Module HistoryExamples.
Import PyStr PyList PyDict CodeParser QAAgent Examples HistoryFacts.

Lemma asked_reachable (n : nat) : reachable no_json (asked n loaded).
Proof.
  induction n as [| n IH].
  - apply reach_load. apply reach_init.
  - cbn [asked]. now apply reach_answer.
Qed.

(** After twelve answered questions the history holds the last ten. *)
Lemma asked_twelve :
  map question (conversation_history (asked 12 loaded))
  = ["question 2"; "question 3"; "question 4"; "question 5"; "question 6";
     "question 7"; "question 8"; "question 9"; "question 10"; "question 11"].
Proof. vm_compute. reflexivity. Qed.

Lemma history_bounded_fifo_witness :
  List.length (conversation_history (asked 12 loaded)) <= 10
  /\ forall (llm : llm_client) (q a : string) (ctx : QuestionContext)
       (ag' : Agent),
       answer_question no_json llm (asked 12 loaded) q = ((a, Some ctx), ag') ->
       let exchange := {| question := q; answer := a; context_used := ctx |} in
       List.length (conversation_history ag') <= 10
       /\ conversation_history ag'
          = last_n 10 (conversation_history (asked 12 loaded) +++ [exchange])
       /\ (List.length (conversation_history (asked 12 loaded)) < 10 ->
           conversation_history ag'
           = conversation_history (asked 12 loaded) +++ [exchange])
       /\ (List.length (conversation_history (asked 12 loaded)) = 10 ->
           conversation_history ag'
           = tl (conversation_history (asked 12 loaded)) +++ [exchange]).
Proof.
  apply (@history_bounded_fifo no_json (asked 12 loaded)).
  cbn [asked]. repeat apply reach_answer. apply reach_load. apply reach_init.
Defined.

Lemma failed_answer_keeps_history_witness :
  snd (answer_question no_json llm_broken (asked 2 loaded) "What is this?")
  = asked 2 loaded
  /\ conversation_history
       (snd (answer_question no_json llm_broken (asked 2 loaded) "What is this?"))
     = conversation_history (asked 2 loaded)
  /\ exists e,
       apology "connection reset" = apology e
       /\ _generate_answer llm_broken "What is this?"
            (_prepare_context_for_llm no_json (asked 2 loaded)
               (_extract_relevant_context (asked 2 loaded) "What is this?")
               "What is this?")
          = Raised e.
Proof.
  apply (@failed_answer_keeps_history no_json llm_broken (asked 2 loaded)
           "What is this?" (apology "connection reset")).
  reflexivity.
Defined.

End HistoryExamples.

(* ================================================================== *)
(** * The agent: search index *)
(* ================================================================== *)

Module IndexFacts.
Import PyStr PyList PyDict CodeParser QAAgent Notions PyFacts.

Lemma append_under_same {V} (k : string) (e : V) (d : dict (list V)) :
  get k (append_under k e d)
  = Some (match get k d with Some l => l | None => [] end +++ [e]).
Proof.
  unfold append_under. destruct (get k d); now rewrite get_set_eq.
Qed.

Lemma append_under_other {V} (k k' : string) (e : V) (d : dict (list V)) :
  k <> k' -> get k' (append_under k e d) = get k' d.
Proof.
  intros H. unfold append_under. destruct (get k d); now rewrite get_set_ne.
Qed.

Lemma stored_new {V} (k : string) (e : V) (d : dict (list V)) :
  stored k e (append_under k e d).
Proof.
  red. rewrite append_under_same. eexists. split; [reflexivity |].
  apply in_or_app. right. now left.
Qed.

Lemma stored_kept {V} (k k' : string) (e e' : V) (d : dict (list V)) :
  stored k e d -> stored k e (append_under k' e' d).
Proof.
  intros (es & Hg & Hin). red.
  destruct (String.eqb_spec k' k) as [-> | Hne].
  - rewrite append_under_same, Hg. eexists. split; [reflexivity |].
    apply in_or_app. now left.
  - rewrite (append_under_other e' d Hne). now exists es.
Qed.

Lemma all_stored_append {V} (P : string -> V -> Prop) (k : string) (e : V)
  (d : dict (list V)) :
  k <> "" -> P k e -> all_stored P d -> all_stored P (append_under k e d).
Proof.
  intros Hk He Hd k' es Hg.
  destruct (String.eqb_spec k k') as [<- | Hne].
  - rewrite append_under_same in Hg. injection Hg as <-.
    split; [assumption |]. intros e' Hin. apply in_app_or in Hin.
    destruct Hin as [Hin | [<- | []]]; [| assumption].
    destruct (get k d) as [l |] eqn:Hl; [| contradiction].
    now apply (Hd k l Hl).
  - rewrite (append_under_other e d Hne) in Hg. now apply Hd.
Qed.

Section Functions.
Variable all : list FileRecord.

Lemma index_functions_stored (fi : FileRecord) (funcs : list FunctionRecord)
  (d : dict (list FunctionEntry)) :
  let d' := fold_left (index_function fi) funcs d in
  (forall k e, stored k e d -> stored k e d')
  /\ (forall func, In func funcs -> fn_name func <> "" ->
        stored (lower (fn_name func))
          {| fe_file := path fi; fe_function := func; fe_file_info := fi |} d').
Proof.
  revert d. induction funcs as [| f funcs IH]; intros d; simpl.
  - split; [auto | contradiction].
  - destruct (IH (index_function fi d f)) as [Hkeep Hnew]. split.
    + intros k e Hs. apply Hkeep. unfold index_function.
      destruct (PyStr.truthy (lower (fn_name f))); [| assumption].
      now apply stored_kept.
    + intros func [<- | Hin] Hname.
      * apply Hkeep. unfold index_function.
        replace (PyStr.truthy (lower (fn_name f))) with true.
        -- apply stored_new.
        -- symmetry. apply truthy_true. now rewrite lower_empty.
      * now apply Hnew.
Qed.

Lemma index_functions_sound (fi : FileRecord) (funcs : list FunctionRecord)
  (d : dict (list FunctionEntry)) :
  In fi all -> incl funcs (functions fi) ->
  all_stored (sound_entry all) d ->
  all_stored (sound_entry all) (fold_left (index_function fi) funcs d).
Proof.
  intros Hfi. revert d. induction funcs as [| f funcs IH]; intros d Hincl Hd;
    simpl; [assumption |].
  apply IH.
  - intros x Hx. apply Hincl. now right.
  - unfold index_function.
    destruct (PyStr.truthy (lower (fn_name f))) eqn:Ht; [| assumption].
    apply all_stored_append; [now apply truthy_true | | assumption].
    red. simpl. repeat split; try assumption. apply Hincl. now left.
Qed.

Lemma index_files_functions (fs : list FileRecord) (idx : SearchIndex) :
  let idx' := fold_left index_file fs idx in
  (forall k e, stored k e (idx_functions idx) -> stored k e (idx_functions idx'))
  /\ (forall fi func, In fi fs -> In func (functions fi) -> fn_name func <> "" ->
        stored (lower (fn_name func))
          {| fe_file := path fi; fe_function := func; fe_file_info := fi |}
          (idx_functions idx'))
  /\ (incl fs all -> all_stored (sound_entry all) (idx_functions idx) ->
      all_stored (sound_entry all) (idx_functions idx')).
Proof.
  revert idx. induction fs as [| fi fs IH]; intros idx; simpl.
  - split; [auto | split; [intros ? ? [] | auto]].
  - destruct (IH (index_file idx fi)) as (Hkeep & Hnew & Hsound).
    destruct (index_functions_stored fi (functions fi) (idx_functions idx))
      as [Hk1 Hn1].
    split; [| split].
    + intros k e Hs. apply Hkeep. simpl. now apply Hk1.
    + intros f func [<- | Hin] Hfunc Hname.
      * apply Hkeep. simpl. now apply Hn1.
      * now apply Hnew.
    + intros Hincl Hd. apply Hsound.
      * intros x Hx. apply Hincl. now right.
      * simpl. apply index_functions_sound; try assumption.
        -- apply Hincl. now left.
        -- apply incl_refl.
Qed.

End Functions.

Lemma index_components_functions (cs : list Component) (idx : SearchIndex) :
  idx_functions (fold_left index_component cs idx) = idx_functions idx
  /\ idx_files (fold_left index_component cs idx) = idx_files idx.
Proof.
  revert idx. induction cs as [| c cs IH]; intros idx; simpl; [auto |].
  destruct (IH (index_component idx c)) as [-> ->]. auto.
Qed.

(** C5 (amended): after the index is built from an analysis, every
    function with a non-empty name in the [functions] of a file record is
    found under its lowercased name, in an entry made of the path of the
    record, the function and the record; every entry under that key carries
    as [file] the path of the record that owns the entry's function, a
    record of the analysis; the empty name is not a key. *)
Theorem search_index_round_trip (ag0 : Agent) (analysis : RepositoryAnalysis)
  (summary : Summary) (fi : FileRecord) (func : FunctionRecord) :
  In fi (files analysis) -> In func (functions fi) -> fn_name func <> "" ->
  let ag := load_repository_context ag0 (Some analysis) summary in
  exists entries,
    get (lower (fn_name func)) (idx_functions (search_index ag)) = Some entries
    /\ In {| fe_file := path fi; fe_function := func; fe_file_info := fi |}
         entries
    /\ (forall e, In e entries ->
          fe_file e = path (fe_file_info e)
          /\ In (fe_file_info e) (files analysis)
          /\ In (fe_function e) (functions (fe_file_info e))
          /\ lower (fn_name (fe_function e)) = lower (fn_name func))
    /\ get "" (idx_functions (search_index ag)) = None.
Proof.
  intros Hfi Hfunc Hname ag. unfold ag, load_repository_context. simpl.
  unfold _build_search_index, cache_files. simpl.
  destruct (index_components_functions (key_components summary)
              (fold_left index_file (files analysis) empty_index)) as [-> _].
  destruct (index_files_functions (files analysis) (files analysis) empty_index)
    as (_ & Hnew & Hsound).
  destruct (Hnew fi func Hfi Hfunc Hname) as (entries & Hget & Hin).
  assert (Hall : all_stored (sound_entry (files analysis))
                   (idx_functions
                      (fold_left index_file (files analysis) empty_index))).
  { apply Hsound; [apply incl_refl |]. intros k es Hk. discriminate. }
  exists entries. split; [exact Hget |]. split; [exact Hin |]. split.
  - intros e He. destruct (Hall _ _ Hget) as [_ Hes]. apply (Hes e He).
  - destruct (get "" (idx_functions
                        (fold_left index_file (files analysis) empty_index)))
      as [es |] eqn:Hempty; [| reflexivity].
    destruct (Hall _ _ Hempty) as [Hne _]. now contradiction Hne.
Qed.

End IndexFacts.

Module IndexExamples.
Import PyStr PyList PyDict CodeParser QAAgent Examples IndexFacts.

Lemma analyze_readme_repo :
  analyze_repository plain_engines "repo" repo_with_readme = Some readme_analysis.
Proof. vm_compute. reflexivity. Qed.

Lemma analyze_notes_repo :
  analyze_repository plain_engines "repo" repo_with_notes = Some notes_analysis.
Proof. vm_compute. reflexivity. Qed.

Lemma search_index_round_trip_witness :
  let func := {| fn_name := "Demo"; fn_line := 1; fn_args := [];
                 fn_docstring := None; fn_decorators := [];
                 fn_type := Some "header_h1" |} in
  let ag := load_repository_context init (Some readme_analysis) plain_summary in
  exists entries,
    get (lower (fn_name func)) (idx_functions (search_index ag)) = Some entries
    /\ In {| fe_file := path readme_record; fe_function := func;
             fe_file_info := readme_record |} entries
    /\ (forall e, In e entries ->
          fe_file e = path (fe_file_info e)
          /\ In (fe_file_info e) (files readme_analysis)
          /\ In (fe_function e) (functions (fe_file_info e))
          /\ lower (fn_name (fe_function e)) = lower (fn_name func))
    /\ get "" (idx_functions (search_index ag)) = None.
Proof.
  intros func.
  apply (@search_index_round_trip init readme_analysis plain_summary
           readme_record func).
  - simpl. left. reflexivity.
  - simpl. left. reflexivity.
  - simpl. discriminate.
Defined.

(** C5 as worded fails on the analysis of a repository whose only file,
    [NOTES.md], starts with a bare [#]: the record lists a function with
    the empty name, and the index has no key for it. *)
Lemma empty_name_counterexample :
  analyze_repository plain_engines "repo" repo_with_notes = Some notes_analysis
  /\ In notes_record (files notes_analysis)
  /\ In bare_header (functions notes_record)
  /\ get (lower (fn_name bare_header))
       (idx_functions
          (search_index
             (load_repository_context init (Some notes_analysis) plain_summary)))
     = None.
Proof.
  split; [vm_compute; reflexivity |].
  split; [left; reflexivity |]. split; [left; reflexivity |].
  vm_compute. reflexivity.
Qed.

End IndexExamples.

(* ================================================================== *)
(** * The agent: context extraction and rendering *)
(* ================================================================== *)

Module ContextFacts.
Import PyStr PyPath PyList PyDict CodeParser QAAgent Notions PyFacts RepositoryFacts.

(** C7 (amended): when the lowercased question contains [readme], the
    files of the extracted context include every indexed file whose key
    contains [readme], and the intent is [readme] whatever the keyword
    classification found, unless the question also contains one of the
    documentation keywords [documentation], [docs], [doc], in which case the
    later documentation override makes the intent [documentation]. *)
Theorem readme_override (ag : Agent) (question : string) :
  contains "readme" (lower question) = true ->
  let context := _extract_relevant_context ag question in
  (any_in ["documentation"; "docs"; "doc"] (lower question) = false -> ctx_type context = "readme")
  /\ (any_in ["documentation"; "docs"; "doc"] (lower question) = true ->
      ctx_type context = "documentation")
  /\ forall file_path file_info,
       In (file_path, file_info) (idx_files (search_index ag)) ->
       contains "readme" (lower file_path) = true ->
       In file_info (ctx_files context).
Proof.
  intros Hq context. subst context. unfold _extract_relevant_context.
  rewrite Hq.
  set (matched := map snd (filter _ (idx_files (search_index ag)))).
  set (readmes :=
         map snd (filter (fun kv => contains "readme" (lower (fst kv)))
                         (idx_files (search_index ag)))).
  assert (Hin : forall file_path file_info,
             In (file_path, file_info) (idx_files (search_index ag)) ->
             contains "readme" (lower file_path) = true ->
             In file_info readmes).
  { intros file_path file_info Hi Hc. unfold readmes.
    apply in_map_iff. exists (file_path, file_info). split; [reflexivity |].
    apply filter_In. split; assumption. }
  destruct (any_in ["documentation"; "docs"; "doc"] (lower question)) eqn:Hdoc; cbv zeta beta iota.
  - match goal with
    | |- context [if ?c then _ else _] => destruct c
    end; simpl.
    + repeat split; try discriminate. intros p f Hi Hc.
      apply in_or_app. left. apply in_or_app. right. eapply Hin; eassumption.
    + repeat split; try discriminate. intros p f Hi Hc.
      apply in_or_app. left. apply in_or_app. right. eapply Hin; eassumption.
  - match goal with
    | |- context [if ?c then _ else _] => destruct c
    end; simpl.
    + repeat split; try discriminate. intros p f Hi Hc.
      apply in_or_app. right. eapply Hin; eassumption.
    + repeat split; try discriminate. intros p f Hi Hc.
      apply in_or_app. right. eapply Hin; eassumption.
Qed.

Section Rendering.
Variable E : engines.
Variable json_dumps : dict lang_stats -> string.

(** C1 (amended): for an analysis returned by the parser and a question
    of intent [structure] or [file], the section "Complete File Structure"
    of the rendered context has one line per record of [files], in order:
    the files that survived the walk and were analysed. Their number is
    [analyzed_files], which is at most [total_files]; a surviving file of at
    most 1 MiB that can be read has its line. The section is left out when
    no file was analysed. *)
Theorem file_structure_lists_analysed_files (ag0 : Agent)
  (repo_path : string) (tree : list fs_entry) (a : RepositoryAnalysis)
  (summary : Summary) (question : string) :
  analyze_repository E repo_path tree = Some a ->
  let ag := load_repository_context ag0 (Some a) summary in
  let context := _extract_relevant_context ag question in
  ctx_type context = "structure" \/ ctx_type context = "file" ->
  file_structure_part (context_cache ag) context
  = match files a with
    | [] => []
    | _ =>
        ["Complete File Structure:"]
        +++ map file_structure_line (files a)
        +++ [nl ++ "Total files: " ++ of_nat (total_files a)
             ++ ", Analyzed files: " ++ of_nat (analyzed_files a);
             ""]
    end
  /\ (exists before after,
        context_parts json_dumps ag context question
        = before +++ file_structure_part (context_cache ag) context +++ after)
  /\ List.length (map file_structure_line (files a)) = analyzed_files a
  /\ analyzed_files a <= total_files a
  /\ total_files a = List.length (all_files repo_path tree)
  /\ files a = analysed E (all_files repo_path tree)
  /\ (forall w, In w (all_files repo_path tree) ->
        (st_size (wf_file w) <= 1024 * 1024)%N ->
        fs_read (wf_file w) <> ReadError ->
        exists fi,
          In fi (files a) /\ path fi = wf_rel w
          /\ In (file_structure_line fi)
               (file_structure_part (context_cache ag) context)).
Proof.
  intros Ha ag context Htype.
  destruct (analyze_repository_fields _ _ _ Ha)
    as (_ & Ht & Hf & Hn & _).
  assert (Hpart : file_structure_part (context_cache ag) context
                  = match files a with
                    | [] => []
                    | _ =>
                        ["Complete File Structure:"]
                        +++ map file_structure_line (files a)
                        +++ [nl ++ "Total files: " ++ of_nat (total_files a)
                             ++ ", Analyzed files: "
                             ++ of_nat (analyzed_files a);
                             ""]
                    end).
  { unfold file_structure_part.
    replace (mem (ctx_type context) ["structure"; "file"]) with true
      by (destruct Htype as [-> | ->]; reflexivity).
    simpl. destruct (files a); reflexivity. }
  split; [exact Hpart |]. split.
  { eexists. eexists. unfold context_parts. reflexivity. }
  split; [rewrite length_map, Hf; symmetry; exact Hn |].
  split; [rewrite Hn, Ht; apply analysed_length |].
  split; [exact Ht |]. split; [exact Hf |].
  intros w Hw Hsize Hread.
  destruct (analyze_file E (wf_path w) (wf_rel w) (wf_file w)) as [fi |] eqn:Hfi.
  - assert (Hin : In fi (files a)).
    { rewrite Hf. apply analysed_In. now exists w. }
    exists fi. split; [exact Hin |]. split.
    + now destruct (ParserFacts.analyze_file_inv _ _ _ _ Hfi)
        as (_ & _ & _ & Hp & _).
    + rewrite Hpart. destruct (files a) as [| f0 fs] eqn:Hfiles;
        [contradiction |].
      apply in_or_app. right. apply in_or_app. left. now apply in_map.
  - apply analyze_file_skips in Hfi. destruct Hfi as [Hbig | Herr];
      [lia | contradiction].
Qed.

End Rendering.

End ContextFacts.

Module ContextExamples.
Import PyStr PyPath PyList PyDict CodeParser QAAgent Examples Notions.
Import RepositoryFacts ContextFacts.

Lemma analyze_large_file_repo :
  analyze_repository plain_engines "repo" repo_with_large_file
  = Some large_file_analysis.
Proof. vm_compute. reflexivity. Qed.

Lemma file_structure_lists_analysed_files_witness :
  let a := large_file_analysis in
  let question := "How is the project organized into folders?" in
  let ag := load_repository_context init (Some a) plain_summary in
  let context := _extract_relevant_context ag question in
  file_structure_part (context_cache ag) context
  = match files a with
    | [] => []
    | _ =>
        ["Complete File Structure:"]
        +++ map file_structure_line (files a)
        +++ [nl ++ "Total files: " ++ of_nat (total_files a)
             ++ ", Analyzed files: " ++ of_nat (analyzed_files a);
             ""]
    end
  /\ (exists before after,
        context_parts no_json ag context question
        = before +++ file_structure_part (context_cache ag) context +++ after)
  /\ List.length (map file_structure_line (files a)) = analyzed_files a
  /\ analyzed_files a <= total_files a
  /\ total_files a = List.length (all_files "repo" repo_with_large_file)
  /\ files a = analysed plain_engines (all_files "repo" repo_with_large_file)
  /\ (forall w, In w (all_files "repo" repo_with_large_file) ->
        (st_size (wf_file w) <= 1024 * 1024)%N ->
        fs_read (wf_file w) <> ReadError ->
        exists fi,
          In fi (files a) /\ path fi = wf_rel w
          /\ In (file_structure_line fi)
               (file_structure_part (context_cache ag) context)).
Proof.
  intros a question ag context.
  apply (@file_structure_lists_analysed_files plain_engines no_json init
           "repo" repo_with_large_file a plain_summary question).
  - vm_compute. reflexivity.
  - left. vm_compute. reflexivity.
Defined.

(** C1 as worded fails on a repository holding [main.py] and a file of
    2 MiB: both survive the walk, so [total_files] is 2, but the large file
    is skipped by the analyser and the section lists one file. *)
Lemma large_file_counterexample :
  let question := "How is the project organized into folders?" in
  let ag := load_repository_context init (Some large_file_analysis)
              plain_summary in
  let context := _extract_relevant_context ag question in
  analyze_repository plain_engines "repo" repo_with_large_file
  = Some large_file_analysis
  /\ ctx_type context = "structure"
  /\ file_structure_part (context_cache ag) context
     = ["Complete File Structure:";
        "- main.py (python, 4 bytes, 1 lines)";
        nl ++ "Total files: 2, Analyzed files: 1";
        ""]
  /\ total_files large_file_analysis = 2
  /\ List.length (files large_file_analysis) = 1.
Proof. vm_compute. repeat split. Qed.

Lemma readme_override_witness :
  let question := "What does the README say about functions?" in
  let context := _extract_relevant_context loaded question in
  (any_in ["documentation"; "docs"; "doc"] (lower question) = false ->
   ctx_type context = "readme")
  /\ (any_in ["documentation"; "docs"; "doc"] (lower question) = true ->
      ctx_type context = "documentation")
  /\ forall file_path file_info,
       In (file_path, file_info) (idx_files (search_index loaded)) ->
       contains "readme" (lower file_path) = true ->
       In file_info (ctx_files context).
Proof.
  intros question context.
  apply (@readme_override loaded question).
  vm_compute. reflexivity.
Defined.

(** The question of the witness names functions, and its intent is
    still [readme]. *)
Lemma readme_beats_keywords :
  ctx_type (_extract_relevant_context loaded
              "What does the README say about functions?") = "readme"
  /\ map path (ctx_files (_extract_relevant_context loaded
                            "What does the README say about functions?"))
     = ["README.md"].
Proof. vm_compute. split; reflexivity. Qed.

(** C7 as worded fails on a question that contains both [readme] and
    [doc]: the intent is [documentation]. *)
Lemma readme_documentation_counterexample :
  let question := "Where is the README documentation?" in
  contains "readme" (lower question) = true
  /\ ctx_type (_extract_relevant_context loaded question) = "documentation".
Proof. vm_compute. split; reflexivity. Qed.

End ContextExamples.

(* ================================================================== *)
(** * Further facts about strings and lists *)
(* ================================================================== *)

Module MoreFacts.
Import PyStr PyList PyDict PyFacts.

Lemma length_append (a b : string) :
  String.length (a ++ b) = String.length a + String.length b.
Proof. induction a as [| c a IH]; simpl; [reflexivity | now rewrite IH]. Qed.

Lemma take_length (n : nat) (s : string) :
  String.length (take n s) = Nat.min n (String.length s).
Proof.
  revert s. induction n as [| n IH]; intros [| c s]; simpl; try reflexivity.
  now rewrite IH.
Qed.

Lemma take_all (n : nat) (s : string) : String.length s <= n -> take n s = s.
Proof.
  revert s. induction n as [| n IH]; intros [| c s] H; simpl in *;
    try reflexivity; try lia.
  f_equal. apply IH. lia.
Qed.

Lemma split_app_sep (sep : ascii) (a b : string) :
  split sep (a ++ String sep b) = split sep a +++ split sep b.
Proof.
  induction a as [| c a IH]; simpl.
  - now rewrite Ascii.eqb_refl.
  - destruct (Ascii.eqb c sep); simpl.
    + now rewrite IH.
    + rewrite IH. destruct (split sep a) as [| h t] eqn:Hs.
      * now apply split_nonempty in Hs.
      * reflexivity.
Qed.

Lemma take_drop (n : nat) (s : string) : take n s ++ drop n s = s.
Proof.
  revert s. induction n as [| n IH]; intros [| c s]; simpl; try reflexivity.
  now rewrite IH.
Qed.

Lemma endswith_inv (s p : string) :
  endswith s p = true -> exists r, s = r ++ p.
Proof.
  unfold endswith. intros H. apply andb_prop in H. destruct H as [_ H].
  apply String.eqb_eq in H.
  exists (take (String.length s - String.length p) s).
  pose proof (take_drop (String.length s - String.length p) s) as T.
  rewrite H in T. now symmetry.
Qed.

Lemma append_assoc (a b c : string) : (a ++ b) ++ c = a ++ b ++ c.
Proof. induction a as [| x a IH]; simpl; [reflexivity | now rewrite IH]. Qed.

Lemma set_In {V} (k k' : string) (v v' : V) (d : dict V) :
  In (k', v') (set k v d) -> (k', v') = (k, v) \/ In (k', v') d.
Proof.
  induction d as [| [k0 v0] d IH]; simpl.
  - intros [H | []]. left. now symmetry.
  - destruct (String.eqb k k0); simpl.
    + intros [H | H]; [left; now symmetry | right; now right].
    + intros [H | H]; [right; now left |].
      destruct (IH H) as [H' | H']; [now left | right; now right].
Qed.

Lemma incl_firstn {A} (n : nat) (l : list A) : incl (firstn n l) l.
Proof.
  unfold incl. revert l. induction n as [| n IH]; intros l y Hy.
  - destruct Hy.
  - destruct l as [| x l]; [destruct Hy |].
    destruct Hy as [<- | Hy]; [now left | right; now apply IH].
Qed.

Lemma flat_map_length_le {A B} (f : A -> list B) (n : nat) (l : list A) :
  (forall x, List.length (f x) <= n) ->
  List.length (flat_map f l) <= n * List.length l.
Proof.
  intros Hf. induction l as [| x l IH]; simpl; [lia |].
  rewrite length_app. specialize (Hf x). lia.
Qed.

Lemma firstn_le (A : Type) (n : nat) (l : list A) :
  List.length (firstn n l) <= n.
Proof. rewrite length_firstn. lia. Qed.

Lemma find_snoc {A} (p : A -> bool) (l : list A) (x : A) :
  find p (l +++ [x])
  = match find p l with
    | Some y => Some y
    | None => if p x then Some x else None
    end.
Proof.
  induction l as [| y l IH]; simpl; [reflexivity |].
  destruct (p y); [reflexivity | exact IH].
Qed.

Lemma nodup_firstn {A} (n : nat) (l : list A) : NoDup l -> NoDup (firstn n l).
Proof.
  revert l. induction n as [| n IH]; intros [| x l] H; simpl;
    try constructor.
  - inversion H; subst. intros Hin. apply incl_firstn in Hin.
    contradiction.
  - inversion H; subst. now apply IH.
Qed.

Lemma sorted_firstn {A} (R : A -> A -> Prop) (n : nat) (l : list A) :
  StronglySorted R l -> StronglySorted R (firstn n l).
Proof.
  intros H. revert n. induction H as [| x l Hs IH Hall]; intros [| n]; simpl;
    try constructor.
  - apply IH.
  - rewrite Forall_forall in *. intros y Hy.
    apply Hall. now apply incl_firstn in Hy.
Qed.

End MoreFacts.

(* ================================================================== *)
(** * More about the parser *)
(* ================================================================== *)

Module ParserMore.
Import PyStr PyPath PyDict CodeParser Notions MoreNotions PyFacts ParserFacts MoreFacts.
Import RepositoryFacts.

Section Files.
Variable E : engines.

(** X1: [analyze_file] gives its skip signal exactly for a file larger
    than 1 MiB or one that cannot be read; a readable file of exactly
    1 MiB is analysed. *)
Theorem analyze_file_skip_signal (file_path rel_path : string) (f : fs_file) :
  (analyze_file E file_path rel_path f = None
   <-> (1048576 < st_size f)%N \/ fs_read f = ReadError)
  /\ (st_size f = 1048576%N -> fs_read f <> ReadError ->
      analyze_file E file_path rel_path f <> None).
Proof.
  assert (Hiff : analyze_file E file_path rel_path f = None
                 <-> (1048576 < st_size f)%N \/ fs_read f = ReadError).
  { unfold analyze_file.
    change (1024 * 1024)%N with 1048576%N.
    destruct (1048576 <? st_size f)%N eqn:Hs.
    - apply N.ltb_lt in Hs. tauto.
    - apply N.ltb_ge in Hs. destruct (fs_read f).
      + split; [discriminate |]. intros [H | H]; [lia | discriminate].
      + tauto. }
  split; [exact Hiff |].
  intros Hsize Hread Hnone. apply Hiff in Hnone.
  destruct Hnone as [H | H]; [lia | contradiction].
Qed.

(** X2: every record [analyze_file] returns has a size of at most
    1 MiB, at least one line and at most one line more than the text has
    characters, and a preview of at most 503 characters that is the whole
    text when the text has at most 500 characters; a stored content is the
    whole text. *)
Theorem file_record_bounds (file_path rel_path : string) (f : fs_file)
  (fi : FileRecord) :
  analyze_file E file_path rel_path f = Some fi ->
  exists text,
    fs_read f = Decoded text
    /\ (size fi <= 1048576)%N
    /\ 1 <= lines fi <= 1 + String.length text
    /\ String.length (content_preview fi) <= 503
    /\ (String.length text <= 500 -> content_preview fi = text)
    /\ (forall c, content fi = Some c -> c = text).
Proof.
  intros H.
  destruct (analyze_file_inv _ _ _ _ H)
    as (text & Hr & Hs & _ & _ & _ & Hsz & Hl & Hp & Hc).
  exists text. split; [exact Hr |].
  split; [rewrite Hsz; exact Hs |].
  split.
  { rewrite Hl, split_length. split; [lia |].
    assert (count newline text <= String.length text).
    { clear. induction text as [| c t IH]; simpl; [lia |].
      destruct (Ascii.eqb c newline); lia. }
    lia. }
  split.
  { rewrite Hp, length_append, take_length.
    destruct (500 <? String.length text); cbn [String.length]; lia. }
  split.
  { intros Hlen. rewrite Hp.
    replace (500 <? String.length text) with false
      by (symmetry; apply Nat.ltb_ge; exact Hlen).
    rewrite (take_all _ Hlen).
    clear. induction text as [| c t IH]; simpl; [reflexivity | now rewrite IH]. }
  intros c Hcc. rewrite Hc in Hcc.
  match type of Hcc with (if ?b then _ else _) = _ => destruct b end;
    congruence.
Qed.

End Files.

End ParserMore.

(* ================================================================== *)
(** * Markdown headings *)
(* ================================================================== *)

Module MarkdownMore.
Import PyStr PyPath PyDict CodeParser Notions MoreNotions PyFacts ParserFacts MoreFacts.

Lemma markdown_headers_spec (ls : list string) :
  forall i,
    List.length (markdown_headers i ls) = List.length (filter is_header ls)
    /\ forall fn, In fn (markdown_headers i ls) ->
         exists k line,
           nth_error ls k = Some line /\ is_header line = true
           /\ fn = heading_of (i + k) line.
Proof.
  induction ls as [| line ls IH]; intros i; simpl.
  - split; [reflexivity | contradiction].
  - destruct (IH (S i)) as [Hlen Hin]. unfold is_header at 1.
    destruct (startswith (strip line) "#") eqn:Hh; simpl.
    + split; [now rewrite Hlen |].
      intros fn [<- | Hfn].
      * exists 0, line. split; [reflexivity |]. split; [exact Hh |].
        unfold heading_of. now rewrite Nat.add_0_r.
      * destruct (Hin fn Hfn) as (k & l & Hk & Hl & ->).
        exists (S k), l. split; [exact Hk |]. split; [exact Hl |].
        now rewrite Nat.add_succ_r.
    + split; [exact Hlen |].
      intros fn Hfn. destruct (Hin fn Hfn) as (k & l & Hk & Hl & ->).
      exists (S k), l. split; [exact Hk |]. split; [exact Hl |].
      now rewrite Nat.add_succ_r.
Qed.

Lemma markdown_headers_map (ls : list string) :
  forall i,
    markdown_headers i ls
    = map (fun kl => heading_of (fst kl) (snd kl))
          (filter (fun kl => is_header (snd kl))
                  (combine (seq i (List.length ls)) ls)).
Proof.
  induction ls as [| line ls IH]; intros i; [reflexivity |].
  cbn [markdown_headers List.length seq combine filter snd].
  unfold is_header at 1.
  destruct (startswith (strip line) "#"); cbn [map fst snd].
  - rewrite IH. reflexivity.
  - apply IH.
Qed.

Lemma markdown_headers_sorted (ls : list string) :
  forall i,
    Forall (fun fn => i < fn_line fn) (markdown_headers i ls)
    /\ StronglySorted (fun a b => fn_line a < fn_line b)
         (markdown_headers i ls).
Proof.
  induction ls as [| line ls IH]; intros i; simpl.
  - split; constructor.
  - destruct (IH (S i)) as [Hall Hsort].
    assert (Hweak : Forall (fun fn => i < fn_line fn)
                           (markdown_headers (S i) ls)).
    { eapply Forall_impl; [| exact Hall]. simpl. intros fn Hfn. lia. }
    destruct (startswith (strip line) "#"); [| now split].
    split.
    + constructor; [simpl; lia | exact Hweak].
    + constructor; [exact Hsort |].
      eapply Forall_impl; [| exact Hall]. simpl. intros fn Hfn. lia.
Qed.

Lemma markdown_headers_complete (ls : list string) :
  forall i k line,
    nth_error ls k = Some line -> is_header line = true ->
    In (heading_of (i + k) line) (markdown_headers i ls).
Proof.
  induction ls as [| l ls IH]; intros i k line Hk Hh.
  - destruct k; discriminate.
  - destruct k as [| k]; simpl in Hk.
    + injection Hk as ->. simpl. unfold is_header in Hh. rewrite Hh.
      left. unfold heading_of. now rewrite Nat.add_0_r.
    + simpl. replace (i + S k) with (S i + k) by lia.
      destruct (startswith (strip l) "#"); [right |]; now apply IH.
Qed.

Section Files.
Variable E : engines.

Lemma analyze_markdown_functions (file_path rel_path : string) (f : fs_file)
  (fi : FileRecord) (text : string) :
  analyze_file E file_path rel_path f = Some fi ->
  fs_read f = Decoded text ->
  get_file_language file_path = Some "markdown" ->
  functions fi = markdown_headers 0 (split newline text)
  /\ code_blocks fi = Some (code_block_matches E text).
Proof.
  unfold analyze_file. intros H Hr Hl. rewrite Hr, Hl in H.
  destruct (1024 * 1024 <? st_size f)%N; [discriminate |].
  injection H as <-.
  change (language_in (Some "markdown") ["python"]) with false.
  change (language_in (Some "markdown") ["javascript"; "typescript"])
    with false.
  change (language_in (Some "markdown") ["java"]) with false.
  change (language_in (Some "markdown") prose_languages) with true.
  cbv iota.
  match goal with
  | |- context [if ?c then with_content text ?r else ?r] => destruct c
  end; split; reflexivity.
Qed.

(** X3: a markdown file gets one function record per line that, once
    stripped, starts with [#], and nothing else: the list of function
    records is the list of the heading lines of the text, in the order of
    the text, each turned into its record. So every heading line has its
    record, the line numbers grow strictly along the list, and each record
    carries the 1-based number of its line, within the line count of the
    file, the line without its surrounding [#] and blanks as name, and the
    tag [header_h] followed by the number of leading [#]. *)
Theorem markdown_headings (file_path rel_path : string) (f : fs_file)
  (fi : FileRecord) :
  analyze_file E file_path rel_path f = Some fi ->
  language fi = Some "markdown" ->
  exists text,
    fs_read f = Decoded text
    /\ functions fi
       = map (fun kl => heading_of (fst kl) (snd kl)) (heading_lines text)
    /\ StronglySorted (fun a b => fn_line a < fn_line b) (functions fi)
    /\ (forall k line,
          nth_error (split newline text) k = Some line ->
          is_header line = true ->
          In (heading_of k line) (functions fi))
    /\ List.length (functions fi)
       = List.length (filter is_header (split newline text))
    /\ List.length (functions fi) <= lines fi
    /\ forall fn, In fn (functions fi) ->
         1 <= fn_line fn <= lines fi
         /\ exists line,
              nth_error (split newline text) (fn_line fn - 1) = Some line
              /\ is_header line = true
              /\ fn = heading_of (fn_line fn - 1) line.
Proof.
  intros H Hlang.
  destruct (analyze_file_inv _ _ _ _ H)
    as (text & Hr & _ & _ & _ & Hl & _ & Hlines & _).
  rewrite Hl in Hlang.
  destruct (analyze_markdown_functions _ _ _ H Hr Hlang) as [Hf _].
  destruct (markdown_headers_spec (split newline text) 0) as [Hlen Hin].
  exists text. split; [exact Hr |]. rewrite Hf, Hlines.
  split; [apply markdown_headers_map |].
  split; [apply markdown_headers_sorted |].
  split; [intros k line Hk Hh;
          apply (markdown_headers_complete _ 0 k Hk Hh) |].
  split; [exact Hlen |]. split.
  - rewrite Hlen. apply filter_length_le.
  - intros fn Hfn. destruct (Hin fn Hfn) as (k & line & Hk & Hh & ->).
    simpl. replace (k + 1 - 1) with k by lia.
    assert (k < List.length (split newline text)).
    { apply nth_error_Some. congruence. }
    split; [lia |]. exists line. auto.
Qed.

End Files.

End MarkdownMore.

(* ================================================================== *)
(** * More about the repository analysis *)
(* ================================================================== *)

Module RepositoryMore.
Import PyStr PyPath PyDict CodeParser Notions MoreNotions PyFacts ParserFacts MoreFacts.
Import RepositoryFacts.

(** *** Splitting and joining paths *)

(** A non-empty segment of [a] is a segment of [os.path.join(a, b)]
    unless [b] starts with a slash. *)
Lemma join_keeps_segment (a b seg : string) :
  startswith b "/" = false -> seg <> "" ->
  In seg (split slash a) -> In seg (split slash (os_path_join a b)).
Proof.
  intros Hb Hseg Hin. unfold os_path_join. rewrite Hb.
  destruct (String.eqb a "") eqn:Ha; simpl.
  - apply String.eqb_eq in Ha. subst a. simpl in Hin.
    destruct Hin as [<- | []]. now contradiction Hseg.
  - destruct (endswith a "/") eqn:He.
    + apply endswith_inv in He. destruct He as [r ->].
      change (r ++ "/") with (r ++ String slash "") in Hin.
      rewrite split_app_sep in Hin. simpl in Hin.
      apply in_app_or in Hin. destruct Hin as [Hin | [<- | []]];
        [| now contradiction Hseg].
      rewrite append_assoc. change ("/" ++ b) with (String slash b).
      rewrite split_app_sep. apply in_or_app. now left.
    + change ("/" ++ b) with (String slash b).
      rewrite split_app_sep. apply in_or_app. now left.
Qed.

(** A path with a segment among [ignore_dirs] is ignored. *)
Lemma segment_ignored (p seg : string) :
  In seg (split slash p) -> In seg ignore_dirs -> should_ignore_path p = true.
Proof.
  intros Hseg Hdir. unfold should_ignore_path.
  assert (H : existsb (fun part => mem part ignore_dirs) (parts p) = true).
  { apply existsb_exists. exists seg. split; [| now apply mem_In].
    unfold parts. apply in_or_app. right. unfold tail.
    apply filter_In. split; [assumption |].
    unfold ignore_dirs in Hdir. simpl in Hdir.
    repeat (destruct Hdir as [<- | Hdir]; [reflexivity |]). contradiction. }
  now rewrite H.
Qed.

Lemma ignore_dirs_nonempty (seg : string) : In seg ignore_dirs -> seg <> "".
Proof.
  unfold ignore_dirs. simpl. intros H.
  repeat (destruct H as [<- | H]; [discriminate |]). contradiction.
Qed.

Lemma plain_name_no_slash (n : string) :
  plain_name n = true -> startswith n "/" = false /\ n <> "".
Proof.
  unfold plain_name. intros H. apply andb_prop in H. destruct H as [Ht Hc].
  apply truthy_true in Ht. split; [| exact Ht].
  apply negb_true_iff in Hc. destruct n as [| c n]; [reflexivity |].
  simpl in Hc. unfold startswith. simpl.
  apply orb_false_elim in Hc. destruct Hc as [Hc _]. exact Hc.
Qed.

(** *** The walk *)

Lemma all_files_kept (repo_path : string) (tree : list fs_entry)
  (w : walked_file) :
  In w (all_files repo_path tree) -> should_ignore_path (wf_path w) = false.
Proof.
  unfold all_files. intros H. apply in_flat_map in H.
  destruct H as (st & _ & H). unfold step_files in H.
  apply in_map_iff in H. destruct H as (f & <- & H). simpl.
  unfold kept_files in H. apply filter_In in H. destruct H as [_ H].
  now apply negb_true_iff in H.
Qed.

Lemma record_files_totals (recs : list FileRecord) (a0 : RepositoryAnalysis) :
  let a := fold_left record_file recs a0 in
  total_functions (summary a)
  = total_functions (summary a0)
    + list_sum (map (fun fi => List.length (functions fi)) recs)
  /\ total_classes (summary a)
     = total_classes (summary a0)
       + list_sum (map (fun fi => List.length (classes fi)) recs)
  /\ total_imports (summary a)
     = total_imports (summary a0)
       + list_sum (map (fun fi => List.length (imports fi)) recs).
Proof.
  revert a0. induction recs as [| fi recs IH]; intros a0; simpl.
  - repeat split; lia.
  - destruct (IH (record_file a0 fi)) as (Hf & Hc & Hi).
    rewrite Hf, Hc, Hi. simpl. repeat split; lia.
Qed.

Section Run.
Variable E : engines.

(** X4: no record of a returned analysis is for an ignorable path: no
    component of its full path is an ignored directory name, its name is
    not an ignored file name and its lowercased extension is not a binary
    extension. *)
Theorem analysed_paths_not_ignored (repo_path : string)
  (tree : list fs_entry) (a : RepositoryAnalysis) (fi : FileRecord) :
  analyze_repository E repo_path tree = Some a -> In fi (files a) ->
  should_ignore_path (full_path fi) = false
  /\ (forall part, In part (parts (full_path fi)) -> ~ In part ignore_dirs)
  /\ ~ In (name (full_path fi)) ignore_files
  /\ ~ In (lower (suffix (full_path fi))) binary_extensions.
Proof.
  intros Ha Hfi.
  destruct (analyze_repository_fields _ _ _ Ha) as (_ & _ & Hf & _).
  rewrite Hf in Hfi. apply analysed_In in Hfi. destruct Hfi as (w & Hw & Hfi).
  destruct (analyze_file_inv _ _ _ _ Hfi) as (_ & _ & _ & _ & Hp & _).
  apply all_files_kept in Hw. rewrite Hp.
  split; [exact Hw |].
  unfold should_ignore_path in Hw.
  destruct (existsb (fun part => mem part ignore_dirs) (parts (wf_path w)))
    eqn:H1; [discriminate |].
  destruct (mem (name (wf_path w)) ignore_files) eqn:H2; [discriminate |].
  destruct (mem (lower (suffix (wf_path w))) binary_extensions) eqn:H3;
    [discriminate |].
  split; [| split].
  - intros part Hpart Hin.
    assert (existsb (fun part => mem part ignore_dirs) (parts (wf_path w))
            = true); [| congruence].
    apply existsb_exists. exists part. split; [assumption | now apply mem_In].
  - intros Hin. apply mem_In in Hin. congruence.
  - intros Hin. apply mem_In in Hin. congruence.
Qed.

(** X7: in a returned analysis the totals of functions, classes and
    imports are the sums of the lengths of the three lists over the
    records of [files]. *)
Theorem summary_totals_are_sums (repo_path : string) (tree : list fs_entry)
  (a : RepositoryAnalysis) :
  analyze_repository E repo_path tree = Some a ->
  total_functions (summary a)
  = list_sum (map (fun fi => List.length (functions fi)) (files a))
  /\ total_classes (summary a)
     = list_sum (map (fun fi => List.length (classes fi)) (files a))
  /\ total_imports (summary a)
     = list_sum (map (fun fi => List.length (imports fi)) (files a)).
Proof.
  unfold analyze_repository.
  destruct (generate_directory_structure repo_path tree) as [d |];
    [| discriminate].
  intros [= <-]. simpl. unfold analyze_files. rewrite analyze_steps.
  match goal with
  | |- context [fold_left record_file ?r ?a0] =>
      destruct (record_files_totals r a0) as (Hf & Hc & Hi);
      destruct (record_files_fields r a0) as (Hfiles & _)
  end.
  rewrite Hf, Hc, Hi, Hfiles. simpl. repeat split.
Qed.

(** X5: the path filter looks at the whole path, the repository root
    included: when a component of [repo_path] is an ignored directory
    name, no file survives the walk, so a returned analysis has no file at
    all. *)
Theorem ignored_root_hides_everything (repo_path seg : string)
  (tree : list fs_entry) :
  In seg (split slash repo_path) -> In seg ignore_dirs ->
  forallb well_named tree = true ->
  all_files repo_path tree = []
  /\ forall a, analyze_repository E repo_path tree = Some a ->
       total_files a = 0 /\ analyzed_files a = 0 /\ files a = [].
Proof.
  intros Hseg Hdir Hnames.
  assert (Hchild : forall n, plain_name n = true ->
                     should_ignore_path (os_path_join repo_path n) = true).
  { intros n Hn. apply plain_name_no_slash in Hn. destruct Hn as [Hn _].
    apply (@segment_ignored _ seg); [| exact Hdir].
    apply join_keeps_segment; try assumption.
    now apply ignore_dirs_nonempty. }
  assert (Hall : all_files repo_path tree = []).
  { unfold all_files, walk.
    assert (Hdirs : flat_map (walk_entry repo_path []) tree = []).
    { clear Hseg Hdir. induction tree as [| e tree IH]; [reflexivity |].
      simpl in Hnames. apply andb_prop in Hnames. destruct Hnames as [He Ht].
      simpl. rewrite (IH Ht). rewrite app_nil_r.
      destruct e as [f | d children]; [reflexivity |].
      simpl in He. apply andb_prop in He. destruct He as [Hd _].
      simpl. now rewrite (Hchild d Hd). }
    rewrite Hdirs. simpl. rewrite app_nil_r.
    unfold step_files, kept_files. simpl.
    replace (filter _ (files_of tree)) with (@nil fs_file); [reflexivity |].
    symmetry. clear Hdirs.
    induction tree as [| e tree IH]; [reflexivity |].
    simpl in Hnames. apply andb_prop in Hnames. destruct Hnames as [He Ht].
    unfold files_of in *. simpl. rewrite filter_app, (IH Ht), app_nil_r.
    destruct e as [f | d children]; [| reflexivity].
    simpl in He. simpl. now rewrite (Hchild (fs_name f) He). }
  split; [exact Hall |].
  intros a Ha.
  destruct (analyze_repository_fields _ _ _ Ha) as (_ & Ht & Hf & Hn & _).
  rewrite Ht, Hn, Hf, Hall. repeat split.
Qed.

End Run.

End RepositoryMore.

(* ================================================================== *)
(** * The walk and the directory structure *)
(* ================================================================== *)

Module WalkMore.
Import PyStr PyPath PyDict CodeParser Notions MoreNotions PyFacts ParserFacts MoreFacts.
Import RepositoryFacts RepositoryMore.

Lemma fs_entry_induction (P : fs_entry -> Prop) :
  (forall f, P (FsFile f)) ->
  (forall d children, Forall P children -> P (FsDir d children)) ->
  forall e, P e.
Proof.
  intros Hfile Hdir. fix IH 1. intros [f | d children].
  - apply Hfile.
  - apply Hdir. induction children as [| c children IHc]; constructor.
    + apply IH.
    + exact IHc.
Qed.

(** *** The structure dictionary *)

Lemma tidy_forallb (d : dict structure_node) : tidy d = forallb entry_ok d.
Proof. reflexivity. Qed.

Lemma tidy_get (k : string) (v : structure_node) (d : dict structure_node) :
  tidy d = true -> get k d = Some v -> entry_ok (k, v) = true.
Proof.
  rewrite tidy_forallb. intros Ht Hg. apply get_In in Hg.
  rewrite forallb_forall in Ht. now apply Ht.
Qed.

Lemma tidy_set (k : string) (v : structure_node) (d : dict structure_node) :
  tidy d = true -> entry_ok (k, v) = true -> tidy (set k v d) = true.
Proof.
  rewrite (tidy_forallb (set k v d)), (tidy_forallb d). intros Ht Hv.
  induction d as [| [k' v'] d IH]; cbn [PyDict.set forallb].
  - now rewrite Hv.
  - cbn [forallb] in Ht. apply andb_prop in Ht. destruct Ht as [H1 H2].
    destruct (String.eqb k k'); cbn [forallb].
    + now rewrite Hv, H2.
    + now rewrite H1, IH.
Qed.

Lemma add_files_tidy (names : list string) (d : dict structure_node) :
  tidy d = true ->
  exists d', add_files names d = Some d' /\ tidy d' = true.
Proof.
  intros Ht. unfold add_files. destruct names as [| n names]; [eauto |].
  destruct (get "_files" d) as [v |] eqn:Hg.
  - pose proof (tidy_get _ _ Ht Hg) as Hv. simpl in Hv.
    destruct v as [sub | l]; [discriminate |].
    eexists. split; [reflexivity |]. now apply tidy_set.
  - eexists. split; [reflexivity |]. now apply tidy_set.
Qed.

Lemma enter_tidy (path_parts names : list string) (d : dict structure_node) :
  tidy d = true -> ~ In "_files" path_parts ->
  exists d', enter path_parts names d = Some d' /\ tidy d' = true.
Proof.
  revert d. induction path_parts as [| part rest IH]; intros d Ht Hno; simpl.
  - now apply add_files_tidy.
  - assert (Hpart : String.eqb part "_files" = false).
    { apply String.eqb_neq. intros ->. apply Hno. now left. }
    assert (Hrest : ~ In "_files" rest) by (intros H; apply Hno; now right).
    destruct (get part d) as [v |] eqn:Hg.
    + pose proof (tidy_get _ _ Ht Hg) as Hv. simpl in Hv. rewrite Hpart in Hv.
      destruct v as [sub | l]; [| discriminate].
      destruct (IH sub Hv Hrest) as (sub' & -> & Hsub').
      eexists. split; [reflexivity |]. apply tidy_set; [assumption |].
      simpl. now rewrite Hpart.
    + destruct (IH [] eq_refl Hrest) as (sub' & -> & Hsub').
      eexists. split; [reflexivity |]. apply tidy_set; [assumption |].
      simpl. now rewrite Hpart.
Qed.

Lemma walk_entry_rel (e : fs_entry) :
  forall top rel st, In st (walk_entry top rel e) ->
  forall p, In p (ws_rel st) -> In p rel \/ In p (dir_names e).
Proof.
  induction e as [f | d children IH] using fs_entry_induction;
    intros top rel st Hst p Hp; simpl in Hst; [contradiction |].
  destruct (should_ignore_path (os_path_join top d)); [contradiction |].
  destruct Hst as [<- | Hst].
  - simpl in Hp. apply in_app_or in Hp. destruct Hp as [Hp | [<- | []]].
    + now left.
    + right. now left.
  - apply in_flat_map in Hst. destruct Hst as (c & Hc & Hst).
    rewrite Forall_forall in IH.
    destruct (IH c Hc _ _ _ Hst p Hp) as [H | H].
    + apply in_app_or in H. destruct H as [H | [<- | []]].
      * now left.
      * right. now left.
    + right. simpl. right. apply in_flat_map. now exists c.
Qed.

Lemma no_files_dir_names (e : fs_entry) :
  no_files_dir e = true -> ~ In "_files" (dir_names e).
Proof.
  induction e as [f | d children IH] using fs_entry_induction; simpl.
  - tauto.
  - intros H. apply andb_prop in H. destruct H as [Hd Hc].
    apply negb_true_iff, String.eqb_neq in Hd.
    intros [-> | Hin]; [now apply Hd |].
    apply in_flat_map in Hin. destruct Hin as (c & Hc' & Hin).
    rewrite Forall_forall in IH. rewrite forallb_forall in Hc.
    now apply (IH c Hc' (Hc c Hc')).
Qed.

Lemma walk_no_files_dir (repo_path : string) (tree : list fs_entry)
  (st : walk_step) :
  forallb no_files_dir tree = true -> In st (walk repo_path tree) ->
  ~ In "_files" (ws_rel st).
Proof.
  intros Hno [<- | Hst]; [simpl; tauto |].
  apply in_flat_map in Hst. destruct Hst as (e & He & Hst).
  intros Hin. destruct (walk_entry_rel _ _ _ _ Hst _ Hin) as [[] | H].
  rewrite forallb_forall in Hno.
  now apply (no_files_dir_names _ (Hno e He)).
Qed.

Section Run.
Variable E : engines.

(** X8: when no directory of the tree is called [_files], the second
    walk cannot raise: [analyze_repository] returns an analysis, and in its
    structure the key [_files] always holds a list of names and every
    other key a nested structure. *)
Theorem analysis_returned_without_files_dir (repo_path : string)
  (tree : list fs_entry) :
  forallb no_files_dir tree = true ->
  exists a,
    analyze_repository E repo_path tree = Some a /\ tidy (structure a) = true.
Proof.
  intros Hno.
  assert (Hgen : exists d,
             generate_directory_structure repo_path tree = Some d
             /\ tidy d = true).
  { unfold generate_directory_structure.
    assert (Hsteps : forall st, In st (walk repo_path tree) ->
                       ~ In "_files" (ws_rel st))
      by (intros st; now apply walk_no_files_dir).
    revert Hsteps. generalize (walk repo_path tree) as steps.
    assert (Hacc : tidy [] = true) by reflexivity. revert Hacc.
    generalize (@nil (string * structure_node)) as acc.
    intros acc Hacc steps. revert acc Hacc.
    induction steps as [| st steps IH]; intros acc Hacc Hsteps; simpl.
    - eauto.
    - destruct (@enter_tidy (ws_rel st) (map fs_name (kept_files st)) acc Hacc)
        as (d' & -> & Hd'); [apply Hsteps; now left |].
      apply IH; [assumption |]. intros st' Hst'. apply Hsteps. now right. }
  destruct Hgen as (d & Hd & Ht).
  unfold analyze_repository. rewrite Hd. eexists. split; [reflexivity |].
  exact Ht.
Qed.

End Run.

End WalkMore.

(* ================================================================== *)
(** * Paths of the records, and markdown headings *)
(* ================================================================== *)

Module PathsMore.
Import PyStr PyPath PyDict CodeParser Notions MoreNotions PyFacts ParserFacts MoreFacts.
Import RepositoryFacts RepositoryMore WalkMore.

Lemma endswith_cons (c : ascii) (x : string) :
  x <> "" -> endswith (String c x) "/" = endswith x "/".
Proof.
  intros Hx. destruct x as [| c' x']; [now contradiction Hx |].
  unfold endswith. cbn [String.length]. simpl Nat.leb.
  replace (S (S (String.length x')) - 1) with (S (String.length x')) by lia.
  replace (S (String.length x') - 1) with (String.length x') by lia.
  reflexivity.
Qed.

Lemma endswith_app (a b : string) :
  b <> "" -> endswith (a ++ b) "/" = endswith b "/".
Proof.
  intros Hb. induction a as [| c a IH]; [reflexivity |].
  simpl. rewrite endswith_cons; [exact IH |].
  destruct a; simpl; [assumption | discriminate].
Qed.

Lemma no_slash_endswith (d : string) :
  contains "/" d = false -> endswith d "/" = false.
Proof.
  induction d as [| c d IH]; [reflexivity |].
  intros H. simpl in H. apply orb_false_elim in H. destruct H as [Hc Hd].
  destruct d as [| c' d'].
  - unfold endswith. simpl. destruct (Ascii.eqb c "/") eqn:Hcs.
    + apply Ascii.eqb_eq in Hcs. subst c. discriminate.
    + reflexivity.
  - rewrite endswith_cons; [| discriminate]. now apply IH.
Qed.

Lemma join_plain (top n : string) :
  joinable top -> plain_name n = true ->
  os_path_join top n = top ++ "/" ++ n /\ joinable (top ++ "/" ++ n).
Proof.
  intros [Hne Hend] Hn. pose proof (plain_name_no_slash _ Hn) as [Hs Hnn].
  unfold os_path_join. rewrite Hs, Hend.
  replace (String.eqb top "") with false
    by (symmetry; now apply String.eqb_neq).
  split; [reflexivity |]. split.
  - destruct top; [now contradiction Hne | discriminate].
  - change (top ++ "/" ++ n) with (top ++ String slash n).
    rewrite endswith_app; [| discriminate].
    rewrite endswith_cons; [| assumption].
    apply no_slash_endswith. unfold plain_name in Hn.
    apply andb_prop in Hn. destruct Hn as [_ Hn].
    now apply negb_true_iff in Hn.
Qed.

Lemma root_of_file (repo_path : string) (rel : list string) (n : string) :
  root_of repo_path rel ++ "/" ++ n
  = repo_path ++ "/" ++ join "/" (rel +++ [n]).
Proof.
  revert repo_path. induction rel as [| d rel IH]; intros repo_path.
  - reflexivity.
  - unfold root_of in *. simpl fold_left. rewrite IH.
    rewrite !append_assoc. unfold join. simpl.
    destruct (rel +++ [n]) eqn:Hr; [now destruct rel |].
    reflexivity.
Qed.

Lemma root_of_snoc (repo_path : string) (rel : list string) (d : string) :
  root_of repo_path (rel +++ [d]) = root_of repo_path rel ++ "/" ++ d.
Proof. unfold root_of. now rewrite fold_left_app. Qed.

Lemma walk_entry_roots (repo_path : string) (e : fs_entry) :
  forall top rel st,
    well_named e = true -> joinable top -> top = root_of repo_path rel ->
    In st (walk_entry top rel e) ->
    ws_root st = root_of repo_path (ws_rel st) /\ joinable (ws_root st)
    /\ forall f, In f (ws_files st) -> plain_name (fs_name f) = true.
Proof.
  induction e as [f | d children IH] using fs_entry_induction;
    intros top rel st Hwn Htop Hroot Hst; simpl in Hst; [contradiction |].
  simpl in Hwn. apply andb_prop in Hwn. destruct Hwn as [Hd Hc].
  destruct (@join_plain _ _ Htop Hd) as [Hjoin Hgood]. rewrite Hjoin in Hst.
  destruct (should_ignore_path (top ++ "/" ++ d)); [contradiction |].
  rewrite forallb_forall in Hc.
  destruct Hst as [<- | Hst].
  - simpl. rewrite root_of_snoc, <- Hroot. split; [reflexivity |].
    split; [exact Hgood |].
    intros f Hf. unfold files_of in Hf. apply in_flat_map in Hf.
    destruct Hf as (c & Hcin & Hf). destruct c as [f' | ? ?]; [| contradiction].
    destruct Hf as [<- | []]. exact (Hc _ Hcin).
  - apply in_flat_map in Hst. destruct Hst as (c & Hcin & Hst).
    rewrite Forall_forall in IH.
    apply (IH c Hcin (top ++ "/" ++ d) (rel +++ [d]) st (Hc c Hcin) Hgood);
      [| exact Hst].
    now rewrite root_of_snoc, <- Hroot.
Qed.

Lemma all_files_paths (repo_path : string) (tree : list fs_entry)
  (w : walked_file) :
  joinable repo_path -> forallb well_named tree = true ->
  In w (all_files repo_path tree) ->
  wf_path w = repo_path ++ "/" ++ wf_rel w.
Proof.
  intros Hrepo Hwn Hw. unfold all_files in Hw. apply in_flat_map in Hw.
  destruct Hw as (st & Hst & Hw).
  assert (Hinv : ws_root st = root_of repo_path (ws_rel st)
                 /\ joinable (ws_root st)
                 /\ forall f, In f (ws_files st) ->
                      plain_name (fs_name f) = true).
  { rewrite forallb_forall in Hwn. destruct Hst as [<- | Hst].
    - simpl. split; [reflexivity |]. split; [exact Hrepo |].
      intros f Hf. unfold files_of in Hf. apply in_flat_map in Hf.
      destruct Hf as (c & Hcin & Hf).
      destruct c as [f' | ? ?]; [| contradiction].
      destruct Hf as [<- | []]. exact (Hwn _ Hcin).
    - apply in_flat_map in Hst. destruct Hst as (e & He & Hst).
      now apply (@walk_entry_roots repo_path e repo_path [] st (Hwn e He)). }
  destruct Hinv as (Hroot & Hgood & Hnames).
  unfold step_files in Hw. apply in_map_iff in Hw.
  destruct Hw as (f & <- & Hf). simpl.
  unfold kept_files in Hf. apply filter_In in Hf. destruct Hf as [Hf _].
  destruct (@join_plain _ _ Hgood (Hnames f Hf)) as [-> _].
  rewrite Hroot. apply root_of_file.
Qed.

Section Run.
Variable E : engines.

(** X6: for a root path that is not empty and does not end with a slash,
    and a tree of plain names, every record of a returned analysis has
    [full_path] equal to the root path, a slash, and its relative [path]. *)
Theorem full_path_is_root_and_path (repo_path : string)
  (tree : list fs_entry) (a : RepositoryAnalysis) (fi : FileRecord) :
  repo_path <> "" -> endswith repo_path "/" = false ->
  forallb well_named tree = true ->
  analyze_repository E repo_path tree = Some a -> In fi (files a) ->
  full_path fi = repo_path ++ "/" ++ path fi.
Proof.
  intros Hne Hend Hwn Ha Hfi.
  destruct (analyze_repository_fields _ _ _ Ha) as (_ & _ & Hf & _).
  rewrite Hf in Hfi. apply analysed_In in Hfi. destruct Hfi as (w & Hw & Hfi).
  destruct (analyze_file_inv _ _ _ _ Hfi) as (_ & _ & _ & Hp & Hfp & _).
  rewrite Hp, Hfp. apply (@all_files_paths repo_path tree); try assumption.
  split; assumption.
Qed.

End Run.

End PathsMore.

(* ================================================================== *)
(** * More about the search index *)
(* ================================================================== *)

Module IndexMore.
Import PyStr PyList PyDict CodeParser QAAgent Notions MoreNotions PyFacts MoreFacts.
Import IndexFacts.

Lemma index_files_get (k : string) (fs : list FileRecord) (idx : SearchIndex) :
  get k (idx_files (fold_left index_file fs idx))
  = match last_with_key k fs with
    | Some fi => Some fi
    | None => get k (idx_files idx)
    end.
Proof.
  revert idx. induction fs as [| f fs IH]; intros idx; [reflexivity |].
  simpl fold_left. rewrite IH. unfold last_with_key. simpl rev.
  rewrite find_snoc.
  destruct (find _ (rev fs)); [reflexivity |].
  simpl idx_files.
  destruct (String.eqb (lower (path f)) k) eqn:Hk.
  - apply String.eqb_eq in Hk. subst k. apply get_set_eq.
  - apply String.eqb_neq in Hk. now apply get_set_ne.
Qed.

Lemma find_last_exists {A} (p : A -> bool) (l : list A) (x : A) :
  In x l -> p x = true -> exists y, find p (rev l) = Some y.
Proof.
  intros Hin Hp. destruct (find p (rev l)) as [y |] eqn:Hf; [eauto |].
  exfalso. apply in_rev in Hin.
  pose proof (find_none _ _ Hf x Hin) as Hn. congruence.
Qed.

(** X9: after loading, the file mapping of the index sends a key to the
    last record of the analysis whose lowercased path is that key, and to
    nothing when there is none. So every record is reachable under its
    lowercased path, by itself or by a later record whose path differs at
    most in letter case; every stored record is a record of the analysis,
    stored under its own lowercased path. *)
Theorem file_index_lookup (ag0 : Agent) (analysis : RepositoryAnalysis)
  (summary : Summary) :
  let ag := load_repository_context ag0 (Some analysis) summary in
  (forall k, get k (idx_files (search_index ag))
             = last_with_key k (files analysis))
  /\ (forall fi, In fi (files analysis) ->
        exists fi', get (lower (path fi)) (idx_files (search_index ag)) = Some fi'
                    /\ In fi' (files analysis)
                    /\ lower (path fi') = lower (path fi))
  /\ (forall k fi, get k (idx_files (search_index ag)) = Some fi ->
        In fi (files analysis) /\ k = lower (path fi)).
Proof.
  intros ag.
  assert (Hget : forall k, get k (idx_files (search_index ag))
                           = last_with_key k (files analysis)).
  { intros k. unfold ag, load_repository_context. simpl.
    unfold _build_search_index, cache_files. simpl.
    destruct (index_components_functions (key_components summary)
                (fold_left index_file (files analysis) empty_index))
      as [_ ->].
    rewrite index_files_get. now destruct (last_with_key k (files analysis)). }
  assert (Hsound : forall k fi, last_with_key k (files analysis) = Some fi ->
                     In fi (files analysis) /\ k = lower (path fi)).
  { intros k fi Hf. unfold last_with_key in Hf. apply find_some in Hf.
    destruct Hf as [Hin Hk]. apply in_rev in Hin.
    apply String.eqb_eq in Hk. auto. }
  split; [exact Hget |]. split.
  - intros fi Hfi.
    destruct (@find_last_exists _
                (fun x => String.eqb (lower (path x)) (lower (path fi)))
                (files analysis) fi Hfi (String.eqb_refl _)) as [fi' Hf].
    exists fi'. rewrite Hget. split; [exact Hf |].
    destruct (Hsound _ _ Hf) as [Hin Hk]. auto.
  - intros k fi Hk. rewrite Hget in Hk. now apply Hsound.
Qed.

(** *** Classes *)

Section Classes.
Variable all : list FileRecord.

Lemma index_classes_stored (fi : FileRecord) (cs : list ClassRecord)
  (d : dict (list ClassEntry)) :
  let d' := fold_left (index_class fi) cs d in
  (forall k e, stored k e d -> stored k e d')
  /\ (forall cls, In cls cs -> cls_name cls <> "" ->
        stored (lower (cls_name cls))
          {| ce_file := path fi; ce_class := cls; ce_file_info := fi |} d').
Proof.
  revert d. induction cs as [| c cs IH]; intros d; simpl.
  - split; [auto | contradiction].
  - destruct (IH (index_class fi d c)) as [Hkeep Hnew]. split.
    + intros k e Hs. apply Hkeep. unfold index_class.
      destruct (PyStr.truthy (lower (cls_name c))); [| assumption].
      now apply stored_kept.
    + intros cls [<- | Hin] Hname.
      * apply Hkeep. unfold index_class.
        replace (PyStr.truthy (lower (cls_name c))) with true.
        -- apply stored_new.
        -- symmetry. apply truthy_true. now rewrite lower_empty.
      * now apply Hnew.
Qed.

Lemma index_classes_sound (fi : FileRecord) (cs : list ClassRecord)
  (d : dict (list ClassEntry)) :
  In fi all -> incl cs (classes fi) ->
  all_stored (sound_class all) d ->
  all_stored (sound_class all) (fold_left (index_class fi) cs d).
Proof.
  intros Hfi. revert d. induction cs as [| c cs IH]; intros d Hincl Hd;
    simpl; [assumption |].
  apply IH.
  - intros x Hx. apply Hincl. now right.
  - unfold index_class.
    destruct (PyStr.truthy (lower (cls_name c))) eqn:Ht; [| assumption].
    apply all_stored_append; [now apply truthy_true | | assumption].
    red. simpl. repeat split; try assumption. apply Hincl. now left.
Qed.

Lemma index_files_classes (fs : list FileRecord) (idx : SearchIndex) :
  let idx' := fold_left index_file fs idx in
  (forall k e, stored k e (idx_classes idx) -> stored k e (idx_classes idx'))
  /\ (forall fi cls, In fi fs -> In cls (classes fi) -> cls_name cls <> "" ->
        stored (lower (cls_name cls))
          {| ce_file := path fi; ce_class := cls; ce_file_info := fi |}
          (idx_classes idx'))
  /\ (incl fs all -> all_stored (sound_class all) (idx_classes idx) ->
      all_stored (sound_class all) (idx_classes idx')).
Proof.
  revert idx. induction fs as [| fi fs IH]; intros idx; simpl.
  - split; [auto | split; [intros ? ? [] | auto]].
  - destruct (IH (index_file idx fi)) as (Hkeep & Hnew & Hsound).
    destruct (index_classes_stored fi (classes fi) (idx_classes idx))
      as [Hk1 Hn1].
    split; [| split].
    + intros k e Hs. apply Hkeep. simpl. now apply Hk1.
    + intros f cls [<- | Hin] Hcls Hname.
      * apply Hkeep. simpl. now apply Hn1.
      * now apply Hnew.
    + intros Hincl Hd. apply Hsound.
      * intros x Hx. apply Hincl. now right.
      * simpl. apply index_classes_sound; try assumption.
        -- apply Hincl. now left.
        -- apply incl_refl.
Qed.

End Classes.

Lemma index_components_classes (cs : list Component) (idx : SearchIndex) :
  idx_classes (fold_left index_component cs idx) = idx_classes idx.
Proof.
  revert idx. induction cs as [| c cs IH]; intros idx; simpl; [auto |].
  now rewrite IH.
Qed.

(** X10: after loading, every class with a non-empty name in the
    [classes] of a record of the analysis is found under its lowercased
    name, in an entry made of the path of the record, the class and the
    record; classes of the same name in several files share the key and are
    all kept; every entry under the key names the path of the record that
    owns its class; the empty name is not a key. *)
Theorem class_index_round_trip (ag0 : Agent) (analysis : RepositoryAnalysis)
  (summary : Summary) (fi : FileRecord) (cls : ClassRecord) :
  In fi (files analysis) -> In cls (classes fi) -> cls_name cls <> "" ->
  let ag := load_repository_context ag0 (Some analysis) summary in
  exists entries,
    get (lower (cls_name cls)) (idx_classes (search_index ag)) = Some entries
    /\ In {| ce_file := path fi; ce_class := cls; ce_file_info := fi |} entries
    /\ (forall e, In e entries ->
          ce_file e = path (ce_file_info e)
          /\ In (ce_file_info e) (files analysis)
          /\ In (ce_class e) (classes (ce_file_info e))
          /\ lower (cls_name (ce_class e)) = lower (cls_name cls))
    /\ get "" (idx_classes (search_index ag)) = None.
Proof.
  intros Hfi Hcls Hname ag. unfold ag, load_repository_context. simpl.
  unfold _build_search_index, cache_files. simpl.
  rewrite index_components_classes.
  destruct (index_files_classes (files analysis) (files analysis) empty_index)
    as (_ & Hnew & Hsound).
  destruct (Hnew fi cls Hfi Hcls Hname) as (entries & Hget & Hin).
  assert (Hall : all_stored (sound_class (files analysis))
                   (idx_classes
                      (fold_left index_file (files analysis) empty_index))).
  { apply Hsound; [apply incl_refl |]. intros k es Hk. discriminate. }
  exists entries. split; [exact Hget |]. split; [exact Hin |]. split.
  - intros e He. destruct (Hall _ _ Hget) as [_ Hes]. apply (Hes e He).
  - destruct (get "" (idx_classes
                        (fold_left index_file (files analysis) empty_index)))
      as [es |] eqn:Hempty; [| reflexivity].
    destruct (Hall _ _ Hempty) as [Hne _]. now contradiction Hne.
Qed.

End IndexMore.

(* ================================================================== *)
(** * More about context extraction *)
(* ================================================================== *)

Module ContextMore.
Import PyStr PyList PyDict CodeParser QAAgent Notions MoreNotions PyFacts MoreFacts.
Import IndexFacts.

(** X11: the intent of an extracted context is one of the eight tags. A
    question that contains [doc] always gets [documentation]; without
    [doc] and [readme], a question that names a function keyword gets
    [function], and one that names no keyword at all gets [general]. *)
Theorem intent_is_a_tag (ag : Agent) (question : string) :
  let context := _extract_relevant_context ag question in
  let q := lower question in
  In (ctx_type context) intents
  /\ (contains "doc" q = true -> ctx_type context = "documentation")
  /\ (any_in ["documentation"; "docs"; "doc"] q = false ->
      contains "readme" q = false ->
      (any_in ["function"; "method"; "def "; "function named"] q = true ->
       ctx_type context = "function")
      /\ (any_in ["function"; "method"; "def "; "function named"] q = false ->
          any_in ["class"; "object"; "inheritance"] q = false ->
          any_in ["file"; "module"; "script"] q = false ->
          any_in ["structure"; "architecture"; "organization"; "folder";
                  "directory"] q = false ->
          any_in ["language"; "technology"; "framework"] q = false ->
          ctx_type context = "general")).
Proof.
  intros context q. subst context q. unfold _extract_relevant_context.
  set (q := lower question).
  assert (Hdoc : contains "doc" q = true ->
                 any_in ["documentation"; "docs"; "doc"] q = true).
  { intros H. unfold any_in. simpl. rewrite H.
    now rewrite !orb_true_r. }
  destruct (any_in ["function"; "method"; "def "; "function named"] q);
  destruct (any_in ["class"; "object"; "inheritance"] q);
  destruct (any_in ["file"; "module"; "script"] q);
  destruct (any_in ["structure"; "architecture"; "organization"; "folder";
                    "directory"] q);
  destruct (any_in ["language"; "technology"; "framework"] q);
  destruct (contains "readme" q);
  destruct (any_in ["documentation"; "docs"; "doc"] q);
  cbv zeta beta iota;
  match goal with
  | |- context [if negb ?c then _ else _] => destruct c
  end;
  cbn [negb ctx_type String.eqb Ascii.eqb Bool.eqb];
  (split; [unfold intents; simpl; tauto |]);
  (split; [intros H; try reflexivity; specialize (Hdoc H); discriminate |]);
  intros H1 H2; try discriminate; split; intros; try discriminate;
  reflexivity.
Qed.

End ContextMore.

(* ================================================================== *)
(** * Where the context comes from *)
(* ================================================================== *)

Module ProvenanceMore.
Import PyStr PyList PyDict CodeParser QAAgent Notions MoreNotions PyFacts MoreFacts.
Import IndexFacts.

Lemma every_entry_append {V} (P : V -> Prop) (k : string) (e : V)
  (d : dict (list V)) :
  P e -> every_entry P d -> every_entry P (append_under k e d).
Proof.
  intros He Hd k' es e' Hin He'. unfold append_under in Hin.
  destruct (get k d) as [l |] eqn:Hg.
  - apply set_In in Hin. destruct Hin as [[= -> ->] | Hin].
    + apply in_app_or in He'. destruct He' as [He' | [<- | []]];
        [| assumption].
      apply get_In in Hg. exact (Hd _ _ _ Hg He').
    + exact (Hd _ _ _ Hin He').
  - apply set_In in Hin. destruct Hin as [[= -> ->] | Hin].
    + destruct He' as [<- | []]. assumption.
    + exact (Hd _ _ _ Hin He').
Qed.

Lemma incl_filter_values {V} (p : string * V -> bool) (d : dict V) :
  incl (map snd (filter p d)) (values d).
Proof.
  intros v Hv. apply in_map_iff in Hv. destruct Hv as (kv & <- & Hkv).
  apply filter_In in Hkv. unfold values. apply in_map. tauto.
Qed.

Lemma incl_flat_filter {V} (p : string * list V -> bool) (d : dict (list V)) :
  incl (flat_map snd (filter p d)) (concat (values d)).
Proof.
  intros e He. apply in_flat_map in He. destruct He as (kv & Hkv & He).
  apply filter_In in Hkv. apply in_concat. exists (snd kv).
  split; [| exact He]. unfold values. apply in_map. tauto.
Qed.

Lemma incl_firstn_concat {A} (n m : nat) (l : list (list A)) :
  incl (firstn n (concat (firstn m l))) (concat l).
Proof.
  intros x Hx. apply incl_firstn in Hx. apply in_concat in Hx.
  destruct Hx as (es & Hes & Hx). apply incl_firstn in Hes.
  apply in_concat. eauto.
Qed.

(** The entities of an extracted context are taken from the index. *)
Lemma context_from_index (ag : Agent) (question : string) :
  let context := _extract_relevant_context ag question in
  let idx := search_index ag in
  incl (ctx_files context) (values (idx_files idx))
  /\ incl (ctx_functions context) (concat (values (idx_functions idx)))
  /\ incl (ctx_classes context) (concat (values (idx_classes idx)))
  /\ incl (ctx_components context) (values (idx_components idx)).
Proof.
  intros context idx. subst context idx. unfold _extract_relevant_context.
  match goal with
  | |- context [if any_in ["function"; "method"; "def "; "function named"] _
                then "function" else ?rest] =>
      generalize (if any_in ["function"; "method"; "def "; "function named"]
                       (lower question)
                  then "function" else rest)
  end.
  intros t.
  destruct (contains "readme" (lower question));
  destruct (any_in ["documentation"; "docs"; "doc"] (lower question));
  cbv zeta beta iota;
  repeat match goal with
         | |- context [if ?c then _ else _] => destruct c
         end;
  cbn [ctx_files ctx_functions ctx_classes ctx_components];
  repeat split;
  repeat apply incl_app;
  auto using incl_filter_values, incl_firstn, incl_flat_filter,
             incl_firstn_concat.
Qed.

Section Build.
Variable all : list FileRecord.

Lemma index_functions_every (fi : FileRecord) (funcs : list FunctionRecord)
  (d : dict (list FunctionEntry)) :
  In fi all -> incl funcs (functions fi) ->
  every_entry (function_of_all all) d ->
  every_entry (function_of_all all) (fold_left (index_function fi) funcs d).
Proof.
  intros Hfi. revert d. induction funcs as [| f funcs IH]; intros d Hincl Hd;
    simpl; [assumption |].
  apply IH; [intros x Hx; apply Hincl; now right |].
  unfold index_function. destruct (PyStr.truthy (lower (fn_name f)));
    [| assumption].
  apply every_entry_append; [| assumption].
  red. simpl. repeat split; try assumption. apply Hincl. now left.
Qed.

Lemma index_classes_every (fi : FileRecord) (cs : list ClassRecord)
  (d : dict (list ClassEntry)) :
  In fi all -> incl cs (classes fi) ->
  every_entry (class_of_all all) d ->
  every_entry (class_of_all all) (fold_left (index_class fi) cs d).
Proof.
  intros Hfi. revert d. induction cs as [| c cs IH]; intros d Hincl Hd;
    simpl; [assumption |].
  apply IH; [intros x Hx; apply Hincl; now right |].
  unfold index_class. destruct (PyStr.truthy (lower (cls_name c)));
    [| assumption].
  apply every_entry_append; [| assumption].
  red. simpl. repeat split; try assumption. apply Hincl. now left.
Qed.

Lemma index_files_every (fs : list FileRecord) (idx : SearchIndex) :
  incl fs all ->
  incl (values (idx_files idx)) all ->
  every_entry (function_of_all all) (idx_functions idx) ->
  every_entry (class_of_all all) (idx_classes idx) ->
  let idx' := fold_left index_file fs idx in
  incl (values (idx_files idx')) all
  /\ every_entry (function_of_all all) (idx_functions idx')
  /\ every_entry (class_of_all all) (idx_classes idx')
  /\ idx_components idx' = idx_components idx.
Proof.
  revert idx. induction fs as [| fi fs IH]; intros idx Hfs Hf Hfn Hcl; simpl.
  - auto.
  - assert (Hfi : In fi all) by (apply Hfs; now left).
    destruct (IH (index_file idx fi)) as (H1 & H2 & H3 & H4).
    + intros x Hx. apply Hfs. now right.
    + simpl. intros v Hv. unfold values in Hv. apply in_map_iff in Hv.
      destruct Hv as ([k v'] & <- & Hin). apply set_In in Hin.
      destruct Hin as [[= _ ->] | Hin]; [exact Hfi |].
      apply Hf. unfold values. now apply (in_map snd) in Hin.
    + simpl. apply index_functions_every; auto. apply incl_refl.
    + simpl. apply index_classes_every; auto. apply incl_refl.
    + auto.
Qed.

End Build.

Lemma index_components_values (cs : list Component) (idx : SearchIndex) :
  let idx' := fold_left index_component cs idx in
  idx_files idx' = idx_files idx
  /\ idx_functions idx' = idx_functions idx
  /\ idx_classes idx' = idx_classes idx
  /\ incl (values (idx_components idx')) (cs +++ values (idx_components idx)).
Proof.
  revert idx. induction cs as [| c cs IH]; intros idx; simpl.
  - repeat split. apply incl_refl.
  - destruct (IH (index_component idx c)) as (-> & -> & -> & H).
    repeat split. simpl in H. intros v Hv. apply H in Hv.
    apply in_app_or in Hv. destruct Hv as [Hv | Hv].
    + right. apply in_or_app. now left.
    + unfold values in Hv. apply in_map_iff in Hv.
      destruct Hv as ([k v'] & <- & Hin). apply set_In in Hin.
      destruct Hin as [[= _ ->] | Hin]; [now left |].
      right. apply in_or_app. right. unfold values.
      now apply (in_map snd) in Hin.
Qed.

(** X12: whatever the question, the context extracted by an agent that
    loaded an analysis and a summary holds nothing else: its files are
    records of the analysis, its function and class entries name the path
    of a record of the analysis and a function or class of that record, and
    its components are components of the summary. *)
Theorem context_holds_loaded_data_only (ag0 : Agent)
  (analysis : RepositoryAnalysis) (summary : Summary) (question : string) :
  let ag := load_repository_context ag0 (Some analysis) summary in
  let context := _extract_relevant_context ag question in
  (forall fi, In fi (ctx_files context) -> In fi (files analysis))
  /\ (forall e, In e (ctx_functions context) ->
        fe_file e = path (fe_file_info e)
        /\ In (fe_file_info e) (files analysis)
        /\ In (fe_function e) (functions (fe_file_info e)))
  /\ (forall e, In e (ctx_classes context) ->
        ce_file e = path (ce_file_info e)
        /\ In (ce_file_info e) (files analysis)
        /\ In (ce_class e) (classes (ce_file_info e)))
  /\ (forall c, In c (ctx_components context) ->
        In c (key_components summary)).
Proof.
  intros ag context.
  destruct (context_from_index ag question) as (Hf & Hfn & Hcl & Hco).
  fold context in Hf, Hfn, Hcl, Hco.
  assert (Hidx : search_index ag
                 = fold_left index_component (key_components summary)
                     (fold_left index_file (files analysis) empty_index))
    by reflexivity.
  rewrite Hidx in Hf, Hfn, Hcl, Hco.
  destruct (index_components_values (key_components summary)
              (fold_left index_file (files analysis) empty_index))
    as (E1 & E2 & E3 & Hc).
  rewrite E1 in Hf. rewrite E2 in Hfn. rewrite E3 in Hcl.
  destruct (@index_files_every (files analysis) (files analysis) empty_index)
    as (H1 & H2 & H3 & H4);
    try (intros ? ? ? []); try apply incl_refl; try (intros ? []).
  split; [| split; [| split]].
  - intros fi Hfi. apply H1. now apply Hf.
  - intros e He. apply Hfn in He. apply in_concat in He.
    destruct He as (es & Hes & He). unfold values in Hes.
    apply in_map_iff in Hes. destruct Hes as ([k es'] & <- & Hin).
    exact (H2 _ _ _ Hin He).
  - intros e He. apply Hcl in He. apply in_concat in He.
    destruct He as (es & Hes & He). unfold values in Hes.
    apply in_map_iff in Hes. destruct Hes as ([k es'] & <- & Hin).
    exact (H3 _ _ _ Hin He).
  - intros c Hcin. apply Hco, Hc in Hcin. rewrite H4 in Hcin.
    simpl in Hcin. now rewrite app_nil_r in Hcin.
Qed.

End ProvenanceMore.

(* ================================================================== *)
(** * More about rendering and answering *)
(* ================================================================== *)

Module RenderingMore.
Import PyStr PyList PyDict CodeParser QAAgent Notions MoreNotions PyFacts MoreFacts.
Import ParserMore.

Lemma description_part_le (d : option string) :
  List.length (description_part d) <= 1.
Proof.
  unfold description_part. destruct d as [s |]; simpl; [| lia].
  destruct (PyStr.truthy s); simpl; lia.
Qed.


Section Rendering.
Variable json_dumps : dict lang_stats -> string.

(** X13: the rendered context is a bounded list of parts around the
    complete file listing: at most ten files, ten functions, ten classes,
    five components, five file summaries and the last three exchanges are
    rendered, so with [n] records in the loaded analysis the context has at
    most [n + 104] parts. *)
Theorem context_parts_bounded (ag : Agent) (context : QuestionContext)
  (question : string) :
  List.length (files_part context question) <= 22
  /\ List.length (functions_part context) <= 22
  /\ List.length (classes_part context) <= 32
  /\ List.length (components_part context) <= 7
  /\ List.length (file_summaries_part (context_cache ag) context) <= 7
  /\ List.length (history_part (conversation_history ag)) <= 8
  /\ List.length (file_structure_part (context_cache ag) context)
     <= List.length (cache_files (context_cache ag)) + 3
  /\ List.length (context_parts json_dumps ag context question)
     <= List.length (cache_files (context_cache ag)) + 104.
Proof.
  assert (Hfiles : List.length (files_part context question) <= 22).
  { unfold files_part. destruct (PyList.truthy (ctx_files context));
      [| simpl; lia].
    rewrite !length_app. cbn [List.length].
    pose proof (@flat_map_length_le _ _ (relevant_file_part question) 2
                  (firstn 10 (ctx_files context))) as H.
    pose proof (firstn_le 10 (ctx_files context)).
    assert (forall x, List.length (relevant_file_part question x) <= 2).
    { intros x. unfold relevant_file_part, file_content_part. simpl.
      repeat match goal with
             | |- context [if ?c then _ else _] => destruct c
             end; simpl; lia. }
    specialize (H H1). lia. }
  assert (Hfuncs : List.length (functions_part context) <= 22).
  { unfold functions_part. destruct (PyList.truthy (ctx_functions context));
      [| simpl; lia].
    rewrite !length_app. cbn [List.length].
    pose proof (@flat_map_length_le _ _ function_part 2
                  (firstn 10 (ctx_functions context))) as H.
    pose proof (firstn_le 10 (ctx_functions context)).
    assert (forall x, List.length (function_part x) <= 2).
    { intros x. unfold function_part. simpl.
      pose proof (description_part_le (fn_docstring (fe_function x))). lia. }
    specialize (H H1). lia. }
  assert (Hclasses : List.length (classes_part context) <= 32).
  { unfold classes_part. destruct (PyList.truthy (ctx_classes context));
      [| simpl; lia].
    rewrite !length_app. cbn [List.length].
    pose proof (@flat_map_length_le _ _ class_part 3
                  (firstn 10 (ctx_classes context))) as H.
    pose proof (firstn_le 10 (ctx_classes context)).
    assert (forall x, List.length (class_part x) <= 3).
    { intros x. unfold class_part. cbn [List.length]. rewrite length_app.
      pose proof (description_part_le (cls_docstring (ce_class x))).
      destruct (PyList.truthy (cls_methods (ce_class x))); simpl; lia. }
    specialize (H H1). lia. }
  assert (Hcomps : List.length (components_part context) <= 7).
  { unfold components_part. destruct (PyList.truthy (ctx_components context));
      [| simpl; lia].
    rewrite !length_app, length_map. cbn [List.length].
    pose proof (firstn_le 5 (ctx_components context)). lia. }
  assert (Hsums : List.length (file_summaries_part (context_cache ag) context)
                  <= 7).
  { unfold file_summaries_part.
    destruct (mem (ctx_type context) ["general"; "file"]
              && negb (PyList.truthy (ctx_files context))); [| simpl; lia].
    destruct (PyList.truthy (firstn 5 (cc_file_summaries (context_cache ag))));
      [| simpl; lia].
    rewrite !length_app, length_map. cbn [List.length].
    pose proof (firstn_le 5 (cc_file_summaries (context_cache ag))). lia. }
  assert (Hhist : List.length (history_part (conversation_history ag)) <= 8).
  { unfold history_part.
    destruct (PyList.truthy (conversation_history ag)); [| simpl; lia].
    rewrite !length_app. cbn [List.length].
    match goal with
    | |- context [flat_map ?f ?l] =>
        pose proof (@flat_map_length_le _ _ f 2 l) as H;
        assert (List.length l <= 3)
          by (rewrite last_n_length; lia)
    end.
    assert (H' := H (fun x => Nat.le_refl 2)). lia. }
  assert (Hstruct : List.length (file_structure_part (context_cache ag) context)
                    <= List.length (cache_files (context_cache ag)) + 3).
  { unfold file_structure_part, cache_files.
    destruct (mem (ctx_type context) ["structure"; "file"]); [| simpl; lia].
    destruct (cc_analysis (context_cache ag)) as [a |]; [| simpl; lia].
    destruct (PyList.truthy (files a)); [| simpl; lia].
    rewrite !length_app, length_map. cbn [List.length]. lia. }
  repeat (split; [assumption |]).
  unfold context_parts. rewrite !length_app.
  assert (List.length (overview_part (context_cache ag)) <= 1).
  { unfold overview_part. destruct (PyStr.truthy _); simpl; lia. }
  assert (List.length (structure_analysis_part (context_cache ag) context) <= 1).
  { unfold structure_analysis_part.
    destruct (mem _ _); simpl; [| lia]. destruct (PyStr.truthy _); simpl; lia. }
  assert (List.length
            (language_breakdown_part json_dumps (context_cache ag) context) <= 1).
  { unfold language_breakdown_part.
    destruct (mem _ _); simpl; [| lia]. destruct (PyList.truthy _); simpl; lia. }
  lia.
Qed.

(** X15: an answer is never empty: a text generator that returns
    nothing or the empty text is replaced by the fixed fallback sentence,
    and the error branch answers with the apology. *)
Theorem answer_never_empty (llm : llm_client) (ag : Agent) (question : string) :
  fst (fst (answer_question json_dumps llm ag question)) <> ""
  /\ (forall context_text a,
        _generate_answer llm question context_text = Returned a -> a <> "")
  /\ (forall context_text,
        (forall messages, llm messages = Returned None
                          \/ llm messages = Returned (Some "")) ->
        _generate_answer llm question context_text = Returned fallback_answer)
  /\ (forall e,
        (forall messages, llm messages = Raised e) ->
        fst (answer_question json_dumps llm ag question) = (apology e, None)).
Proof.
  assert (Hgen : forall context_text a,
             _generate_answer llm question context_text = Returned a ->
             a <> "").
  { intros context_text a. unfold _generate_answer.
    destruct (llm _) as [[response |] | e]; try discriminate.
    - destruct (PyStr.truthy response) eqn:Ht; intros [= <-].
      + now apply truthy_true.
      + discriminate.
    - intros [= <-]. discriminate. }
  split; [| split; [exact Hgen | split]].
  - unfold answer_question.
    destruct (_generate_answer llm question _) as [a | e] eqn:Hg; simpl.
    + exact (Hgen _ _ Hg).
    + discriminate.
  - intros context_text Hllm. unfold _generate_answer.
    match goal with |- context [llm ?m] => destruct (Hllm m) as [-> | ->] end;
      reflexivity.
  - intros e Hllm. unfold answer_question, _generate_answer.
    match goal with |- context [llm ?m] => rewrite (Hllm m) end.
    reflexivity.
Qed.

(** X16: [answer_question] touches nothing but the history: the cache
    and the index of the agent are the same after the call, whether it
    completes or fails, and the history is either unchanged or ends with
    the exchange just made. *)
Theorem answer_question_frame (llm : llm_client) (ag : Agent)
  (question : string) :
  let r := answer_question json_dumps llm ag question in
  context_cache (snd r) = context_cache ag
  /\ search_index (snd r) = search_index ag
  /\ (conversation_history (snd r) = conversation_history ag
      \/ exists a context,
           fst r = (a, Some context)
           /\ context = _extract_relevant_context ag question
           /\ last (conversation_history (snd r))
                {| question := ""; answer := ""; context_used := context |}
              = {| question := question; answer := a;
                   context_used := context |}).
Proof.
  intros r. subst r. unfold answer_question.
  destruct (_generate_answer llm question _) as [a | e]; simpl.
  - split; [reflexivity |]. split; [reflexivity |]. right.
    exists a, (_extract_relevant_context ag question).
    split; [reflexivity |]. split; [reflexivity |].
    match goal with |- context [if ?c then _ else _] => destruct c end.
    + unfold last_n. rewrite length_app. simpl.
      replace (List.length (conversation_history ag) + 1 - 10)
        with (List.length (conversation_history ag) - 9) by lia.
      rewrite skipn_app.
      replace (List.length (conversation_history ag) - 9
               - List.length (conversation_history ag)) with 0 by lia.
      simpl. apply last_last.
    + apply last_last.
  - auto.
Qed.

End Rendering.

End RenderingMore.

(* ================================================================== *)
(** * Suggested questions *)
(* ================================================================== *)

Module SuggestMore.
Import PyStr PyList PyDict CodeParser QAAgent  Notions MoreNotions MoreFacts.
Import PyFacts.

(** X17: [suggest_questions] returns between three and ten questions.
    Before any repository is loaded they are the three default questions;
    afterwards the first three are the general questions, and every other
    one is a fixed technology or architecture question or a template filled
    with a key of the index: a function name, a class name, or one of the
    first three file paths, which then contains [main], [app], [index] or
    [api]. *)
Theorem suggestions_bounded_and_indexed (ag : Agent) :
  3 <= List.length (suggest_questions ag) <= 10
  /\ (cc_summary (context_cache ag) = None ->
      suggest_questions ag = default_questions)
  /\ (cc_summary (context_cache ag) <> None ->
      firstn 3 (suggest_questions ag) = general_questions
      /\ forall s, In s (suggest_questions ag) ->
           In s general_questions
           \/ In s technology_questions
           \/ In s architecture_questions
           \/ (exists k, In k (keys (idx_functions (search_index ag)))
                         /\ s = function_question k)
           \/ (exists k, In k (keys (idx_classes (search_index ag)))
                         /\ s = class_question k)
           \/ (exists k, In k (firstn 3 (keys (idx_files (search_index ag))))
                         /\ any_in ["main"; "app"; "index"; "api"] (lower k)
                            = true
                         /\ s = file_question k)).
Proof.
  unfold suggest_questions, cache_is_empty.
  destruct (cc_summary (context_cache ag)) as [sm |] eqn:Hs.
  2:{ split; [simpl; lia |]. split; [reflexivity |]. intros H.
      now contradiction H. }
  cbv zeta.
  set (fq := if PyList.truthy (idx_functions (search_index ag))
             then general_questions
                  +++ map function_question
                        (firstn 3 (keys (idx_functions (search_index ag))))
             else general_questions).
  assert (Hfq : exists r1, fq = general_questions +++ r1
                /\ forall s, In s r1 ->
                     exists k, In k (keys (idx_functions (search_index ag)))
                               /\ s = function_question k).
  { unfold fq. destruct (PyList.truthy _).
    - eexists. split; [reflexivity |]. intros s Hin.
      apply in_map_iff in Hin. destruct Hin as (k & <- & Hk).
      exists k. split; [now apply incl_firstn in Hk | reflexivity].
    - exists []. split; [now rewrite app_nil_r | intros ? []]. }
  destruct Hfq as (r1 & -> & H1).
  set (cq := if PyList.truthy (idx_classes (search_index ag))
             then (general_questions +++ r1)
                  +++ map class_question
                        (firstn 2 (keys (idx_classes (search_index ag))))
             else general_questions +++ r1).
  assert (Hcq : exists r2, cq = general_questions +++ r1 +++ r2
                /\ forall s, In s r2 ->
                     exists k, In k (keys (idx_classes (search_index ag)))
                               /\ s = class_question k).
  { unfold cq. destruct (PyList.truthy _).
    - eexists. split; [now rewrite <- app_assoc |]. intros s Hin.
      apply in_map_iff in Hin. destruct Hin as (k & <- & Hk).
      exists k. split; [now apply incl_firstn in Hk | reflexivity].
    - exists []. split; [now rewrite app_nil_r | intros ? []]. }
  destruct Hcq as (r2 & -> & H2).
  set (r3 := map file_question
               (filter (fun file_path =>
                          any_in ["main"; "app"; "index"; "api"]
                                 (lower file_path))
                       (firstn 3 (keys (idx_files (search_index ag)))))).
  assert (H3 : forall s, In s r3 ->
             exists k, In k (firstn 3 (keys (idx_files (search_index ag))))
                       /\ any_in ["main"; "app"; "index"; "api"] (lower k) = true
                       /\ s = file_question k).
  { intros s Hin. unfold r3 in Hin. apply in_map_iff in Hin.
    destruct Hin as (k & <- & Hk). apply filter_In in Hk.
    exists k. tauto. }
  set (all :=
         if 2 <? List.length (cc_key_components (context_cache ag))
         then (if 1 <? List.length (cc_language_breakdown (context_cache ag))
               then ((general_questions +++ r1 +++ r2) +++ r3)
                    +++ technology_questions
               else (general_questions +++ r1 +++ r2) +++ r3)
              +++ architecture_questions
         else if 1 <? List.length (cc_language_breakdown (context_cache ag))
              then ((general_questions +++ r1 +++ r2) +++ r3)
                   +++ technology_questions
              else (general_questions +++ r1 +++ r2) +++ r3).
  assert (Hall : exists r4 r5,
             all = general_questions +++ r1 +++ r2 +++ r3 +++ r4 +++ r5
             /\ incl r4 technology_questions
             /\ incl r5 architecture_questions).
  { unfold all. destruct (2 <? _); destruct (1 <? _).
    - exists technology_questions, architecture_questions.
      rewrite <- !app_assoc. auto using incl_refl.
    - exists [], architecture_questions.
      rewrite <- !app_assoc. split; [reflexivity |].
      split; [intros ? [] | apply incl_refl].
    - exists technology_questions, [].
      rewrite <- !app_assoc, app_nil_r. split; [reflexivity |].
      split; [apply incl_refl | intros ? []].
    - exists [], []. rewrite <- !app_assoc. simpl. rewrite app_nil_r.
      split; [reflexivity |]. split; intros ? []. }
  destruct Hall as (r4 & r5 & -> & H4 & H5).
  split.
  { rewrite length_firstn, !length_app.
    change (List.length general_questions) with 3. lia. }
  split; [discriminate |]. intros _. split; [reflexivity |].
  intros s Hin. apply incl_firstn in Hin.
  repeat (apply in_app_or in Hin; destruct Hin as [Hin | Hin]); auto 10.
Qed.

End SuggestMore.

(* ================================================================== *)
(** * More about the importance ranker *)
(* ================================================================== *)

Module RankerMore.
Import PyStr PyDict CodeParser RepositorySummarizer Notions MoreNotions MoreFacts.
Import RankerFacts.

Local Open Scope Z_scope.

Section Sorting.
Context {A : Type} (key : A -> Z).

Lemma insert_desc_perm (x : A) (l : list A) :
  Permutation (insert_desc key x l) (x :: l).
Proof.
  induction l as [| y l IH]; simpl; [apply Permutation_refl |].
  destruct (key y >? key x); [| apply Permutation_refl].
  eapply Permutation_trans; [apply perm_skip, IH | apply perm_swap].
Qed.

Lemma sort_desc_perm (l : list A) : Permutation (sort_desc key l) l.
Proof.
  induction l as [| x l IH]; simpl; [apply perm_nil |].
  eapply Permutation_trans; [apply insert_desc_perm | now apply perm_skip].
Qed.

(** Inserting skips only elements with a strictly greater key. *)
Lemma insert_desc_filter (s : Z) (x : A) (l : list A) :
  filter (fun y => key y =? s) (insert_desc key x l)
  = filter (fun y => key y =? s) (x :: l).
Proof.
  induction l as [| y l IH]; [reflexivity |].
  simpl insert_desc. destruct (key y >? key x) eqn:Hc; [| reflexivity].
  simpl filter in *. rewrite IH.
  destruct (key x =? s) eqn:Hx; [| reflexivity].
  destruct (key y =? s) eqn:Hy; [| reflexivity].
  apply Z.eqb_eq in Hx, Hy. apply Z.gtb_lt in Hc. lia.
Qed.

Lemma sort_desc_filter (s : Z) (l : list A) :
  filter (fun y => key y =? s) (sort_desc key l)
  = filter (fun y => key y =? s) l.
Proof.
  induction l as [| x l IH]; [reflexivity |].
  simpl sort_desc. rewrite insert_desc_filter. simpl. now rewrite IH.
Qed.

End Sorting.

Lemma ranked_pairs (files : list FileRecord) :
  get_important_files files = map fst (sort_desc snd (map scored files))
  /\ forall pr, In pr (sort_desc snd (map scored files)) ->
       snd pr = calculate_importance_score (fst pr).
Proof.
  split; [reflexivity |]. intros pr Hin. apply sort_desc_In in Hin.
  apply in_map_iff in Hin. destruct Hin as (fi & <- & _). reflexivity.
Qed.

(** X18: the ranking is a permutation of the files it is given, no file
    is dropped or repeated, and lists them by descending score. *)
Theorem ranking_is_sorted_permutation (files : list FileRecord) :
  Permutation (get_important_files files) files
  /\ List.length (get_important_files files) = List.length files
  /\ StronglySorted
       (fun a b => calculate_importance_score a >= calculate_importance_score b)
       (get_important_files files).
Proof.
  destruct (ranked_pairs files) as [-> Hsnd].
  assert (Hperm : Permutation (map fst (sort_desc snd (map scored files)))
                    files).
  { eapply Permutation_trans.
    - apply Permutation_map. apply sort_desc_perm.
    - rewrite map_map. simpl. rewrite map_id. apply Permutation_refl. }
  split; [exact Hperm |]. split; [now apply Permutation_length |].
  pose proof (sort_desc_sorted snd (map scored files)) as Hs.
  revert Hsnd. clear Hperm.
  generalize dependent (sort_desc snd (map scored files)).
  intros l Hs. induction Hs as [| pr l Hs IH Hall]; intros Hsnd; simpl;
    [constructor |].
  constructor.
  - apply IH. intros p Hp. apply Hsnd. now right.
  - apply Forall_forall. intros b Hb. apply in_map_iff in Hb.
    destruct Hb as (p & <- & Hp). rewrite Forall_forall in Hall.
    specialize (Hall p Hp). unfold ge_key in Hall.
    rewrite <- (Hsnd pr (or_introl eq_refl)), <- (Hsnd p (or_intror Hp)).
    exact Hall.
Qed.

(** X19: the ranking is stable: the files of any one score appear in the
    ranking in the order in which they were given. *)
Theorem ranking_is_stable (files : list FileRecord) (s : Z) :
  filter (fun fi => calculate_importance_score fi =? s)
         (get_important_files files)
  = filter (fun fi => calculate_importance_score fi =? s) files.
Proof.
  destruct (ranked_pairs files) as [-> Hsnd].
  assert (Hf : forall l : list (FileRecord * Z),
             (forall pr, In pr l ->
                snd pr = calculate_importance_score (fst pr)) ->
             filter (fun fi => calculate_importance_score fi =? s) (map fst l)
             = map fst (filter (fun pr => snd pr =? s) l)).
  { induction l as [| pr l IH]; intros H; [reflexivity |].
    simpl. rewrite <- (H pr (or_introl eq_refl)).
    rewrite IH by (intros p Hp; apply H; now right).
    destruct (snd pr =? s); reflexivity. }
  rewrite (Hf _ Hsnd), sort_desc_filter.
  rewrite <- Hf.
  - now rewrite map_map, map_id.
  - intros pr Hin. apply in_map_iff in Hin. destruct Hin as (fi & <- & _).
    reflexivity.
Qed.

(** The score after one bonus lies between the score before and the
    score before plus the bonus. *)
Lemma bonus_bounds (c : bool) (score k lo hi : Z) :
  0 <= k -> lo <= score <= hi ->
  lo <= (if c then score + k else score) <= hi + k.
Proof. destruct c; lia. Qed.

(** X20: the importance score of any file record lies between 0 and 265:
    the penalty of 20 for more than 2000 lines only falls on files that
    earned the full 20 points for their length. *)
Theorem importance_score_bounds (file_info : FileRecord) :
  0 <= calculate_importance_score file_info <= 265.
Proof.
  unfold calculate_importance_score.
  pose proof (Nat2Z.is_nonneg (lines file_info)) as Hn.
  pose proof (Nat2Z.is_nonneg (List.length (functions file_info))) as Hfc.
  pose proof (Nat2Z.is_nonneg (List.length (classes file_info))) as Hcc.
  revert Hn Hfc Hcc.
  generalize (Z.of_nat (lines file_info))
             (Z.of_nat (List.length (functions file_info)))
             (Z.of_nat (List.length (classes file_info)))
             (lower (CodeParser.path file_info)).
  intros n fc cc path Hn Hfc Hcc.
  assert (Hd0 : 0 <= n / 50) by (apply Z.div_pos; lia).
  assert (Hd : 2000 < n -> 20 <= n / 50).
  { intros H. apply Z.div_le_lower_bound; lia. }
  generalize dependent (n / 50). intros d Hd0 Hd.
  cbv zeta.
  set (s1 := if any_in ["main"; "index"; "app"; "server"; "api"; "__init__"] path
             then 0 + 50 else 0).
  assert (B1 : 0 <= s1 <= 50) by (apply (@bonus_bounds _ 0 50 0 0); lia).
  generalize dependent s1. intros s1 B1.
  set (s2 := if any_in ["readme"; "documentation"; "doc"] path
             then s1 + 40 else s1).
  assert (B2 : 0 <= s2 <= 90) by (apply (@bonus_bounds _ s1 40 0 50); lia).
  generalize dependent s2. intros s2 B2. clear s1 B1.
  set (s3 := if any_in ["config"; "settings"; "setup"] path
             then s2 + 30 else s2).
  assert (B3 : 0 <= s3 <= 120) by (apply (@bonus_bounds _ s2 30 0 90); lia).
  generalize dependent s3. intros s3 B3. clear s2 B2.
  set (s4 := if existsb (endswith path)
                  ["requirements.txt"; "package.json"; "pom.xml"; "cargo.toml"]
             then s3 + 35 else s3).
  assert (B4 : 0 <= s4 <= 155) by (apply (@bonus_bounds _ s3 35 0 120); lia).
  generalize dependent s4. intros s4 B4. clear s3 B3.
  set (s5 := if language_in (language file_info)
                  ["python"; "javascript"; "typescript"; "java"; "cpp"]
             then s4 + 20
             else if language_in (language file_info)
                       ["markdown"; "yaml"; "json"]
                  then s4 + 10 else s4).
  assert (B5 : 0 <= s5 <= 175).
  { unfold s5. destruct (language_in _ _); [lia |].
    destruct (language_in _ _); lia. }
  generalize dependent s5. intros s5 B5. clear s4 B4.
  destruct (n >? 2000) eqn:H2000.
  - apply Z.gtb_lt in H2000. specialize (Hd H2000).
    replace (n >? 100) with true by (symmetry; apply Z.gtb_lt; lia).
    destruct (fc >? 0); destruct (cc >? 0);
      destruct (_ || _); lia.
  - destruct (n >? 100); destruct (fc >? 0); destruct (cc >? 0);
      destruct (_ || _); lia.
Qed.

End RankerMore.

(* ================================================================== *)
(** * Components and summaries *)
(* ================================================================== *)

Module SummaryMore.
Import PyStr PyPath PyList PyDict CodeParser RepositorySummarizer QAAgent MoreFacts.
Import SummaryGeneration Notions MoreNotions PyFacts IndexFacts RankerFacts.
Import RankerMore.

Lemma group_get (k : string) (files : list FileRecord)
  (d : dict (list FileRecord)) :
  get k (fold_left (fun directories file_info =>
                      append_under (directory_of file_info) file_info
                                   directories) files d)
  = match members k files with
    | [] => get k d
    | sel => Some (match get k d with Some l => l | None => [] end +++ sel)
    end.
Proof.
  revert d. induction files as [| f files IH]; intros d; [reflexivity |].
  simpl fold_left. rewrite IH. unfold members. simpl filter.
  destruct (String.eqb (directory_of f) k) eqn:Hk.
  - apply String.eqb_eq in Hk. rewrite Hk, append_under_same.
    destruct (filter _ files); [reflexivity |].
    now rewrite <- app_assoc.
  - apply String.eqb_neq in Hk. now rewrite append_under_other.
Qed.

Lemma set_keys {V} (k : string) (v : V) (d : dict V) :
  keys (set k v d) = if has k d then keys d else keys d +++ [k].
Proof.
  unfold has. induction d as [| [k' v'] d IH]; simpl; [reflexivity |].
  destruct (String.eqb k k') eqn:Hk; simpl.
  - apply String.eqb_eq in Hk. now subst.
  - rewrite IH. now destruct (get k d).
Qed.

Lemma get_none_keys {V} (k : string) (d : dict V) :
  get k d = None -> ~ In k (keys d).
Proof.
  induction d as [| [k' v'] d IH]; simpl; [tauto |].
  destruct (String.eqb k k') eqn:Hk; [discriminate |].
  apply String.eqb_neq in Hk. intros H [Heq | Hin]; [congruence |].
  now apply IH.
Qed.

Lemma append_under_nodup {V} (k : string) (e : V) (d : dict (list V)) :
  NoDup (keys d) -> NoDup (keys (append_under k e d)).
Proof.
  intros Hd. unfold append_under.
  destruct (get k d) as [l |] eqn:Hg; rewrite set_keys; unfold has;
    rewrite Hg; [assumption |].
  apply NoDup_app; [assumption | repeat constructor; tauto |].
  intros x Hx [<- | []]. now apply (get_none_keys _ _ Hg).
Qed.

Lemma nodup_get {V} (k : string) (v : V) (d : dict V) :
  NoDup (keys d) -> In (k, v) d -> get k d = Some v.
Proof.
  induction d as [| [k' v'] d IH]; simpl; [tauto |].
  intros Hd [[= -> ->] | Hin].
  - now rewrite String.eqb_refl.
  - inversion Hd as [| ? ? Hnot Hd']; subst.
    destruct (String.eqb k k') eqn:Hk; [| now apply IH].
    apply String.eqb_eq in Hk. subst k'. exfalso. apply Hnot.
    unfold keys. now apply (in_map fst) in Hin.
Qed.

Lemma group_nodup (files : list FileRecord) :
  NoDup (keys (group_by_directory files)).
Proof.
  unfold group_by_directory.
  assert (H : NoDup (keys (@nil (string * list FileRecord)))) by constructor.
  revert H. generalize (@nil (string * list FileRecord)).
  induction files as [| f files IH]; intros d Hd; simpl; [assumption |].
  apply IH. now apply append_under_nodup.
Qed.

Lemma group_In (k : string) (fs : list FileRecord) (files : list FileRecord) :
  In (k, fs) (group_by_directory files) -> fs = members k files.
Proof.
  intros Hin.
  apply (@nodup_get _ k fs (group_by_directory files) (group_nodup files))
    in Hin.
  unfold group_by_directory in Hin. rewrite group_get in Hin.
  destruct (members k files); [discriminate |]. now injection Hin as <-.
Qed.

Lemma nodup_filter_keys {V} (p : string * V -> bool) (d : dict V) :
  NoDup (keys d) -> NoDup (map fst (filter p d)).
Proof.
  induction d as [| kv d IH]; simpl; [constructor |].
  intros Hd. inversion Hd as [| ? ? Hnot Hd']; subst.
  destruct (p kv); simpl; [| now apply IH].
  constructor; [| now apply IH].
  intros Hin. apply Hnot. apply in_map_iff in Hin.
  destruct Hin as (kv' & Hk & Hin'). apply filter_In in Hin'.
  unfold keys. rewrite <- Hk. apply in_map. tauto.
Qed.

Section Components.
Variable list_of_set : list string -> list string.

(** X21: [identify_key_components] returns at most ten components, each
    for a directory that holds at least two of the files, with distinct
    names, by descending weight. The counts of a component are those of the
    files of its directory, its weight is the lines of these files plus
    ten times their functions plus twenty times their classes, and its key
    files are at most three of them. *)
Theorem key_components_are_directories (files : list FileRecord) :
  let cs := identify_key_components list_of_set files in
  List.length cs <= 10
  /\ NoDup (map comp_name cs)
  /\ StronglySorted
       (fun a b => (component_weight a >= component_weight b)%Z) cs
  /\ forall c, In c cs ->
       let ms := members (comp_name c) files in
       2 <= files_count c
       /\ files_count c = List.length ms
       /\ comp_total_lines c = list_sum (map lines ms)
       /\ functions_count c
          = list_sum (map (fun f => List.length (functions f)) ms)
       /\ classes_count c
          = list_sum (map (fun f => List.length (classes f)) ms)
       /\ List.length (key_files c) <= 3
       /\ incl (key_files c) (map path ms)
       /\ component_weight c
          = (Z.of_nat (list_sum (map lines ms))
             + 10 * Z.of_nat
                      (list_sum (map (fun f => List.length (functions f)) ms))
             + 20 * Z.of_nat
                      (list_sum (map (fun f => List.length (classes f)) ms)))%Z.
Proof.
  intros cs. subst cs. unfold identify_key_components.
  set (dirs := filter (fun kv : string * list FileRecord =>
                         negb (List.length (snd kv) <? 2))
                      (group_by_directory files)).
  set (mk := fun kv : string * list FileRecord =>
               make_component list_of_set (fst kv) (snd kv)).
  split; [rewrite length_firstn; lia |]. split; [| split].
  - rewrite <- firstn_map. apply nodup_firstn.
    apply (Permutation_NoDup
             (l := map comp_name (map mk dirs))).
    + apply Permutation_map, Permutation_sym, sort_desc_perm.
    + rewrite map_map. simpl. unfold dirs.
      apply nodup_filter_keys, group_nodup.
  - apply sorted_firstn. apply (sort_desc_sorted component_weight).
  - intros c Hc. apply incl_firstn in Hc.
    apply sort_desc_In in Hc. apply in_map_iff in Hc.
    destruct Hc as ([k fs] & <- & Hin). unfold dirs in Hin.
    apply filter_In in Hin. destruct Hin as [Hin Hlen].
    apply group_In in Hin. simpl in Hlen.
    apply negb_true_iff, Nat.ltb_ge in Hlen.
    unfold mk, make_component.
    cbn [comp_name files_count comp_total_lines functions_count
         classes_count key_files fst snd].
    rewrite <- Hin.
    split; [exact Hlen |]. do 4 (split; [reflexivity |]).
    split; [| split].
    + rewrite length_map, length_firstn. lia.
    + intros p Hp. apply in_map_iff in Hp. destruct Hp as (f & <- & Hf).
      apply in_map. apply incl_firstn in Hf.
      now apply sort_desc_In in Hf.
    + unfold component_weight.
      cbn [comp_total_lines functions_count classes_count]. lia.
Qed.

Lemma ranked_In (fi : FileRecord) (files : list FileRecord) :
  In fi (get_important_files files) -> In fi files.
Proof.
  destruct (ranked_pairs files) as [-> _]. intros H.
  apply in_map_iff in H. destruct H as (pr & <- & Hin).
  apply sort_desc_In in Hin. apply in_map_iff in Hin.
  destruct Hin as (f & <- & Hf). exact Hf.
Qed.

Lemma ranked_length (files : list FileRecord) :
  List.length (get_important_files files) = List.length files.
Proof.
  destruct (ranked_pairs files) as [-> _].
  rewrite length_map.
  rewrite (Permutation_length (sort_desc_perm snd (map scored files))).
  apply length_map.
Qed.

(** X22: the summary built from an analysis repeats its language
    statistics and its file counts, holds at most fifty file summaries and
    none that is not for one of the fifty best ranked records of the
    analysis, with the path, language and counts of that record; when
    summarising never raises there is one per such record, in ranking
    order. The structure analysis and the recommendations are never
    empty. *)
Theorem summary_follows_analysis (llm : summary_llm) (now : string)
  (analysis : RepositoryAnalysis) (repo_info : option (dict string)) :
  let s := generate_comprehensive_summary list_of_set llm now analysis
             repo_info in
  let best := firstn 50 (get_important_files (files analysis)) in
  language_breakdown s = languages analysis
  /\ (exists m, metadata s = Some m
                /\ md_total_files m = total_files analysis
                /\ md_analyzed_files m = analyzed_files analysis
                /\ md_repository_path m = repository_path analysis)
  /\ List.length (file_summaries s) <= 50
  /\ List.length (file_summaries s) <= List.length (files analysis)
  /\ (forall fs, In fs (file_summaries s) ->
        exists fi,
          In fi best /\ In fi (files analysis)
          /\ sum_file fs = path fi /\ sum_language fs = language fi
          /\ sum_lines fs = lines fi
          /\ sum_functions_count fs = List.length (functions fi)
          /\ sum_classes_count fs = List.length (classes fi)
          /\ summarize_file llm fi = Returned (sum_summary fs))
  /\ ((forall fi, exists t, summarize_file llm fi = Returned t) ->
      map sum_file (file_summaries s) = map path best)
  /\ structure_analysis s <> ""
  /\ recommendations s <> "".
Proof.
  intros s best. subst s. unfold generate_comprehensive_summary.
  cbn [language_breakdown metadata file_summaries structure_analysis
       recommendations].
  fold best.
  assert (Hone : forall fi, List.length (summarize_one llm fi) <= 1).
  { intros fi. unfold summarize_one. destruct (summarize_file llm fi);
      simpl; lia. }
  assert (Hlen : List.length (flat_map (summarize_one llm) best)
                 <= List.length best).
  { pose proof (@flat_map_length_le _ _ (summarize_one llm) 1
                  best Hone). lia. }
  assert (Hbest : List.length best <= 50
                  /\ List.length best <= List.length (files analysis)).
  { unfold best. rewrite length_firstn, ranked_length. lia. }
  assert (Hor : forall r d, d <> "" -> response_or r d <> "").
  { intros r d Hd. unfold response_or. destruct r as [t |]; [| assumption].
    destruct (PyStr.truthy t) eqn:Ht; [now apply truthy_true | assumption]. }
  split; [reflexivity |].
  split; [eexists; repeat split |].
  split; [lia |]. split; [lia |]. split; [| split; [| split]].
  - intros fs Hfs. apply in_flat_map in Hfs. destruct Hfs as (fi & Hfi & Hfs).
    exists fi. split; [exact Hfi |]. split.
    + apply ranked_In. unfold best in Hfi.
      now apply incl_firstn in Hfi.
    + unfold summarize_one in Hfs.
      destruct (summarize_file llm fi) as [t | e]; [| contradiction].
      destruct Hfs as [<- | []]. simpl. repeat split.
  - intros Hall. clear Hlen Hbest.
    induction best as [| fi best IH]; [reflexivity |].
    simpl. rewrite map_app, IH. unfold summarize_one.
    destruct (Hall fi) as [t ->]. reflexivity.
  - apply Hor. discriminate.
  - apply Hor. discriminate.
Qed.

End Components.

End SummaryMore.

(* ================================================================== *)
(** * Skipped files, and the directory called [_files] *)
(* ================================================================== *)

Module FailureMore.
Import PyStr PyPath PyDict CodeParser Notions MoreNotions PyFacts ParserFacts.
Import MoreFacts RepositoryFacts RepositoryMore WalkMore.

Section Run.
Variable E : engines.

Lemma analysed_and_skipped (ws : list walked_file) :
  List.length (analysed E ws) + List.length (filter skipped ws)
  = List.length ws.
Proof.
  induction ws as [| w ws IH]; [reflexivity |].
  unfold analysed in *. simpl. rewrite length_app.
  destruct (analyze_file E (wf_path w) (wf_rel w) (wf_file w)) as [fi |] eqn:H.
  - assert (Hs : skipped w = false).
    { destruct (skipped w) eqn:Hs; [| reflexivity].
      assert (Hn : analyze_file E (wf_path w) (wf_rel w) (wf_file w) = None).
      { apply analyze_file_skips. unfold skipped in Hs.
        apply orb_prop in Hs. destruct Hs as [Hs | Hs].
        - left. now apply N.ltb_lt in Hs.
        - right. now destruct (fs_read (wf_file w)). }
      congruence. }
    rewrite Hs. simpl. lia.
  - assert (Hs : skipped w = true).
    { apply analyze_file_skips in H. unfold skipped.
      destruct H as [H | H].
      - apply N.ltb_lt in H. now rewrite H.
      - rewrite H. apply orb_true_r. }
    rewrite Hs. simpl. lia.
Qed.

(** X23: in a returned analysis [total_files] is [analyzed_files] plus
    the number of surviving files that the analyser skipped, those larger
    than 1 MiB or unreadable: such a file counts as a file of the
    repository and has no record. *)
Theorem skipped_files_are_counted (repo_path : string) (tree : list fs_entry)
  (a : RepositoryAnalysis) :
  analyze_repository E repo_path tree = Some a ->
  total_files a
  = analyzed_files a + List.length (filter skipped (all_files repo_path tree))
  /\ (analyzed_files a = total_files a <->
      forall w, In w (all_files repo_path tree) -> skipped w = false).
Proof.
  intros Ha.
  destruct (analyze_repository_fields _ _ _ Ha) as (_ & Ht & _ & Hn & _).
  pose proof (analysed_and_skipped (all_files repo_path tree)) as Hsum.
  rewrite Ht, Hn. split; [lia |]. split.
  - intros Heq w Hw. destruct (skipped w) eqn:Hs; [| reflexivity].
    assert (In w (filter skipped (all_files repo_path tree)))
      by (apply filter_In; auto).
    destruct (filter skipped (all_files repo_path tree)); [contradiction |].
    simpl in Hsum. lia.
  - intros Hall.
    assert (Hnone : filter skipped (all_files repo_path tree) = []).
    { destruct (filter skipped (all_files repo_path tree)) as [| w l] eqn:Hf;
        [reflexivity |].
      assert (Hw : In w (filter skipped (all_files repo_path tree)))
        by (rewrite Hf; now left).
      apply filter_In in Hw. destruct Hw as [Hw Hs].
      rewrite (Hall w Hw) in Hs. discriminate. }
    rewrite Hnone in Hsum. simpl in Hsum. lia.
Qed.

End Run.

(** *** The directory called [_files] *)

Lemma enter_keeps_files_key (path_parts names l : list string)
  (d : dict structure_node) :
  path_parts <> [] -> get "_files" d = Some (Files l) ->
  enter path_parts names d = None
  \/ exists d', enter path_parts names d = Some d'
                /\ get "_files" d' = Some (Files l).
Proof.
  intros Hne Hg. destruct path_parts as [| part rest]; [now contradiction Hne |].
  simpl. destruct (String.eqb_spec part "_files") as [-> | Hpart].
  - rewrite Hg. destruct rest; destruct names; auto.
    right. eauto.
  - destruct (get part d) as [[sub | l'] |].
    + destruct (enter rest names sub) as [sub' |]; [| now left].
      right. eexists. split; [reflexivity |]. now rewrite get_set_ne.
    + destruct rest; destruct names; auto. right. eauto.
    + destruct (enter rest names []) as [sub' |]; [| now left].
      right. eexists. split; [reflexivity |]. now rewrite get_set_ne.
Qed.

Lemma fold_enter_none (steps : list walk_step) :
  fold_left
    (fun acc st =>
       match acc with
       | Some d => enter (ws_rel st) (map fs_name (kept_files st)) d
       | None => None
       end) steps None = None.
Proof. induction steps as [| st steps IH]; [reflexivity | exact IH]. Qed.

Lemma fold_enter_raises (steps : list walk_step) (l : list string)
  (d : dict structure_node) (bad : walk_step) :
  (forall st, In st steps -> ws_rel st <> []) ->
  In bad steps -> ws_rel bad = ["_files"] -> kept_files bad <> [] ->
  get "_files" d = Some (Files l) ->
  fold_left
    (fun acc st =>
       match acc with
       | Some d => enter (ws_rel st) (map fs_name (kept_files st)) d
       | None => None
       end) steps (Some d) = None.
Proof.
  intros Hne Hbad Hrel Hkept. revert d.
  induction steps as [| st steps IH]; intros d Hg; [contradiction |].
  simpl. destruct Hbad as [-> | Hbad].
  - rewrite Hrel. simpl. rewrite Hg.
    destruct (kept_files bad); [now contradiction Hkept |].
    simpl. apply fold_enter_none.
  - destruct (@enter_keeps_files_key (ws_rel st)
                (map fs_name (kept_files st)) l d)
      as [-> | (d' & -> & Hg')];
      [apply Hne; now left | exact Hg | apply fold_enter_none |].
    apply IH; [intros st' Hst'; apply Hne; now right | exact Hbad | exact Hg'].
Qed.

Lemma walk_entry_rel_nonempty (e : fs_entry) :
  forall top rel st, In st (walk_entry top rel e) -> ws_rel st <> [].
Proof.
  induction e as [f | d children IH] using fs_entry_induction;
    intros top rel st Hst; simpl in Hst; [contradiction |].
  destruct (should_ignore_path (os_path_join top d)); [contradiction |].
  destruct Hst as [<- | Hst].
  - simpl. now destruct rel.
  - apply in_flat_map in Hst. destruct Hst as (c & Hc & Hst).
    rewrite Forall_forall in IH. exact (IH c Hc _ _ _ Hst).
Qed.

Section Raise.
Variable E : engines.

(** X24: a repository with a file at its root and, next to it, a
    directory called [_files] that holds a file, none of them ignorable,
    makes the second walk raise: [analyze_repository] returns the empty
    result, whatever else the tree holds. *)
Theorem files_directory_loses_analysis (repo_path : string)
  (tree children : list fs_entry) (f g : fs_file) :
  In (FsFile f) tree ->
  should_ignore_path (os_path_join repo_path (fs_name f)) = false ->
  In (FsDir "_files" children) tree ->
  should_ignore_path (os_path_join repo_path "_files") = false ->
  In (FsFile g) children ->
  should_ignore_path
    (os_path_join (os_path_join repo_path "_files") (fs_name g)) = false ->
  analyze_repository E repo_path tree = None.
Proof.
  intros Hf Hfk Hd Hdk Hg Hgk.
  assert (Hgen : generate_directory_structure repo_path tree = None).
  { unfold generate_directory_structure, walk. simpl fold_left.
    set (root := {| ws_root := repo_path; ws_rel := [];
                    ws_files := files_of tree |}).
    assert (Hroot : In f (kept_files root)).
    { unfold kept_files, root. simpl. apply filter_In. split.
      - unfold files_of. apply in_flat_map. exists (FsFile f).
        split; [exact Hf | now left].
      - now rewrite Hfk. }
    destruct (kept_files root) as [| f0 fs0] eqn:Hk; [contradiction |].
    simpl map. cbn [add_files PyDict.get].
    set (bad := {| ws_root := os_path_join repo_path "_files";
                   ws_rel := ["_files"]; ws_files := files_of children |}).
    apply (@fold_enter_raises _ (fs_name f0 :: map fs_name fs0) _ bad).
    - intros st Hst. apply in_flat_map in Hst.
      destruct Hst as (e & _ & Hst). exact (walk_entry_rel_nonempty _ _ _ _ Hst).
    - apply in_flat_map. exists (FsDir "_files" children).
      split; [exact Hd |]. simpl. rewrite Hdk. now left.
    - reflexivity.
    - assert (Hin : In g (kept_files bad)).
      { unfold kept_files, bad. simpl. apply filter_In. split.
        - unfold files_of. apply in_flat_map. exists (FsFile g).
          split; [exact Hg | now left].
        - now rewrite Hgk. }
      intros Hnil. now rewrite Hnil in Hin.
    - reflexivity. }
  unfold analyze_repository. now rewrite Hgen.
Qed.

End Raise.

End FailureMore.

(* ================================================================== *)
(** * The further properties on the examples *)
(* ================================================================== *)

Module MoreWitnesses.
Import PyStr PyPath PyList PyDict CodeParser QAAgent Examples MoreExamples.
Import Notions MoreNotions.

Lemma file_record_bounds_witness :
  exists text,
    fs_read readme_md = Decoded text
    /\ (size readme_record <= 1048576)%N
    /\ 1 <= lines readme_record <= 1 + String.length text
    /\ String.length (content_preview readme_record) <= 503
    /\ (String.length text <= 500 -> content_preview readme_record = text)
    /\ (forall c, content readme_record = Some c -> c = text).
Proof.
  apply (@ParserMore.file_record_bounds plain_engines "repo/README.md"
           "README.md" readme_md readme_record).
  vm_compute. reflexivity.
Defined.

Lemma markdown_headings_witness :
  exists text,
    fs_read readme_md = Decoded text
    /\ functions readme_record
       = map (fun kl => heading_of (fst kl) (snd kl)) (heading_lines text)
    /\ StronglySorted (fun a b => fn_line a < fn_line b)
         (functions readme_record)
    /\ (forall k line,
          nth_error (split newline text) k = Some line ->
          is_header line = true ->
          In (heading_of k line) (functions readme_record))
    /\ List.length (functions readme_record)
       = List.length (filter is_header (split newline text))
    /\ List.length (functions readme_record) <= lines readme_record
    /\ forall fn, In fn (functions readme_record) ->
         1 <= fn_line fn <= lines readme_record
         /\ exists line,
              nth_error (split newline text) (fn_line fn - 1) = Some line
              /\ is_header line = true
              /\ fn = heading_of (fn_line fn - 1) line.
Proof.
  apply (@MarkdownMore.markdown_headings plain_engines "repo/README.md"
           "README.md" readme_md readme_record).
  - vm_compute. reflexivity.
  - reflexivity.
Defined.

Lemma analysed_paths_not_ignored_witness :
  should_ignore_path (full_path readme_record) = false
  /\ (forall part, In part (parts (full_path readme_record)) ->
        ~ In part ignore_dirs)
  /\ ~ In (name (full_path readme_record)) ignore_files
  /\ ~ In (lower (suffix (full_path readme_record))) binary_extensions.
Proof.
  apply (@RepositoryMore.analysed_paths_not_ignored plain_engines "repo"
           repo_with_readme readme_analysis readme_record).
  - vm_compute. reflexivity.
  - left. reflexivity.
Defined.

Lemma ignored_root_hides_everything_witness :
  all_files "build/checkout" small_repo = []
  /\ forall a,
       analyze_repository plain_engines "build/checkout" small_repo = Some a ->
       total_files a = 0 /\ analyzed_files a = 0 /\ files a = [].
Proof.
  apply (@RepositoryMore.ignored_root_hides_everything plain_engines
           "build/checkout" "build" small_repo).
  - left. reflexivity.
  - simpl. do 8 right. left. reflexivity.
  - vm_compute. reflexivity.
Defined.

Lemma full_path_is_root_and_path_witness :
  full_path readme_record = "repo" ++ "/" ++ path readme_record.
Proof.
  apply (@PathsMore.full_path_is_root_and_path plain_engines "repo"
           repo_with_readme readme_analysis readme_record).
  - discriminate.
  - reflexivity.
  - reflexivity.
  - vm_compute. reflexivity.
  - left. reflexivity.
Defined.

Lemma summary_totals_are_sums_witness :
  total_functions (summary readme_analysis)
  = list_sum (map (fun fi => List.length (functions fi)) (files readme_analysis))
  /\ total_classes (summary readme_analysis)
     = list_sum (map (fun fi => List.length (classes fi))
                     (files readme_analysis))
  /\ total_imports (summary readme_analysis)
     = list_sum (map (fun fi => List.length (imports fi))
                     (files readme_analysis)).
Proof.
  apply (@RepositoryMore.summary_totals_are_sums plain_engines "repo"
           repo_with_readme readme_analysis).
  vm_compute. reflexivity.
Defined.

Lemma analysis_returned_without_files_dir_witness :
  exists a,
    analyze_repository plain_engines "repo" small_repo = Some a
    /\ tidy (structure a) = true.
Proof.
  apply (@WalkMore.analysis_returned_without_files_dir plain_engines "repo"
           small_repo).
  reflexivity.
Defined.

Lemma class_index_round_trip_witness :
  let ag := load_repository_context init (Some app_analysis) plain_summary in
  exists entries,
    get (lower (cls_name app_class)) (idx_classes (search_index ag))
    = Some entries
    /\ In {| ce_file := path app_record; ce_class := app_class;
             ce_file_info := app_record |} entries
    /\ (forall e, In e entries ->
          ce_file e = path (ce_file_info e)
          /\ In (ce_file_info e) (files app_analysis)
          /\ In (ce_class e) (classes (ce_file_info e))
          /\ lower (cls_name (ce_class e)) = lower (cls_name app_class))
    /\ get "" (idx_classes (search_index ag)) = None.
Proof.
  apply (@IndexMore.class_index_round_trip init app_analysis plain_summary
           app_record app_class).
  - left. reflexivity.
  - left. reflexivity.
  - discriminate.
Defined.


Lemma skipped_files_are_counted_witness :
  total_files large_file_analysis
  = analyzed_files large_file_analysis
    + List.length (filter skipped (all_files "repo" repo_with_large_file))
  /\ (analyzed_files large_file_analysis = total_files large_file_analysis <->
      forall w, In w (all_files "repo" repo_with_large_file) ->
                skipped w = false).
Proof.
  apply (@FailureMore.skipped_files_are_counted plain_engines "repo"
           repo_with_large_file large_file_analysis).
  vm_compute. reflexivity.
Defined.

Lemma files_directory_loses_analysis_witness :
  analyze_repository plain_engines "repo"
    [FsFile main_py; FsDir "_files" [FsFile readme_md]] = None.
Proof.
  apply (@FailureMore.files_directory_loses_analysis plain_engines "repo"
           [FsFile main_py; FsDir "_files" [FsFile readme_md]]
           [FsFile readme_md] main_py readme_md).
  - now left.
  - vm_compute. reflexivity.
  - right. now left.
  - vm_compute. reflexivity.
  - now left.
  - vm_compute. reflexivity.
Defined.

End MoreWitnesses.
